(** * MARPD-MAX: the ledger store, the payment workflow and the wagers

    A shallow embedding of the money-moving code of the bot:
    - [db.py]       class [Database]       (module [Db]),
    - [payments.py] class [PaymentManager] (module [Payments]),
    - [games.py]    class [GamesManager]   (module [Games]),
    - [shop.py]     class [ShopManager]    (module [Shop]),
    - [config.py]   class [Config]         (module [Config]),
    - [utils.py]    class [Utils]          (module [Utils]).

    Conventions of the embedding.
    - Real-money amounts (Python [float]) are exact rationals [Q] in the
      ledger; coins, bets and prices (Python [int]) are [Z].  A rational
      stands for a finite float, and the two agree wherever the float
      operations of the code are exact, as they are on whole amounts
      below 2^53.  What the floats do beyond that (rounding, NaN) is
      followed on binary64 itself, for the tests and updates concerned.
    - A user record keeps the fields the ledger code reads or writes
      (id, balance, coins, the two lifetime counters, level, VIP flag,
      last activity); profile, XP, inventory, settings, moderation and
      referral fields are left out.  A payment keeps every field the
      workflow reads or writes; display name, reference text, instruction
      text and metadata are left out.
    - Python dictionaries are finite maps.  Keys built by [strftime] are
      kept as the numbers they print: a payment or log id
      ([%Y%m%d_%H%M%S_%f]) is the pair (second, microsecond), a
      transaction id ([%Y%m%d_%H%M%S]) is the second alone.
    - The code runs against an environment: a wall clock read by
      [datetime.now()], a storage device written by [pickle.dump], and the
      store's non-reentrant [threading.Lock].  They are part of the
      [World]; a call either returns, raises, or waits on the lock for
      ever.  A clock reading is modelled where its value is stored in a
      modelled field or decides a branch; the clock is an arbitrary
      sequence of readings.
    - Random draws are arguments of the game that makes them.
    - Message texts are not modelled: a failure is named after the
      [return] that produces it. *)

From Stdlib Require Import ZArith QArith Qpower Lqa Lia Ascii String Sorted Floats.
From stdpp Require Import gmap strings list fin_maps.

Open Scope Z_scope.

(** ** Numbers *)

Definition Qltb (x y : Q) : bool := negb (Qle_bool y x).
Definition Qgtb (x y : Q) : bool := Qltb y x.

(** Python's [int(x)] on a rational: truncation towards zero. *)
Definition Qtrunc (x : Q) : Z := Z.quot (Qnum x) (Z.pos (Qden x)).

Definition Qmin' (x y : Q) : Q := if Qle_bool x y then x else y.

(** ** config.py *)

Module Config.
Record ConfigClass := {
  WELCOME_BONUS : Z;
  MIN_DEPOSIT : Z;
  MIN_WITHDRAW : Z;
  MAX_WITHDRAW_DAILY : Z
}.

Definition Config : ConfigClass := {|
  WELCOME_BONUS := 500;
  MIN_DEPOSIT := 10;
  MIN_WITHDRAW := 50;
  MAX_WITHDRAW_DAILY := 10000
|}.
End Config.

(** ** Time *)

(** A naive local [datetime]: whole seconds since a fixed origin and the
    microsecond part. *)
Record datetime := { seconds : Z; microsecond : Z }.

(** [strftime("%Y-%m-%d")], the prefix of [isoformat()] that
    [startswith(today)] compares. *)
Definition date_of (t : datetime) : Z := seconds t / 86400.

(** [strftime('%Y%m%d_%H%M%S_%f')] *)
Definition stamp_us (t : datetime) : Z * Z := (seconds t, microsecond t).

(** [strftime('%Y%m%d_%H%M%S')] *)
Definition stamp_s (t : datetime) : Z := seconds t.

(** Order of two [isoformat()] strings. *)
Definition dt_leb (a b : datetime) : bool :=
  (seconds a <? seconds b) || ((seconds a =? seconds b) && (microsecond a <=? microsecond b)).

(** Order of [x.get(key, "")]: the empty string is below every stamp. *)
Definition odt_leb (a b : option datetime) : bool :=
  match a, b with
  | None, _ => true
  | Some _, None => false
  | Some x, Some y => dt_leb x y
  end.

(** ** Records *)

Record User := {
  u_id : Z;                  (* "id" *)
  balance : Q;
  coins : Z;
  total_earned : Q;
  total_spent : Q;
  level : Z;
  is_vip : bool;
  last_active : datetime
}.

Inductive ptype := DEPOSIT | WITHDRAW.
Inductive pstatus := PENDING | COMPLETED | REJECTED.
Inductive method := nagod | bikash | rocket | upay.

Record Payment := {
  p_user_id : Z;
  p_type : ptype;
  method_code : method;
  amount : Q;
  net_amount : Q;
  fee : Q;
  fee_percent : Q;
  status : pstatus;
  trx_id : option string;
  account_number : option string;
  requested_at : datetime;
  (* set by [add_payment] *)
  p_id : option (Z * Z);
  created_at : option datetime;
  confirmed_by : option Z;
  confirmed_at : option datetime;
  (* set by confirmation and rejection *)
  processed_at : option datetime;
  first_deposit_bonus : option Q;
  rejected_by : option Z;
  rejected_at : option datetime;
  rejection_reason : option string
}.

Record Transaction := {
  tx_id : Z;
  tx_user_id : Z;
  tx_type : ptype;
  tx_amount : Q;
  tx_status : pstatus;
  tx_timestamp : datetime;
  tx_reference : Z * Z
}.

Record Item := {
  item_id : string;
  price : Z;
  category : string;
  stock : option Z;            (* key absent: unlimited *)
  min_level : option Z;        (* requirements["min_level"] *)
  vip_only : option bool       (* requirements["vip_only"] *)
}.

Record LogEntry := {
  log_type : string;
  log_user : option Z;
  log_timestamp : datetime
}.

Record GameDay := {
  plays : Z;
  wins : Z;
  total_bet : Z;
  total_payout : Z
}.

(** The [updates] dictionary handed to [update_user]: the keys it may
    carry among the modelled fields. *)
Record Updates := {
  upd_balance : option Q;
  upd_coins : option Z;
  upd_total_earned : option Q;
  upd_total_spent : option Q
}.

Definition no_updates : Updates :=
  {| upd_balance := None; upd_coins := None;
     upd_total_earned := None; upd_total_spent := None |}.

(** ** Storage *)

Inductive file (C : Type) := Absent | Corrupt | Valid (c : C).
Arguments Absent {C}.
Arguments Corrupt {C}.
Arguments Valid {C} c.

(** What one [open(path, 'wb')] + [pickle.dump] does: it completes, or
    [open] fails and the old file stays, or the dump fails after the file
    was truncated. *)
Inductive write_result := Written | NotOpened | Torn.

Record Disk := {
  users_pkl : file (gmap Z User);
  payments_pkl : file (gmap (Z * Z) Payment);
  transactions_pkl : file (gmap Z Transaction);
  shop_pkl : file (list Item);
  games_pkl : file (gmap (string * Z) GameDay);
  logs_pkl : file (gmap (Z * Z) LogEntry);
  stats_pkl : file Z
}.

(** ** The world a call runs in *)

Record World := {
  (* class Database *)
  users : gmap Z User;
  payments : gmap (Z * Z) Payment;
  transactions : gmap Z Transaction;
  shop : list Item;
  games : gmap (string * Z) GameDay;
  logs : gmap (Z * Z) LogEntry;
  stats_total_users : Z;
  lock : bool;                       (* threading.Lock: held or free *)
  (* class ShopManager *)
  daily_deals : gmap string Z;       (* item id -> discounted_price *)
  (* environment *)
  disk : Disk;
  clock : nat -> datetime;           (* the k-th answer of datetime.now() *)
  reads : nat;                       (* answers consumed so far *)
  storage : nat -> write_result;     (* outcome of the k-th write *)
  writes : nat                       (* writes attempted so far *)
}.

Inductive exn := NameError (name : string).

Inductive outcome (A : Type) :=
| Ret (a : A) (w : World)            (* the call returned [a] *)
| Raise (e : exn) (w : World)        (* an exception reached the caller *)
| Block (w : World).                 (* the thread waits on the lock for ever *)
Arguments Ret {A} a w.
Arguments Raise {A} e w.
Arguments Block {A} w.

Definition M (A : Type) : Type := World -> outcome A.

Definition ret {A} (a : A) : M A := fun w => Ret a w.

Definition bind {A B} (m : M A) (k : A -> M B) : M B :=
  fun w => match m w with
           | Ret a w' => k a w'
           | Raise e w' => Raise e w'
           | Block w' => Block w'
           end.

Notation "'call' x <- m ; k" := (bind m (fun x => k))
  (at level 10, x name, m at level 100, k at level 200).
Notation "'exec' m ; k" := (bind m (fun _ => k))
  (at level 10, m at level 100, k at level 200).

Definition raise {A} (e : exn) : M A := fun w => Raise e w.
Definition gets {A} (f : World -> A) : M A := fun w => Ret (f w) w.
Definition modify (f : World -> World) : M unit := fun w => Ret tt (f w).

(** The world in which a call ends, whichever way it ends. *)
Definition final {A} (o : outcome A) : World :=
  match o with Ret _ w => w | Raise _ w => w | Block w => w end.

(** *** Field updates *)

Definition set_users (f : gmap Z User -> gmap Z User) (w : World) : World :=
  {| users := f (users w); payments := payments w; transactions := transactions w;
     shop := shop w; games := games w; logs := logs w;
     stats_total_users := stats_total_users w; lock := lock w;
     daily_deals := daily_deals w; disk := disk w; clock := clock w;
     reads := reads w; storage := storage w; writes := writes w |}.

Definition set_payments (f : gmap (Z * Z) Payment -> gmap (Z * Z) Payment) (w : World) : World :=
  {| users := users w; payments := f (payments w); transactions := transactions w;
     shop := shop w; games := games w; logs := logs w;
     stats_total_users := stats_total_users w; lock := lock w;
     daily_deals := daily_deals w; disk := disk w; clock := clock w;
     reads := reads w; storage := storage w; writes := writes w |}.

Definition set_transactions (f : gmap Z Transaction -> gmap Z Transaction) (w : World) : World :=
  {| users := users w; payments := payments w; transactions := f (transactions w);
     shop := shop w; games := games w; logs := logs w;
     stats_total_users := stats_total_users w; lock := lock w;
     daily_deals := daily_deals w; disk := disk w; clock := clock w;
     reads := reads w; storage := storage w; writes := writes w |}.

Definition set_shop (f : list Item -> list Item) (w : World) : World :=
  {| users := users w; payments := payments w; transactions := transactions w;
     shop := f (shop w); games := games w; logs := logs w;
     stats_total_users := stats_total_users w; lock := lock w;
     daily_deals := daily_deals w; disk := disk w; clock := clock w;
     reads := reads w; storage := storage w; writes := writes w |}.

Definition set_games (f : gmap (string * Z) GameDay -> gmap (string * Z) GameDay) (w : World) : World :=
  {| users := users w; payments := payments w; transactions := transactions w;
     shop := shop w; games := f (games w); logs := logs w;
     stats_total_users := stats_total_users w; lock := lock w;
     daily_deals := daily_deals w; disk := disk w; clock := clock w;
     reads := reads w; storage := storage w; writes := writes w |}.

Definition set_logs (f : gmap (Z * Z) LogEntry -> gmap (Z * Z) LogEntry) (w : World) : World :=
  {| users := users w; payments := payments w; transactions := transactions w;
     shop := shop w; games := games w; logs := f (logs w);
     stats_total_users := stats_total_users w; lock := lock w;
     daily_deals := daily_deals w; disk := disk w; clock := clock w;
     reads := reads w; storage := storage w; writes := writes w |}.

Definition set_stats_total_users (n : Z) (w : World) : World :=
  {| users := users w; payments := payments w; transactions := transactions w;
     shop := shop w; games := games w; logs := logs w;
     stats_total_users := n; lock := lock w;
     daily_deals := daily_deals w; disk := disk w; clock := clock w;
     reads := reads w; storage := storage w; writes := writes w |}.

Definition set_lock (b : bool) (w : World) : World :=
  {| users := users w; payments := payments w; transactions := transactions w;
     shop := shop w; games := games w; logs := logs w;
     stats_total_users := stats_total_users w; lock := b;
     daily_deals := daily_deals w; disk := disk w; clock := clock w;
     reads := reads w; storage := storage w; writes := writes w |}.

Definition set_disk (f : Disk -> Disk) (w : World) : World :=
  {| users := users w; payments := payments w; transactions := transactions w;
     shop := shop w; games := games w; logs := logs w;
     stats_total_users := stats_total_users w; lock := lock w;
     daily_deals := daily_deals w; disk := f (disk w); clock := clock w;
     reads := reads w; storage := storage w; writes := writes w |}.

Definition set_reads (n : nat) (w : World) : World :=
  {| users := users w; payments := payments w; transactions := transactions w;
     shop := shop w; games := games w; logs := logs w;
     stats_total_users := stats_total_users w; lock := lock w;
     daily_deals := daily_deals w; disk := disk w; clock := clock w;
     reads := n; storage := storage w; writes := writes w |}.

Definition set_writes (n : nat) (w : World) : World :=
  {| users := users w; payments := payments w; transactions := transactions w;
     shop := shop w; games := games w; logs := logs w;
     stats_total_users := stats_total_users w; lock := lock w;
     daily_deals := daily_deals w; disk := disk w; clock := clock w;
     reads := reads w; storage := storage w; writes := n |}.

(** *** Environment primitives *)

(** [datetime.now()] *)
Definition now : M datetime :=
  fun w => Ret (clock w (reads w)) (set_reads (S (reads w)) w).

(** [with self.lock: body].  The lock is not reentrant: taking it while it
    is held never returns.  Leaving the block, normally or by an
    exception, releases it. *)
Definition with_lock {A} (body : M A) : M A :=
  fun w =>
    if lock w then Block w
    else match body (set_lock true w) with
         | Ret a w' => Ret a (set_lock false w')
         | Raise e w' => Raise e (set_lock false w')
         | Block w' => Block w'
         end.

(** A stable insertion sort, ascending for [leb]. *)
Fixpoint insert_sorted {A} (leb : A -> A -> bool) (x : A) (l : list A) : list A :=
  match l with
  | [] => [x]
  | y :: l' => if leb x y then x :: y :: l' else y :: insert_sorted leb x l'
  end.

Definition sorted {A} (leb : A -> A -> bool) (l : list A) : list A :=
  foldr (insert_sorted leb) [] l.

(** The slice [l[:stop]]: the first [stop] elements, or, for a negative
    [stop], all but the last [-stop]. *)
Definition py_prefix {A} (stop : Z) (l : list A) : list A :=
  if 0 <=? stop then take (Z.to_nat stop) l
  else take (length l - Z.to_nat (- stop)) l.

(** ** Results *)

(** The [{"success": False, "message": ...}] answers, one per [return]. *)
Inductive failure :=
| UserNotFound                 (* no such user *)
| PaymentNotFound              (* no such payment *)
| InvalidTransition (current : pstatus)  (* the payment is already [current] *)
| ManualConfirmationRequired   (* not eligible for automatic confirmation *)
| OnlyWithdrawals              (* confirm_withdraw on another payment type *)
| BelowMinimum                 (* under the minimum deposit or withdrawal *)
| AboveMaximum                 (* over the maximum deposit or withdrawal *)
| DailyLimitExceeded (remaining : Q)     (* today's withdrawal limit is used up *)
| InsufficientBalance          (* balance < amount *)
| UnknownMethod                (* payment method not in the table *)
| MethodUnsupported            (* payment method switched off *)
| InvalidAccountNumber         (* not a mobile number *)
| BetTooSmall
| BetTooLarge
| InsufficientCoins            (* unknown user, or coins < cost *)
| ItemNotFound
| LevelTooLow
| VipOnly
| OutOfStock.

Inductive result (A : Type) :=
| Success (a : A)
| Failure (f : failure).
Arguments Success {A} a.
Arguments Failure {A} f.

Global Instance ptype_eq_dec : EqDecision ptype.
Proof. solve_decision. Defined.
Global Instance pstatus_eq_dec : EqDecision pstatus.
Proof. solve_decision. Defined.
Global Instance method_eq_dec : EqDecision method.
Proof. solve_decision. Defined.

(** ** db.py *)

Module Db.
Import Config.

(** *** Persistence *)

(** [_load_data(name, default)]: [pickle_file] and [json_file] are the
    states of [data/<name>.pkl] and [data/<name>.json]; [empty] is [{}]. *)
Definition _load_data {C} (empty : C) (pickle_file json_file : file C)
    (default : option C) : C :=
  let fallback := match default with Some d => d | None => empty end in
  match pickle_file with
  | Valid c => c
  | Corrupt => fallback              (* load raised inside the try *)
  | Absent =>
      match json_file with
      | Valid c => c
      | Corrupt => fallback
      | Absent => fallback
      end
  end.

(** The state of a file after [open(path, 'wb')] and [pickle.dump]. *)
Definition write_file {C} (r : write_result) (data : C) (old : file C) : file C :=
  match r with
  | Written => Valid data
  | NotOpened => old
  | Torn => Corrupt
  end.

(** [_save_data(name, data)]; [over] selects [data/<name>.pkl].  [True]
    after a complete write; an exception is caught, printed and turned
    into [False]. *)
Definition _save_data {C} (over : (file C -> file C) -> Disk -> Disk) (data : C)
    : M bool :=
  fun w =>
    let r := storage w (writes w) in
    Ret (match r with Written => true | _ => false end)
        (set_disk (over (write_file r data)) (set_writes (S (writes w)) w)).

Definition over_users (f : file (gmap Z User) -> file (gmap Z User)) (d : Disk) : Disk :=
  {| users_pkl := f (users_pkl d); payments_pkl := payments_pkl d;
     transactions_pkl := transactions_pkl d; shop_pkl := shop_pkl d;
     games_pkl := games_pkl d; logs_pkl := logs_pkl d; stats_pkl := stats_pkl d |}.
Definition over_payments
    (f : file (gmap (Z * Z) Payment) -> file (gmap (Z * Z) Payment)) (d : Disk) : Disk :=
  {| users_pkl := users_pkl d; payments_pkl := f (payments_pkl d);
     transactions_pkl := transactions_pkl d; shop_pkl := shop_pkl d;
     games_pkl := games_pkl d; logs_pkl := logs_pkl d; stats_pkl := stats_pkl d |}.
Definition over_transactions
    (f : file (gmap Z Transaction) -> file (gmap Z Transaction)) (d : Disk) : Disk :=
  {| users_pkl := users_pkl d; payments_pkl := payments_pkl d;
     transactions_pkl := f (transactions_pkl d); shop_pkl := shop_pkl d;
     games_pkl := games_pkl d; logs_pkl := logs_pkl d; stats_pkl := stats_pkl d |}.
Definition over_shop (f : file (list Item) -> file (list Item)) (d : Disk) : Disk :=
  {| users_pkl := users_pkl d; payments_pkl := payments_pkl d;
     transactions_pkl := transactions_pkl d; shop_pkl := f (shop_pkl d);
     games_pkl := games_pkl d; logs_pkl := logs_pkl d; stats_pkl := stats_pkl d |}.
Definition over_games
    (f : file (gmap (string * Z) GameDay) -> file (gmap (string * Z) GameDay))
    (d : Disk) : Disk :=
  {| users_pkl := users_pkl d; payments_pkl := payments_pkl d;
     transactions_pkl := transactions_pkl d; shop_pkl := shop_pkl d;
     games_pkl := f (games_pkl d); logs_pkl := logs_pkl d; stats_pkl := stats_pkl d |}.
Definition over_logs
    (f : file (gmap (Z * Z) LogEntry) -> file (gmap (Z * Z) LogEntry)) (d : Disk) : Disk :=
  {| users_pkl := users_pkl d; payments_pkl := payments_pkl d;
     transactions_pkl := transactions_pkl d; shop_pkl := shop_pkl d;
     games_pkl := games_pkl d; logs_pkl := f (logs_pkl d); stats_pkl := stats_pkl d |}.
Definition over_stats (f : file Z -> file Z) (d : Disk) : Disk :=
  {| users_pkl := users_pkl d; payments_pkl := payments_pkl d;
     transactions_pkl := transactions_pkl d; shop_pkl := shop_pkl d;
     games_pkl := games_pkl d; logs_pkl := logs_pkl d; stats_pkl := f (stats_pkl d) |}.

(** [self._save_data("users", self.users)] and its siblings. *)
Definition save_users : M bool := call d <- gets users; _save_data over_users d.
Definition save_payments : M bool := call d <- gets payments; _save_data over_payments d.
Definition save_transactions : M bool :=
  call d <- gets transactions; _save_data over_transactions d.
Definition save_shop : M bool := call d <- gets shop; _save_data over_shop d.
Definition save_games : M bool := call d <- gets games; _save_data over_games d.
Definition save_logs : M bool := call d <- gets logs; _save_data over_logs d.
Definition save_stats : M bool := call d <- gets stats_total_users; _save_data over_stats d.

(** *** Users *)

Definition get_user (user_id : Z) : M (option User) :=
  with_lock (gets (fun w => users w !! user_id)).

(** Evaluating the global name [Config] inside db.py.  The module
    imports json, os, shutil, datetime, typing, threading and pickle; it
    does not import config.py, so the name is unbound and its evaluation
    raises [NameError]. *)
Definition global_Config : M ConfigClass := raise (NameError "Config").

(** [create_user(user_id, user_info)]; [user_info] only feeds profile
    fields. *)
Definition create_user (user_id : Z) (user_info : gmap string string) : M User :=
  with_lock (
    call timestamp <- now;
    call cfg <- global_Config;
    let user_data :=
      {| u_id := user_id;
         balance := inject_Z (WELCOME_BONUS cfg);
         coins := WELCOME_BONUS cfg;
         total_earned := 0;
         total_spent := 0;
         level := 1;
         is_vip := false;
         last_active := timestamp |} in
    exec modify (set_users (insert user_id user_data));
    exec save_users;
    exec modify (fun w => set_stats_total_users (Z.of_nat (size (users w))) w);
    exec save_stats;
    ret user_data).

(** [self.users[user_id_str].update(updates)] after
    [updates["last_active"] = now]. *)
Definition merge (updates : Updates) (t : datetime) (u : User) : User :=
  {| u_id := u_id u;
     balance := default (balance u) (upd_balance updates);
     coins := default (coins u) (upd_coins updates);
     total_earned := default (total_earned u) (upd_total_earned updates);
     total_spent := default (total_spent u) (upd_total_spent updates);
     level := level u;
     is_vip := is_vip u;
     last_active := t |}.

Definition update_user (user_id : Z) (updates : Updates) : M bool :=
  with_lock (
    call present <- gets (fun w => users w !! user_id);
    match present with
    | Some u =>
        call t <- now;
        exec modify (set_users (insert user_id (merge updates t u)));
        exec save_users;
        ret true
    | None => ret false
    end).

(** *** Payments *)

(** [payment_data.update({"id": ..., "created_at": ..., "status": "PENDING",
    "confirmed_by": None, "confirmed_at": None, "notes": ""})] *)
Definition registered (payment_id : Z * Z) (t_created : datetime)
    (payment_data : Payment) : Payment :=
  {| p_user_id := p_user_id payment_data;
     p_type := p_type payment_data;
     method_code := method_code payment_data;
     amount := amount payment_data;
     net_amount := net_amount payment_data;
     fee := fee payment_data;
     fee_percent := fee_percent payment_data;
     status := PENDING;
     trx_id := trx_id payment_data;
     account_number := account_number payment_data;
     requested_at := requested_at payment_data;
     p_id := Some payment_id;
     created_at := Some t_created;
     confirmed_by := None;
     confirmed_at := None;
     processed_at := processed_at payment_data;
     first_deposit_bonus := first_deposit_bonus payment_data;
     rejected_by := rejected_by payment_data;
     rejected_at := rejected_at payment_data;
     rejection_reason := rejection_reason payment_data |}.

(** The transaction record written next to a payment. *)
Definition mirror (transaction_id : Z) (t : datetime) (payment_id : Z * Z)
    (payment : Payment) : Transaction :=
  {| tx_id := transaction_id;
     tx_user_id := p_user_id payment;
     tx_type := p_type payment;
     tx_amount := amount payment;
     tx_status := PENDING;
     tx_timestamp := t;
     tx_reference := payment_id |}.

Definition add_payment (payment_data : Payment) : M (Z * Z) :=
  with_lock (
    call t_id <- now;
    let payment_id := stamp_us t_id in
    call t_created <- now;
    let payment := registered payment_id t_created payment_data in
    exec modify (set_payments (insert payment_id payment));
    exec save_payments;
    (* Add to transactions *)
    call t_tx <- now;
    let transaction_id := stamp_s t_tx in
    call t_stamp <- now;
    exec modify (set_transactions
                   (insert transaction_id (mirror transaction_id t_stamp payment_id payment)));
    exec save_transactions;
    ret payment_id).

(** [self.payments.values()] *)
Definition payment_values (m : gmap (Z * Z) Payment) : list Payment :=
  (map_to_list m).*2.

(** Newest first: [sort(key=created_at, reverse=True)]. *)
Definition newer_first (a b : Payment) : bool :=
  odt_leb (created_at b) (created_at a).

(** [get_user_payments(user_id, limit)]: the payments of the user,
    newest first, cut by the slice [[:limit]]. *)
Definition get_user_payments (user_id : Z) (limit : Z) : M (list Payment) :=
  gets (fun w =>
    py_prefix limit (sorted newer_first
      (filter (fun p => p_user_id p = user_id) (payment_values (payments w))))).

(** *** Shop *)

Definition get_item (item : string) : M (option Item) :=
  gets (fun w => List.find (fun i => String.eqb (item_id i) item) (shop w)).

(** *** Games *)

Definition bump (won : bool) (bet payout : option Z) (g : GameDay) : GameDay :=
  {| plays := plays g + 1;
     wins := if won then wins g + 1 else wins g;
     total_bet := match bet with Some b => total_bet g + b | None => total_bet g end;
     total_payout :=
       match payout with Some p => total_payout g + p | None => total_payout g end |}.

(** [update_game_stats(user_id, game_type, result)]; [won], [bet] and
    [payout] are the entries of [result] it reads.  The per-user
    counters it bumps live in the unmodelled [stats] field. *)
Definition update_game_stats (user_id : Z) (game_type : string)
    (won : bool) (bet payout : option Z) : M unit :=
  with_lock (
    call user <- get_user user_id;
    exec (match user with
          | Some _ => call _ <- update_user user_id no_updates; ret tt
          | None => ret tt
          end);
    call t <- now;
    let game_key := (game_type, date_of t) in
    exec modify (set_games (fun g =>
      match g !! game_key with
      | None => <[game_key := {| plays := 0; wins := 0; total_bet := 0; total_payout := 0 |}]> g
      | Some _ => g
      end));
    exec modify (set_games (alter (bump won bet payout) game_key));
    exec save_games;
    ret tt).

(** *** Log *)

Definition older_first (a b : (Z * Z) * LogEntry) : bool :=
  dt_leb (log_timestamp a.2) (log_timestamp b.2).

(** Keep only the last 1000 logs. *)
Definition prune (m : gmap (Z * Z) LogEntry) : gmap (Z * Z) LogEntry :=
  let sorted_logs := sorted older_first (map_to_list m) in
  foldr delete m (take (length sorted_logs - 1000)%nat sorted_logs.*1).

Definition add_log (kind : string) (user_id : option Z) : M unit :=
  with_lock (
    call t_id <- now;
    let log_id := stamp_us t_id in
    call t <- now;
    exec modify (set_logs (insert log_id
      {| log_type := kind; log_user := user_id; log_timestamp := t |}));
    exec save_logs;
    call n <- gets (fun w => size (logs w));
    if (1000 <? n)%nat
    then exec modify (set_logs prune); exec save_logs; ret tt
    else ret tt).
End Db.

(** ** utils.py *)

Module Utils.
Definition is_digit (c : ascii) : bool :=
  ((48 <=? nat_of_ascii c) && (nat_of_ascii c <=? 57))%nat.

(** [\d{n}$]: [n] digits, then the end of the text or one final newline. *)
Fixpoint digits_then_end (n : nat) (s : string) : bool :=
  match n, s with
  | O, EmptyString => true
  | O, String c EmptyString => Ascii.eqb c "010"%char
  | O, _ => false
  | S n', String c s' => is_digit c && digits_then_end n' s'
  | S _, EmptyString => false
  end.

(** [01[3-9]\d{8}$] *)
Definition local_number (s : string) : bool :=
  match s with
  | String "0"%char (String "1"%char (String c s')) =>
      ((51 <=? nat_of_ascii c) && (nat_of_ascii c <=? 57))%nat && digits_then_end 8 s'
  | _ => false
  end.

(** [validate_phone]: [re.match(r'^(?:\+88|88)?(01[3-9]\d{8})$', number)]
    on ASCII text. *)
Definition validate_phone (number : string) : bool :=
  match number with
  | String "+"%char (String "8"%char (String "8"%char s')) => local_number s'
  | String "8"%char (String "8"%char s') => local_number s'
  | _ => local_number number
  end.

Definition lower_ascii (c : ascii) : ascii :=
  let n := nat_of_ascii c in
  if ((65 <=? n) && (n <=? 90))%nat then ascii_of_nat (n + 32) else c.

(** [str.lower()] on ASCII text: the letters A to Z are the only
    characters below 128 that it changes.  (Beyond ASCII, [str.lower()]
    also maps letters such as the Kelvin sign to ASCII ones: what is
    said of the names that [lower] maps to a payment method is said for
    ASCII text.) *)
Fixpoint lower (s : string) : string :=
  match s with
  | EmptyString => EmptyString
  | String c s' => String (lower_ascii c) (lower s')
  end.
(** [int(xp_needed * 1.5)]: each level needs 50% more XP, rounded
    towards zero.  The product is a binary64 one; for [xp_needed] below
    [2^51] it is exact (a multiple of one half below [2^52]), so that
    the integer is the one computed here.  The loop only multiplies
    requirements that the XP has reached: the properties of the loop
    are stated for an XP below [2^51]. *)
Definition next_xp_needed (xp_needed : Z) : Z :=
  Qtrunc (inject_Z xp_needed * (3 # 2)).

(** The [while xp >= xp_needed] loop of [calculate_level], run for at
    most [fuel] turns: the final [(level, xp, xp_needed)], or [None] when
    the turns run out first. *)
Fixpoint level_loop (fuel : nat) (level xp xp_needed : Z) : option (Z * Z * Z) :=
  match fuel with
  | O => None
  | S fuel' =>
      if xp_needed <=? xp
      then level_loop fuel' (level + 1) (xp - xp_needed) (next_xp_needed xp_needed)
      else Some (level, xp, xp_needed)
  end.

(** [sum(100 * (1.5 ** i) for i in range(n))] *)
Definition nominal_xp (n : nat) : Q :=
  fold_left Qplus ((fun i : nat => (100 * (3 # 2) ^ Z.of_nat i)%Q) <$> seq 0 n) 0%Q.

(** The dictionary [calculate_level] returns. *)
Record level_info := {
  lv_level : Z;
  lv_xp : Z;
  lv_xp_needed : Z;
  lv_total_xp : Q
}.

(** [calculate_level(xp)], its loop given [fuel] turns. *)
Definition calculate_level (fuel : nat) (xp : Z) : option level_info :=
  match level_loop fuel 1 xp 100 with
  | Some (level, xp, xp_needed) =>
      Some {| lv_level := level; lv_xp := xp; lv_xp_needed := xp_needed;
              lv_total_xp := inject_Z xp + nominal_xp (Z.to_nat (level - 1)) |}
  | None => None
  end.
End Utils.

(** ** payments.py *)

Module Payments.
Import Config.

(** The keys of [self.payment_methods]. *)
Definition payment_methods (code : string) : option method :=
  if String.eqb code "nagod" then Some nagod
  else if String.eqb code "bikash" then Some bikash
  else if String.eqb code "rocket" then Some rocket
  else if String.eqb code "upay" then Some upay
  else None.

Definition method_fee_percent (m : method) : Q :=
  match m with
  | nagod => 0
  | bikash => 3 # 2
  | rocket => 1
  | upay => 1 # 2
  end.

Definition method_supported (m : method) : bool := true.

Definition draft (user_id : Z) (ty : ptype) (m : method) (amount fee net : Q)
    (trx account : option string) (t : datetime) : Payment :=
  {| p_user_id := user_id; p_type := ty; method_code := m;
     amount := amount; net_amount := net; fee := fee;
     fee_percent := method_fee_percent m; status := PENDING;
     trx_id := trx; account_number := account; requested_at := t;
     p_id := None; created_at := None; confirmed_by := None; confirmed_at := None;
     processed_at := None; first_deposit_bonus := None;
     rejected_by := None; rejected_at := None; rejection_reason := None |}.

(** *** Deposits *)

Definition request_deposit (user_id : Z) (amount : Q) (method : string)
    (trx_id : option string) : M (result (Z * Z)) :=
  if Qltb amount (inject_Z (MIN_DEPOSIT Config)) then ret (Failure BelowMinimum)
  else if Qgtb amount 50000 then ret (Failure AboveMaximum)
  else
    let method_lower := Utils.lower method in
    match payment_methods method_lower with
    | None => ret (Failure UnknownMethod)
    | Some payment_method =>
        if negb (method_supported payment_method) then ret (Failure MethodUnsupported)
        else
          let fee := (amount * (method_fee_percent payment_method / 100))%Q in
          let net_amount := (amount - fee)%Q in
          call t <- now;
          let payment_data :=
            draft user_id DEPOSIT payment_method amount fee net_amount trx_id None t in
          call payment_id <- Db.add_payment payment_data;
          exec Db.add_log "payment_request" (Some user_id);
          ret (Success payment_id)
    end.

Definition confirmed (admin_id : Z) (t : datetime) (trx : string) (p : Payment) : Payment :=
  {| p_user_id := p_user_id p; p_type := p_type p; method_code := method_code p;
     amount := amount p; net_amount := net_amount p; fee := fee p;
     fee_percent := fee_percent p; status := COMPLETED;
     trx_id := Some trx; account_number := account_number p;
     requested_at := requested_at p; p_id := p_id p; created_at := created_at p;
     confirmed_by := Some admin_id; confirmed_at := Some t;
     processed_at := processed_at p; first_deposit_bonus := first_deposit_bonus p;
     rejected_by := rejected_by p; rejected_at := rejected_at p;
     rejection_reason := rejection_reason p |}.

Definition with_bonus (b : Q) (p : Payment) : Payment :=
  {| p_user_id := p_user_id p; p_type := p_type p; method_code := method_code p;
     amount := amount p; net_amount := net_amount p; fee := fee p;
     fee_percent := fee_percent p; status := status p;
     trx_id := trx_id p; account_number := account_number p;
     requested_at := requested_at p; p_id := p_id p; created_at := created_at p;
     confirmed_by := confirmed_by p; confirmed_at := confirmed_at p;
     processed_at := processed_at p; first_deposit_bonus := Some b;
     rejected_by := rejected_by p; rejected_at := rejected_at p;
     rejection_reason := rejection_reason p |}.

(** [user["balance"] = ...; user["total_earned"] = ...] *)
Definition credited (x : Q) (u : User) : User :=
  {| u_id := u_id u; balance := (balance u + x)%Q; coins := coins u;
     total_earned := (total_earned u + x)%Q; total_spent := total_spent u;
     level := level u; is_vip := is_vip u; last_active := last_active u |}.

Record deposit_receipt := {
  amount_added : Q;
  bonus : Q;
  new_balance : Q
}.

(** The part of [confirm_deposit] after the guards. *)
Definition settle_deposit (payment_id : Z * Z) (payment : Payment)
    (trx : string) (admin_id : Z) : M (result deposit_receipt) :=
  (* Update payment status *)
  call t <- now;
  let payment := confirmed admin_id t trx payment in
  exec modify (set_payments (insert payment_id payment));
  (* Add bonus for first deposit *)
  call user <- Db.get_user (p_user_id payment);
  call history <- Db.get_user_payments (p_user_id payment) 20;
  let is_first_deposit := (length history =? 0)%nat in
  let deposit_bonus :=
    if is_first_deposit then Qmin' (amount payment * (1 # 10)) 500 else 0%Q in
  let payment := if is_first_deposit then with_bonus deposit_bonus payment else payment in
  exec modify (set_payments (insert payment_id payment));
  (* Update user balance *)
  let total_added := (net_amount payment + deposit_bonus)%Q in
  exec (match user with
        | Some u =>
            let u := credited total_added u in
            exec modify (set_users (insert (p_user_id payment) u));
            call _ <- Db.update_user (p_user_id payment)
              {| upd_balance := Some (balance u); upd_coins := None;
                 upd_total_earned := Some (total_earned u);
                 upd_total_spent := None |};
            ret tt
        | None => ret tt
        end);
  (* Save payment *)
  exec modify (set_payments (insert payment_id payment));
  exec Db.save_payments;
  exec Db.add_log "payment_confirmed" (Some (p_user_id payment));
  ret (Success
    {| amount_added := total_added;
       bonus := deposit_bonus;
       new_balance :=
         match user with Some u => (balance u + total_added)%Q | None => 0 end |}).

Definition auto_confirmable (payment : Payment) : bool :=
  Qle_bool (amount payment) 500 &&
  bool_decide (method_code payment = nagod ∨ method_code payment = bikash).

Definition confirm_deposit (payment_id : Z * Z) (trx : string)
    (admin_id : option Z) : M (result deposit_receipt) :=
  call found <- gets (fun w => payments w !! payment_id);
  match found with
  | None => ret (Failure PaymentNotFound)
  | Some payment =>
      if negb (bool_decide (status payment = PENDING))
      then ret (Failure (InvalidTransition (status payment)))
      else
        match admin_id with
        | None =>
            (* Auto-confirmation rules *)
            if auto_confirmable payment
            then settle_deposit payment_id payment trx 0
            else ret (Failure ManualConfirmationRequired)
        | Some a => settle_deposit payment_id payment trx a
        end
  end.

(** *** Withdrawals *)

(** The loop of [_get_today_withdrawals]: the payments of the user, of
    type WITHDRAW, requested on the day [today]. *)
Definition todays_withdrawals (user_id today : Z) (m : gmap (Z * Z) Payment)
    : list Payment :=
  filter (fun p => p_user_id p = user_id
                   ∧ p_type p = WITHDRAW
                   ∧ date_of (requested_at p) = today)
         (Db.payment_values m).

(** [_get_today_withdrawals(user_id)] *)
Definition _get_today_withdrawals (user_id : Z) : M (list Payment) :=
  call t <- now;
  let today := date_of t in
  gets (fun w => todays_withdrawals user_id today (payments w)).

(** [sum(w["amount"] for w in today_withdrawals)], as an exact sum: the
    float sum of the code equals it when the amounts are whole and the
    total stays below 2^53. *)
Definition total_amount (l : list Payment) : Q :=
  fold_left Qplus (amount <$> l) 0%Q.

(** [user["balance"] -= amount; user["total_spent"] = ... + amount], in
    exact arithmetic; [float_debited] below is the binary64 difference. *)
Definition debited (x : Q) (u : User) : User :=
  {| u_id := u_id u; balance := (balance u - x)%Q; coins := coins u;
     total_earned := total_earned u; total_spent := (total_spent u + x)%Q;
     level := level u; is_vip := is_vip u; last_active := last_active u |}.

Record withdraw_receipt := {
  w_payment_id : Z * Z;
  w_net_amount : Q;
  w_fee : Q;
  w_new_balance : Q
}.

(** [request_withdraw], for an amount that is a finite number.  (An
    amount of type [float] can also be NaN; what the tests below make of
    it is followed on binary64, in [amount_accepted].) *)
Definition request_withdraw (user_id : Z) (amount : Q) (method : string)
    (account : string) : M (result withdraw_receipt) :=
  call found <- Db.get_user user_id;
  match found with
  | None => ret (Failure UserNotFound)
  | Some user =>
      (* Validate amount *)
      if Qltb amount (inject_Z (MIN_WITHDRAW Config)) then ret (Failure BelowMinimum)
      else if Qgtb amount (inject_Z (MAX_WITHDRAW_DAILY Config)) then ret (Failure AboveMaximum)
      else
        (* Check daily withdrawal limit *)
        call today_withdrawals <- _get_today_withdrawals user_id;
        let total_today := total_amount today_withdrawals in
        if Qgtb (total_today + amount) (inject_Z (MAX_WITHDRAW_DAILY Config))
        then ret (Failure (DailyLimitExceeded
                             (inject_Z (MAX_WITHDRAW_DAILY Config) - total_today)))
        (* Check balance *)
        else if Qltb (balance user) amount then ret (Failure InsufficientBalance)
        else
          (* Validate payment method *)
          let method_lower := Utils.lower method in
          match payment_methods method_lower with
          | None => ret (Failure UnknownMethod)
          | Some payment_method =>
              (* Validate account number *)
              if negb (Utils.validate_phone account) then ret (Failure InvalidAccountNumber)
              else
                let fee := (amount * (method_fee_percent payment_method / 100))%Q in
                let net_amount := (amount - fee)%Q in
                call t <- now;
                let payment_data :=
                  draft user_id WITHDRAW payment_method amount fee net_amount
                        None (Some account) t in
                (* Deduct balance immediately *)
                let user := debited amount user in
                exec modify (set_users (insert user_id user));
                call _ <- Db.update_user user_id
                  {| upd_balance := Some (balance user); upd_coins := None;
                     upd_total_earned := None;
                     upd_total_spent := Some (total_spent user) |};
                (* Add payment to database *)
                call payment_id <- Db.add_payment payment_data;
                exec Db.add_log "withdrawal_request" (Some user_id);
                ret (Success
                  {| w_payment_id := payment_id; w_net_amount := net_amount;
                     w_fee := fee; w_new_balance := balance user |})
          end
  end.

Definition processed (admin_id : Z) (t_confirmed t_processed : datetime)
    (p : Payment) : Payment :=
  {| p_user_id := p_user_id p; p_type := p_type p; method_code := method_code p;
     amount := amount p; net_amount := net_amount p; fee := fee p;
     fee_percent := fee_percent p; status := COMPLETED;
     trx_id := trx_id p; account_number := account_number p;
     requested_at := requested_at p; p_id := p_id p; created_at := created_at p;
     confirmed_by := Some admin_id; confirmed_at := Some t_confirmed;
     processed_at := Some t_processed; first_deposit_bonus := first_deposit_bonus p;
     rejected_by := rejected_by p; rejected_at := rejected_at p;
     rejection_reason := rejection_reason p |}.

Record payout_receipt := {
  amount_sent : Q;
  paid_user : Z
}.

Definition confirm_withdraw (payment_id : Z * Z) (admin_id : Z)
    : M (result payout_receipt) :=
  call found <- gets (fun w => payments w !! payment_id);
  match found with
  | None => ret (Failure PaymentNotFound)
  | Some payment =>
      if negb (bool_decide (status payment = PENDING))
      then ret (Failure (InvalidTransition (status payment)))
      else if negb (bool_decide (p_type payment = WITHDRAW))
      then ret (Failure OnlyWithdrawals)
      else
        (* Update payment status *)
        call t_confirmed <- now;
        call t_processed <- now;
        let payment := processed admin_id t_confirmed t_processed payment in
        (* Save payment *)
        exec modify (set_payments (insert payment_id payment));
        exec Db.save_payments;
        call _ <- Db.get_user (p_user_id payment);
        exec Db.add_log "withdrawal_confirmed" (Some (p_user_id payment));
        ret (Success {| amount_sent := net_amount payment;
                        paid_user := p_user_id payment |})
  end.

(** *** Rejection *)

Definition rejected (admin_id : Z) (t : datetime) (reason : string)
    (p : Payment) : Payment :=
  {| p_user_id := p_user_id p; p_type := p_type p; method_code := method_code p;
     amount := amount p; net_amount := net_amount p; fee := fee p;
     fee_percent := fee_percent p; status := REJECTED;
     trx_id := trx_id p; account_number := account_number p;
     requested_at := requested_at p; p_id := p_id p; created_at := created_at p;
     confirmed_by := confirmed_by p; confirmed_at := confirmed_at p;
     processed_at := processed_at p; first_deposit_bonus := first_deposit_bonus p;
     rejected_by := Some admin_id; rejected_at := Some t;
     rejection_reason := Some reason |}.

(** [user["balance"] += payment["amount"]], in exact arithmetic;
    [float_refunded] below is the binary64 sum. *)
Definition refunded (x : Q) (u : User) : User :=
  {| u_id := u_id u; balance := (balance u + x)%Q; coins := coins u;
     total_earned := total_earned u; total_spent := total_spent u;
     level := level u; is_vip := is_vip u; last_active := last_active u |}.

Definition reject_payment (payment_id : Z * Z) (admin_id : Z) (reason : string)
    : M (result bool) :=
  call found <- gets (fun w => payments w !! payment_id);
  match found with
  | None => ret (Failure PaymentNotFound)
  | Some payment =>
      if negb (bool_decide (status payment = PENDING))
      then ret (Failure (InvalidTransition (status payment)))
      else
        (* Refund balance if it's a withdrawal *)
        exec (if bool_decide (p_type payment = WITHDRAW)
              then
                call user <- Db.get_user (p_user_id payment);
                match user with
                | Some u =>
                    let u := refunded (amount payment) u in
                    exec modify (set_users (insert (p_user_id payment) u));
                    call _ <- Db.update_user (p_user_id payment)
                      {| upd_balance := Some (balance u); upd_coins := None;
                         upd_total_earned := None; upd_total_spent := None |};
                    ret tt
                | None => ret tt
                end
              else ret tt);
        (* Update payment status *)
        call t <- now;
        let payment := rejected admin_id t reason payment in
        (* Save payment *)
        exec modify (set_payments (insert payment_id payment));
        exec Db.save_payments;
        exec Db.add_log "payment_rejected" (Some (p_user_id payment));
        ret (Success (bool_decide (p_type payment = WITHDRAW)))
  end.

(** *** The amount in binary64 *)

(** The ledger above keeps an amount of money as a rational number.
    The code computes in binary64: the tests that [request_withdraw]
    makes on the amount, and the two updates of the balance, are
    repeated here on floats, for the values that have no rational
    counterpart and for the rounding of the others. *)

(** An [int] met by a float in a comparison or a sum. *)
Definition float_of_int (z : Z) : float := PrimFloat.of_uint63 (Uint63.of_Z z).

(** The four tests on the amount, in the order of the code:
    [amount < MIN_WITHDRAW], [amount > MAX_WITHDRAW_DAILY],
    [total_today + amount > MAX_WITHDRAW_DAILY] and
    [user["balance"] < amount].  The request goes on when none holds. *)
Definition amount_accepted (amount total_today balance : float) : bool :=
  if (amount <? float_of_int (MIN_WITHDRAW Config))%float then false
  else if (float_of_int (MAX_WITHDRAW_DAILY Config) <? amount)%float then false
  else if (float_of_int (MAX_WITHDRAW_DAILY Config) <? total_today + amount)%float
  then false
  else if (balance <? amount)%float then false
  else true.

(** [user["balance"] -= amount] in [request_withdraw] *)
Definition float_debited (balance amount : float) : float := (balance - amount)%float.

(** [user["balance"] += payment["amount"]] in [reject_payment] *)
Definition float_refunded (balance amount : float) : float := (balance + amount)%float.
End Payments.

(** ** games.py *)

Module Games.
Inductive verdict := WIN | LOSE | DRAW | JACKPOT.

Record play_receipt := {
  outcome_class : verdict;
  coins_after : Z;
  payout : Z;
  net_profit : Z
}.

(** [self.game_configs] *)
Definition dice_min_bet : Z := 10.
Definition dice_max_bet : Z := 10000.
Definition dice_win_multiplier : Q := 2.
Definition dice_house_edge : Q := 5 # 100.
Definition slot_min_bet : Z := 20.
Definition slot_max_bet : Z := 5000.
Definition slot_jackpot_multiplier : Q := 10.
Definition slot_win_multiplier : Q := 2.
Definition slot_house_edge : Q := 10 # 100.
Definition quiz_entry_fee : Z := 10.

(** [user["coins"] += net_profit; user["total_earned"] = ... + net_profit] *)
Definition won (net : Z) (u : User) : User :=
  {| u_id := u_id u; balance := balance u; coins := coins u + net;
     total_earned := (total_earned u + inject_Z net)%Q; total_spent := total_spent u;
     level := level u; is_vip := is_vip u; last_active := last_active u |}.

(** [user["coins"] -= bet; user["total_spent"] = ... + bet] *)
Definition lost (bet : Z) (u : User) : User :=
  {| u_id := u_id u; balance := balance u; coins := coins u - bet;
     total_earned := total_earned u; total_spent := (total_spent u + inject_Z bet)%Q;
     level := level u; is_vip := is_vip u; last_active := last_active u |}.

(** The tail common to both wagers: write the user back, then the game
    statistics. *)
Definition record_play (user_id : Z) (game : string) (user : User)
    (v : verdict) (is_win : bool) (bet pay net : Z) : M (result play_receipt) :=
  call _ <- Db.update_user user_id
    {| upd_balance := None; upd_coins := Some (coins user);
       upd_total_earned := Some (total_earned user);
       upd_total_spent := Some (total_spent user) |};
  exec Db.update_game_stats user_id game is_win (Some bet) (Some pay);
  ret (Success {| outcome_class := v; coins_after := coins user;
                  payout := pay; net_profit := net |}).

(** [play_dice(user_id, bet, auto_roll)]; [user_roll] and [bot_roll] are
    the two rolls the random draws produce. *)
Definition play_dice (user_id bet : Z) (user_roll bot_roll : Z)
    : M (result play_receipt) :=
  if bet <? dice_min_bet then ret (Failure BetTooSmall)
  else if dice_max_bet <? bet then ret (Failure BetTooLarge)
  else
    (* Check user coins *)
    call found <- Db.get_user user_id;
    match found with
    | None => ret (Failure InsufficientCoins)
    | Some user =>
        if coins user <? bet then ret (Failure InsufficientCoins)
        else
          let actual_multiplier := (dice_win_multiplier * (1 - dice_house_edge))%Q in
          if bot_roll <? user_roll then
            let win_amount := Qtrunc (inject_Z bet * actual_multiplier) in
            let net := win_amount - bet in
            let user := won net user in
            exec modify (set_users (insert user_id user));
            record_play user_id "dice" user WIN true bet win_amount net
          else if user_roll <? bot_roll then
            let user := lost bet user in
            exec modify (set_users (insert user_id user));
            record_play user_id "dice" user LOSE false bet 0 (- bet)
          else
            record_play user_id "dice" user DRAW false bet 0 0
    end.

(** The [result_type] the random draws of a spin select. *)
Inductive spin := SpinJackpot | SpinWin | SpinLose.

(** [play_slot(user_id, bet)]; [r] is the [result_type] drawn. *)
Definition play_slot (user_id bet : Z) (r : spin) : M (result play_receipt) :=
  if bet <? slot_min_bet then ret (Failure BetTooSmall)
  else if slot_max_bet <? bet then ret (Failure BetTooLarge)
  else
    call found <- Db.get_user user_id;
    match found with
    | None => ret (Failure InsufficientCoins)
    | Some user =>
        if coins user <? bet then ret (Failure InsufficientCoins)
        else
          let multiplier :=
            match r with
            | SpinJackpot => slot_jackpot_multiplier
            | SpinWin => slot_win_multiplier
            | SpinLose => 0%Q
            end in
          let actual_multiplier :=
            if Qgtb multiplier 0 then (multiplier * (1 - slot_house_edge))%Q else 0%Q in
          match r with
          | SpinLose =>
              let user := lost bet user in
              exec modify (set_users (insert user_id user));
              record_play user_id "slot" user LOSE false bet 0 (- bet)
          | _ =>
              let pay := Qtrunc (inject_Z bet * actual_multiplier) in
              let net := pay - bet in
              let user := won net user in
              exec modify (set_users (insert user_id user));
              record_play user_id "slot" user
                (match r with SpinJackpot => JACKPOT | _ => WIN end) true bet pay net
          end
    end.

(** [user["coins"] -= config["entry_fee"]] *)
Definition charged (fee : Z) (u : User) : User :=
  {| u_id := u_id u; balance := balance u; coins := coins u - fee;
     total_earned := total_earned u; total_spent := total_spent u;
     level := level u; is_vip := is_vip u; last_active := last_active u |}.

(** [start_quiz(user_id, category)]: the entry fee; the choice of the
    question follows and moves no money.  Returns the remaining coins. *)
Definition start_quiz (user_id : Z) : M (result Z) :=
  call found <- Db.get_user user_id;
  match found with
  | None => ret (Failure UserNotFound)
  | Some user =>
      (* Check entry fee *)
      if coins user <? quiz_entry_fee then ret (Failure InsufficientCoins)
      else
        (* Deduct entry fee *)
        let user := charged quiz_entry_fee user in
        exec modify (set_users (insert user_id user));
        call _ <- Db.update_user user_id
          {| upd_balance := None; upd_coins := Some (coins user);
             upd_total_earned := None; upd_total_spent := None |};
        ret (Success (coins user))
  end.
End Games.

(** ** shop.py *)

Module Shop.
Record purchase_receipt := {
  total_price : Z;
  coins_left : Z
}.

Definition with_stock (v : Z) (i : Item) : Item :=
  {| item_id := item_id i; price := price i; category := category i;
     stock := Some v; min_level := min_level i; vip_only := vip_only i |}.

(** Assignment to ["stock"] of the first item carrying the id. *)
Fixpoint set_first_stock (item : string) (v : Z) (l : list Item) : list Item :=
  match l with
  | [] => []
  | i :: l' =>
      if String.eqb (item_id i) item then with_stock v i :: l'
      else i :: set_first_stock item v l'
  end.

Definition _update_shop_item_stock (item : string) (new_stock : Z) : M unit :=
  call items <- gets shop;
  if existsb (fun i => String.eqb (item_id i) item) items
  then exec modify (set_shop (set_first_stock item new_stock)); exec Db.save_shop; ret tt
  else ret tt.

(** [_apply_item_effects]: boosts and equipped badge live in unmodelled
    fields; what remains is the read and the write of the user. *)
Definition _apply_item_effects (user_id : Z) (item : Item) : M unit :=
  call _ <- Db.get_user user_id;
  call _ <- Db.update_user user_id no_updates;
  ret tt.

(** [user["coins"] -= total_price; user["total_spent"] = ... + total_price] *)
Definition paid (total : Z) (u : User) : User :=
  {| u_id := u_id u; balance := balance u; coins := coins u - total;
     total_earned := total_earned u; total_spent := (total_spent u + inject_Z total)%Q;
     level := level u; is_vip := is_vip u; last_active := last_active u |}.

Definition buy_item (user_id : Z) (item_name : string) (quantity : Z)
    : M (result purchase_receipt) :=
  (* Get item *)
  call found <- Db.get_item item_name;
  match found with
  | None => ret (Failure ItemNotFound)
  | Some item =>
      (* Check daily deal *)
      call deals <- gets daily_deals;
      let final_price :=
        match deals !! item_name with
        | Some discounted_price => discounted_price
        | None => price item
        end in
      let total := final_price * quantity in
      (* Get user *)
      call found_user <- Db.get_user user_id;
      match found_user with
      | None => ret (Failure UserNotFound)
      | Some user =>
          (* Check user coins *)
          if coins user <? total then ret (Failure InsufficientCoins)
          (* Check item requirements *)
          else if match min_level item with
                  | Some l => level user <? l
                  | None => false
                  end
          then ret (Failure LevelTooLow)
          else if match vip_only item with
                  | Some v => v && negb (is_vip user)
                  | None => false
                  end
          then ret (Failure VipOnly)
          else
            (* Check if item is limited stock *)
            let stock_now := default (-1) (stock item) in
            if (0 <=? stock_now) && (stock_now <? quantity)
            then ret (Failure OutOfStock)
            else
              exec (if 0 <=? stock_now
                    then modify (set_shop (set_first_stock item_name (stock_now - quantity)))
                    else ret tt);
              (* Deduct coins *)
              let user := paid total user in
              exec modify (set_users (insert user_id user));
              (* Apply item effects *)
              exec _apply_item_effects user_id item;
              (* Update user *)
              call _ <- Db.update_user user_id
                {| upd_balance := None; upd_coins := Some (coins user);
                   upd_total_earned := None;
                   upd_total_spent := Some (total_spent user) |};
              (* Update shop stock *)
              exec (if 0 <=? stock_now
                    then _update_shop_item_stock item_name (stock_now - quantity)
                    else ret tt);
              exec Db.add_log "shop_purchase" (Some user_id);
              ret (Success {| total_price := total; coins_left := coins user |})
      end
  end.
End Shop.

(** ** The claims' vocabulary *)

(** No negative money. *)
Definition solvent (u : User) : Prop := (0 <= balance u)%Q /\ 0 <= coins u.

Definition all_solvent (w : World) : Prop :=
  forall user_id u, users w !! user_id = Some u -> solvent u.

(** Two worlds with the same store, memory and disk: they differ at most in
    the number of clock readings consumed. *)
Definition same_store (w w' : World) : Prop := w' = set_reads (reads w') w.

(** The public operations that take money from a user. *)
Inductive money_op :=
| WithdrawRequest (user_id : Z) (amount : Q) (method account : string)
| DicePlay (user_id bet user_roll bot_roll : Z)
| SlotPlay (user_id bet : Z) (r : Games.spin)
| QuizEntry (user_id : Z)
| ShopPurchase (user_id : Z) (item : string) (quantity : Z).

Definition failure_of {A} (r : result A) : option failure :=
  match r with Success _ => None | Failure f => Some f end.

(** Run an operation and keep whether it failed. *)
Definition perform (op : money_op) : M (option failure) :=
  match op with
  | WithdrawRequest user_id amount method account =>
      call r <- Payments.request_withdraw user_id amount method account;
      ret (failure_of r)
  | DicePlay user_id bet user_roll bot_roll =>
      call r <- Games.play_dice user_id bet user_roll bot_roll; ret (failure_of r)
  | SlotPlay user_id bet r =>
      call r <- Games.play_slot user_id bet r; ret (failure_of r)
  | QuizEntry user_id =>
      call r <- Games.start_quiz user_id; ret (failure_of r)
  | ShopPurchase user_id item quantity =>
      call r <- Shop.buy_item user_id item quantity; ret (failure_of r)
  end.

(** The price [buy_item] charges for one unit. *)
Definition unit_price (w : World) (i : Item) : Z :=
  match daily_deals w !! item_id i with
  | Some discounted_price => discounted_price
  | None => price i
  end.

(** The operation asks for more than the user holds. *)
Definition overdraws (op : money_op) (w : World) : Prop :=
  match op with
  | WithdrawRequest user_id amount _ _ =>
      exists u, users w !! user_id = Some u /\ (balance u < amount)%Q
  | DicePlay user_id bet _ _ | SlotPlay user_id bet _ =>
      exists u, users w !! user_id = Some u /\ coins u < bet
  | QuizEntry user_id =>
      exists u, users w !! user_id = Some u /\ coins u < Games.quiz_entry_fee
  | ShopPurchase user_id item quantity =>
      exists u i, users w !! user_id = Some u /\
        List.find (fun i => String.eqb (item_id i) item) (shop w) = Some i /\
        coins u < unit_price w i * quantity
  end.

(** The two entry points that confirm a payment id. *)
Inductive confirmation :=
| AsDeposit (trx : string) (admin_id : option Z)
| AsWithdrawal (admin_id : Z).

Definition confirm (c : confirmation) (payment_id : Z * Z) : M (option failure) :=
  match c with
  | AsDeposit trx admin_id =>
      call r <- Payments.confirm_deposit payment_id trx admin_id; ret (failure_of r)
  | AsWithdrawal admin_id =>
      call r <- Payments.confirm_withdraw payment_id admin_id; ret (failure_of r)
  end.

(** The daily cap as the specification words it: only the COMPLETED and
    the PENDING withdrawals of the day count. *)
Definition spec_todays_withdrawals (user_id today : Z) (m : gmap (Z * Z) Payment)
    : list Payment :=
  filter (fun p => p_user_id p = user_id
                   ∧ p_type p = WITHDRAW
                   ∧ date_of (requested_at p) = today
                   ∧ (status p = COMPLETED ∨ status p = PENDING))
         (Db.payment_values m).

(** ** Sample worlds *)

(** The instant [k] tenths of a second after the start of the samples. *)
Definition tenth (k : Z) : datetime :=
  {| seconds := 1700000000 + k / 10; microsecond := (k mod 10) * 100000 |}.

(** A clock that advances a tenth of a second per reading, for the first
    sixteen readings, and then stands still. *)
Definition tenths (k : nat) : datetime :=
  nth k (tenth <$> [0; 1; 2; 3; 4; 5; 6; 7; 8; 9; 10; 11; 12; 13; 14; 15]) (tenth 16).

Definition no_files : Disk :=
  {| users_pkl := Absent; payments_pkl := Absent; transactions_pkl := Absent;
     shop_pkl := Absent; games_pkl := Absent; logs_pkl := Absent; stats_pkl := Absent |}.

(** An empty store on a working disk. *)
Definition empty_world : World :=
  {| users := ∅; payments := ∅; transactions := ∅; shop := []; games := ∅;
     logs := ∅; stats_total_users := 0; lock := false; daily_deals := ∅;
     disk := no_files; clock := tenths; reads := 0;
     storage := fun _ => Written; writes := 0 |}.

Definition member (user_id : Z) (money : Q) (chips : Z) : User :=
  {| u_id := user_id; balance := money; coins := chips; total_earned := 0;
     total_spent := 0; level := 1; is_vip := false; last_active := tenths 0 |}.

(** The store holding the single user 1 with balance 100 and 500 coins. *)
Definition one_user : World := set_users (insert 1 (member 1 100 500)) empty_world.

(** The same store on a disk that refuses every [open]. *)
Definition one_user_disk_down : World :=
  {| users := users one_user; payments := ∅; transactions := ∅; shop := []; games := ∅;
     logs := ∅; stats_total_users := 0; lock := false; daily_deals := ∅;
     disk := no_files; clock := tenths; reads := 0;
     storage := fun _ => NotOpened; writes := 0 |}.

(** User 1 holds 300 and asks to withdraw 200 to a nagod account. *)
Definition holder : World := set_users (insert 1 (member 1 300 500)) empty_world.

Definition after_withdraw_request : outcome (result Payments.withdraw_receipt) :=
  Payments.request_withdraw 1 200 "nagod" "01712345678" holder.

(** The id the request was filed under: the first clock reading of
    [add_payment], the fourth of the whole call. *)
Definition filed_id : Z * Z := stamp_us (tenths 3).

(** User 1, who never paid before, asks to deposit 1000 by nagod. *)
Definition newcomer : World := set_users (insert 1 (member 1 500 500)) empty_world.

Definition after_deposit_request : outcome (result (Z * Z)) :=
  Payments.request_deposit 1 1000 "nagod" None newcomer.

(** The second clock reading of the call. *)
Definition deposit_id : Z * Z := stamp_us (tenths 1).

(** Two payments filed one after the other. *)
Definition two_payments : outcome (Z * Z) :=
  (call _ <- Db.add_payment
               (Payments.draft 1 DEPOSIT nagod 100 0 100 None None (tenths 0));
   Db.add_payment (Payments.draft 2 DEPOSIT nagod 250 0 250 None None (tenths 0)))
  empty_world.

(** User 1 holds 20000; a withdrawal of 9990 requested today was
    REJECTED (and refunded). *)
Definition refused_withdrawal : Payment :=
  Payments.rejected 9 (tenths 0) "no"
    (Db.registered (1700000000, 7) (tenths 0)
       (Payments.draft 1 WITHDRAW nagod 9990 0 9990 None (Some "01712345678")
          (tenths 0))).

Definition after_refusal : World :=
  set_payments (insert (1700000000, 7) refused_withdrawal)
    (set_users (insert 1 (member 1 20000 0)) empty_world).

(** A shop with one article: three potions at 50 coins each; user 1
    holds 500 coins. *)
Definition potion : Item :=
  {| item_id := "potion"; price := 50; category := "boost"; stock := Some 3;
     min_level := None; vip_only := None |}.

Definition stocked : World := set_shop (fun _ => [potion]) one_user.

(** ** The level table *)

(** The XP asked for by the level [n] steps above one that asks for
    [xp_needed]. *)
Fixpoint xp_needed_after (n : nat) (xp_needed : Z) : Z :=
  match n with
  | O => xp_needed
  | S n' => xp_needed_after n' (Utils.next_xp_needed xp_needed)
  end.

(** The XP that [n] levels in a row consume, the first asking for
    [xp_needed]. *)
Fixpoint xp_spent (n : nat) (xp_needed : Z) : Z :=
  match n with
  | O => 0
  | S n' => xp_needed + xp_spent n' (Utils.next_xp_needed xp_needed)
  end.

(** ** The two purses *)

(** The real-money balance of every user, and the coins of every user. *)
Definition balances (w : World) : gmap Z Q := balance <$> users w.
Definition purses (w : World) : gmap Z Z := coins <$> users w.

(** ** Text *)

(** Every character of the text is an ASCII one (below 128).  On such
    text [str.lower] changes the letters A to Z only, as [Utils.lower]
    does. *)
Fixpoint ascii_text (s : string) : bool :=
  match s with
  | EmptyString => true
  | String c s' => (nat_of_ascii c <? 128)%nat && ascii_text s'
  end.

(** ** Phone numbers *)

(** Every character of the text is an ASCII digit. *)
Fixpoint all_digits (s : string) : bool :=
  match s with
  | EmptyString => true
  | String c s' => Utils.is_digit c && all_digits s'
  end.

(** ** A full log *)

(** The entry logged at second [k]. *)
Definition old_entry (k : Z) : (Z * Z) * LogEntry :=
  ((k, 0), {| log_type := "old"; log_user := None;
              log_timestamp := {| seconds := k; microsecond := 0 |} |}).

(** A store whose log holds 1001 entries, one per second from second 0. *)
Definition full_log : World :=
  set_logs (fun _ => list_to_map (old_entry <$> seqZ 0 1001)) empty_world.

(** ** Whole amounts *)

(** A whole, non-negative number below 2^53.  Binary64 holds such a
    number exactly, and adds and subtracts two of them exactly when the
    result is one of them again: on whole amounts the rational ledger
    and the floats of the code agree. *)
Definition whole (q : Q) : Prop := exists n : Z, 0 <= n < 2 ^ 53 /\ (q == inject_Z n)%Q.

(** ** Sample amounts in binary64 *)

(** The floats that Python reads from [114.01] and [50.01]. *)
Definition taka_114_01 : float := 0x1.c80a3d70a3d71p+6%float.
Definition taka_50_01 : float := 0x1.90147ae147ae1p+5%float.

(** * Properties *)

(** ** Running the primitives *)

Lemma unlock_after_lock (w : World) :
  lock w = false -> set_lock false (set_lock true w) = w.
Proof. destruct w; cbn; intros ->; reflexivity. Qed.

Lemma bind_Ret {A B} (m : M A) (k : A -> M B) (w w' : World) (a : A) :
  m w = Ret a w' -> bind m k w = k a w'.
Proof. unfold bind; intros ->; reflexivity. Qed.

Lemma bind_Block {A B} (m : M A) (k : A -> M B) (w w' : World) :
  m w = Block w' -> bind m k w = Block w'.
Proof. unfold bind; intros ->; reflexivity. Qed.

(** What a step leaves behind: the ledger collections as functions of the
    old ones, the lock free again, the clock advanced by [n] readings. *)
Record step (w w' : World)
    (fu : gmap Z User -> gmap Z User)
    (fp : gmap (Z * Z) Payment -> gmap (Z * Z) Payment)
    (ft : gmap Z Transaction -> gmap Z Transaction)
    (fs : list Item -> list Item) (n : nat) : Prop := {
  step_users : users w' = fu (users w);
  step_payments : payments w' = fp (payments w);
  step_transactions : transactions w' = ft (transactions w);
  step_shop : shop w' = fs (shop w);
  step_deals : daily_deals w' = daily_deals w;
  step_lock : lock w' = false;
  step_clock : clock w' = clock w;
  step_reads : reads w' = (reads w + n)%nat
}.

Ltac prim_unfold :=
  cbv beta iota zeta delta
    [Db.update_user Db.add_payment Db.add_log Db.save_users Db.save_payments
     Db.save_transactions Db.save_shop Db.save_logs Db.save_games Db.save_stats
     Db._save_data with_lock bind ret gets modify now final raise
     Db.create_user Db.global_Config Db.get_user
     set_users set_payments set_transactions set_shop set_games set_logs
     set_stats_total_users set_lock set_disk set_reads set_writes
     users payments transactions shop games logs stats_total_users lock
     daily_deals disk clock reads storage writes].

Ltac prim :=
  let w := fresh "w" in let H := fresh "H" in
  intros w H; destruct w; cbn in H; subst; prim_unfold.

Ltac facts := split; cbn; try reflexivity; try (f_equal; lia).

Lemma get_user_returns (user_id : Z) :
  forall w, lock w = false -> Db.get_user user_id w = Ret (users w !! user_id) w.
Proof. prim. reflexivity. Qed.

Lemma get_user_blocks (user_id : Z) (w : World) :
  lock w = true -> Db.get_user user_id w = Block w.
Proof. intros H. unfold Db.get_user, with_lock. rewrite H. reflexivity. Qed.

Lemma now_spec :
  forall w, lock w = false ->
  exists w', now w = Ret (clock w (reads w)) w' /\ step w w' id id id id 1.
Proof. prim. eexists; split; [reflexivity | facts]. Qed.

Lemma modify_users_spec (g : gmap Z User -> gmap Z User) :
  forall w, lock w = false ->
  exists w', modify (set_users g) w = Ret tt w' /\ step w w' g id id id 0.
Proof. prim. eexists; split; [reflexivity | facts]. Qed.

Lemma modify_payments_spec (g : gmap (Z * Z) Payment -> gmap (Z * Z) Payment) :
  forall w, lock w = false ->
  exists w', modify (set_payments g) w = Ret tt w' /\ step w w' id g id id 0.
Proof. prim. eexists; split; [reflexivity | facts]. Qed.

Lemma modify_shop_spec (g : list Item -> list Item) :
  forall w, lock w = false ->
  exists w', modify (set_shop g) w = Ret tt w' /\ step w w' id id id g 0.
Proof. prim. eexists; split; [reflexivity | facts]. Qed.

Lemma save_payments_spec :
  forall w, lock w = false ->
  exists b w', Db.save_payments w = Ret b w' /\ step w w' id id id id 0.
Proof. prim. do 2 eexists; split; [reflexivity | facts]. Qed.

Lemma save_shop_spec :
  forall w, lock w = false ->
  exists b w', Db.save_shop w = Ret b w' /\ step w w' id id id id 0.
Proof. prim. do 2 eexists; split; [reflexivity | facts]. Qed.

Lemma update_user_spec (user_id : Z) (updates : Updates) :
  forall w, lock w = false ->
  exists b w', Db.update_user user_id updates w = Ret b w' /\
    match users w !! user_id with
    | Some u =>
        b = true /\
        step w w' (insert user_id (Db.merge updates (clock w (reads w)) u)) id id id 1
    | None => b = false /\ step w w' id id id id 0
    end.
Proof.
  prim. destruct (_ !! _); do 2 eexists; (split; [reflexivity | split; [reflexivity | facts]]).
Qed.

Lemma add_payment_spec (payment_data : Payment) :
  forall w, lock w = false ->
  let payment_id := stamp_us (clock w (reads w)) in
  let payment := Db.registered payment_id (clock w (S (reads w))) payment_data in
  let transaction_id := stamp_s (clock w (S (S (reads w)))) in
  exists w', Db.add_payment payment_data w = Ret payment_id w' /\
    step w w' id (insert payment_id payment)
      (insert transaction_id
         (Db.mirror transaction_id (clock w (S (S (S (reads w))))) payment_id payment))
      id 4.
Proof. prim. eexists; split; [reflexivity | facts]. Qed.

Lemma add_log_spec (kind : string) (user_id : option Z) :
  forall w, lock w = false ->
  exists w', Db.add_log kind user_id w = Ret tt w' /\ step w w' id id id id 2.
Proof.
  prim. match goal with |- context [if ?c then _ else _] => destruct c end;
  eexists; (split; [reflexivity | facts]).
Qed.

Lemma update_game_stats_blocks (user_id : Z) (game : string) (is_win : bool)
    (bet pay : option Z) :
  forall w, lock w = false ->
  Db.update_game_stats user_id game is_win bet pay w = Block (set_lock true w).
Proof. intros w H. unfold Db.update_game_stats, with_lock. rewrite H. reflexivity. Qed.

Lemma bind_assoc {A B C} (m : M A) (k1 : A -> M B) (k2 : B -> M C) (w : World) :
  bind (bind m k1) k2 w = bind m (fun a => bind (k1 a) k2) w.
Proof. unfold bind. destruct (m w); reflexivity. Qed.

Lemma bind_ret {A B} (a : A) (k : A -> M B) (w : World) : bind (ret a) k w = k a w.
Proof. reflexivity. Qed.

Lemma bind_gets {A B} (f : World -> A) (k : A -> M B) (w : World) :
  bind (gets f) k w = k (f w) w.
Proof. reflexivity. Qed.

Ltac unstep F := destruct F as [? ? ? ? ? ? ? ?]; unfold id in *.

(** One step of symbolic execution in a hypothesis [H : bind m k w = _]. *)
Ltac fwd_in H :=
  cbv beta iota in H;
  lazymatch type of H with
  | bind (bind _ _) _ _ = _ => rewrite bind_assoc in H
  | bind (ret _) _ _ = _ => rewrite bind_ret in H
  | bind (gets _) _ _ = _ => rewrite bind_gets in H
  | bind (Db.get_user ?u) ?k ?w = _ =>
      rewrite (bind_Ret _ k w w _ (get_user_returns u w ltac:(assumption))) in H
  | bind now ?k ?w = _ =>
      let w' := fresh "w" in let R := fresh "R" in let F := fresh "F" in
      destruct (now_spec w ltac:(assumption)) as (w' & R & F);
      rewrite (bind_Ret _ k w w' _ R) in H; clear R; unstep F
  | bind (modify (set_users ?g)) ?k ?w = _ =>
      let w' := fresh "w" in let R := fresh "R" in let F := fresh "F" in
      destruct (modify_users_spec g w ltac:(assumption)) as (w' & R & F);
      rewrite (bind_Ret _ k w w' _ R) in H; clear R; unstep F
  | bind (modify (set_payments ?g)) ?k ?w = _ =>
      let w' := fresh "w" in let R := fresh "R" in let F := fresh "F" in
      destruct (modify_payments_spec g w ltac:(assumption)) as (w' & R & F);
      rewrite (bind_Ret _ k w w' _ R) in H; clear R; unstep F
  | bind (modify (set_shop ?g)) ?k ?w = _ =>
      let w' := fresh "w" in let R := fresh "R" in let F := fresh "F" in
      destruct (modify_shop_spec g w ltac:(assumption)) as (w' & R & F);
      rewrite (bind_Ret _ k w w' _ R) in H; clear R; unstep F
  | bind Db.save_payments ?k ?w = _ =>
      let w' := fresh "w" in let R := fresh "R" in let F := fresh "F" in
      destruct (save_payments_spec w ltac:(assumption)) as (? & w' & R & F);
      rewrite (bind_Ret _ k w w' _ R) in H; clear R; unstep F
  | bind Db.save_shop ?k ?w = _ =>
      let w' := fresh "w" in let R := fresh "R" in let F := fresh "F" in
      destruct (save_shop_spec w ltac:(assumption)) as (? & w' & R & F);
      rewrite (bind_Ret _ k w w' _ R) in H; clear R; unstep F
  | bind (Db.add_payment ?d) ?k ?w = _ =>
      let w' := fresh "w" in let R := fresh "R" in let F := fresh "F" in
      destruct (add_payment_spec d w ltac:(assumption)) as (w' & R & F);
      rewrite (bind_Ret _ k w w' _ R) in H; clear R; unstep F
  | bind (Db.add_log ?a ?b) ?k ?w = _ =>
      let w' := fresh "w" in let R := fresh "R" in let F := fresh "F" in
      destruct (add_log_spec a b w ltac:(assumption)) as (w' & R & F);
      rewrite (bind_Ret _ k w w' _ R) in H; clear R; unstep F
  | bind (Db.update_user ?u ?upd) ?k ?w = _ =>
      let w' := fresh "w" in let R := fresh "R" in let F := fresh "F" in
      let E := fresh "E" in
      destruct (update_user_spec u upd w ltac:(assumption)) as (? & w' & R & F);
      rewrite (bind_Ret _ k w w' _ R) in H; clear R;
      destruct (users w !! u) eqn:E; destruct F as [? F]; unstep F
  | bind (Db.update_game_stats ?u ?g ?b ?x ?y) ?k ?w = _ =>
      rewrite (bind_Block _ k w _
                 (update_game_stats_blocks u g b x y w ltac:(assumption))) in H
  end; cbv beta in H.


Ltac nope H := solve [cbv beta iota delta [ret] in H; discriminate H].

(** Case analysis on the test at the head of [H]. *)
Ltac branch H E :=
  cbv beta iota in H;
  lazymatch type of H with
  | (if ?c then _ else _) _ = _ => destruct c eqn:E
  | (match ?c with _ => _ end) _ = _ => destruct c eqn:E
  | bind (if ?c then _ else _) _ _ = _ => destruct c eqn:E
  | bind (match ?c with _ => _ end) _ _ = _ => destruct c eqn:E
  end; cbv beta iota in H.

(** Express every fact about an intermediate world in terms of the world
    the call started in. *)
Ltac chain :=
  repeat match goal with
  | H : users ?a = _ |- _ => is_var a; try rewrite H in *; clear H
  | H : payments ?a = _ |- _ => is_var a; try rewrite H in *; clear H
  | H : transactions ?a = _ |- _ => is_var a; try rewrite H in *; clear H
  | H : shop ?a = _ |- _ => is_var a; try rewrite H in *; clear H
  | H : daily_deals ?a = _ |- _ => is_var a; try rewrite H in *; clear H
  | H : clock ?a = _ |- _ => is_var a; try rewrite H in *; clear H
  | H : reads ?a = _ |- _ => is_var a; try rewrite H in *; clear H
  end.

(** The call has come to its [return]: name the world it ends in. *)
Ltac landed H :=
  cbv beta iota delta [ret bind failure_of] in H;
  first [ discriminate H
        | inversion H; subst; try clear H ].

(** The same inside one hypothesis, keeping the facts for later steps. *)
Ltac chain_in H :=
  repeat match goal with
  | F : users ?a = _ |- _ => is_var a; progress rewrite F in H
  | F : payments ?a = _ |- _ => is_var a; progress rewrite F in H
  | F : transactions ?a = _ |- _ => is_var a; progress rewrite F in H
  | F : shop ?a = _ |- _ => is_var a; progress rewrite F in H
  | F : daily_deals ?a = _ |- _ => is_var a; progress rewrite F in H
  | F : clock ?a = _ |- _ => is_var a; progress rewrite F in H
  | F : reads ?a = _ |- _ => is_var a; progress rewrite F in H
  end.

(** ** Loading a collection *)

(** C9, counterexample: with a binary snapshot that exists but does not
    parse and a textual file that parses, [load] returns the empty
    collection, not the contents of the textual file. *)
Lemma load_ignores_json_after_bad_pickle :
  Db._load_data ([] : list Z) Corrupt (Valid [1]) None <> [1].
Proof. cbn. discriminate. Qed.

(** C9, amended: [load] returns the binary snapshot when that file exists
    and parses; it consults the textual file only when the binary file is
    absent; when the file it chose does not parse, or neither exists, it
    returns the default (the empty collection without one).  It is a total
    function: nothing is raised. *)
Theorem load_data_falls_back_on_absence_only {C} (empty : C) :
  let fallback (default : option C) :=
    match default with Some d => d | None => empty end in
  (forall c json_file default,
     Db._load_data empty (Valid c) json_file default = c) /\
  (forall c default, Db._load_data empty Absent (Valid c) default = c) /\
  (forall json_file default,
     Db._load_data empty Corrupt json_file default = fallback default) /\
  (forall default, Db._load_data empty Absent Corrupt default = fallback default) /\
  (forall default, Db._load_data empty Absent Absent default = fallback default).
Proof. cbn. split_and!; reflexivity. Qed.

(** ** Creating a user *)

(** C7: [create_user] never returns a user.  db.py leaves the name
    [Config] unbound, so the evaluation of [Config.WELCOME_BONUS] raises
    [NameError] on every call, for an absent id as for a present one:
    with the lock free the call ends in that exception, before the user
    collection or any file is touched and with the lock released; no
    call returns. *)
Theorem create_user_raises_name_error (user_id : Z) (user_info : gmap string string)
    (w : World) :
  (forall u w', Db.create_user user_id user_info w <> Ret u w') /\
  users (final (Db.create_user user_id user_info w)) = users w /\
  disk (final (Db.create_user user_id user_info w)) = disk w /\
  (lock w = false ->
   Db.create_user user_id user_info w =
     Raise (NameError "Config") (set_reads (S (reads w)) w)).
Proof.
  destruct w as [us ps ts sh gs ls st lk dd dk ck rd sg wr].
  destruct lk; prim_unfold; split_and!; try reflexivity; try discriminate.
Qed.

(** C7, at the failing input: the store holds user 1 only; creating the
    absent user 2 raises, and so does creating user 1 again; the store
    still holds user 1 alone, with the balance it had. *)
Lemma create_user_raises_name_error_witness :
  (exists w', Db.create_user 2 ∅ one_user = Raise (NameError "Config") w' /\
     users w' !! 2 = None) /\
  (exists w', Db.create_user 1 ∅ one_user = Raise (NameError "Config") w' /\
     users w' !! 1 = Some (member 1 100 500)).
Proof.
  split.
  - eexists. split.
    + exact (proj2 (proj2 (proj2 (create_user_raises_name_error 2 ∅ one_user))) eq_refl).
    + vm_compute. reflexivity.
  - eexists. split.
    + exact (proj2 (proj2 (proj2 (create_user_raises_name_error 1 ∅ one_user))) eq_refl).
    + vm_compute. reflexivity.
Defined.

(** ** Writing through *)

(** C8, counterexample: on a disk that refuses the write, [update_user]
    still answers [True], memory holds the new balance, and nothing was
    saved. *)
Lemma update_user_reports_success_without_save :
  exists w',
    Db.update_user 1
      {| upd_balance := Some 0%Q; upd_coins := None;
         upd_total_earned := None; upd_total_spent := None |}
      one_user_disk_down = Ret true w' /\
    (balance <$> users one_user_disk_down !! 1) = Some 100%Q /\
    (balance <$> users w' !! 1) = Some 0%Q /\
    users_pkl (disk w') = Absent.
Proof. eexists. split_and!; vm_compute; reflexivity. Qed.

(** C8, amended: the store methods do not look at the result of the
    write-through.  [update_user] of a present user answers [True] and
    [add_payment] returns the new id whatever the writes did; memory keeps
    the new values with no rollback, and each file is what its write left
    of it: the new collection after a complete write, the old file when
    [open] failed, a corrupt file after a torn write. *)
Theorem store_methods_ignore_write_failures (user_id : Z) (updates : Updates)
    (payment_data : Payment) (u : User) (w : World)
    (Hfree : lock w = false) (Hpresent : users w !! user_id = Some u) :
  (exists w',
     Db.update_user user_id updates w = Ret true w' /\
     users w' = <[user_id := Db.merge updates (clock w (reads w)) u]> (users w) /\
     users_pkl (disk w') =
       Db.write_file (storage w (writes w)) (users w') (users_pkl (disk w))) /\
  (exists w',
     Db.add_payment payment_data w = Ret (stamp_us (clock w (reads w))) w' /\
     payments w' !! stamp_us (clock w (reads w)) =
       Some (Db.registered (stamp_us (clock w (reads w))) (clock w (S (reads w)))
               payment_data) /\
     payments_pkl (disk w') =
       Db.write_file (storage w (writes w)) (payments w') (payments_pkl (disk w)) /\
     transactions_pkl (disk w') =
       Db.write_file (storage w (S (writes w))) (transactions w')
         (transactions_pkl (disk w))).
Proof.
  destruct w as [us ps ts sh gs ls st lk dd dk ck rd sg wr].
  cbn in Hfree, Hpresent. subst lk. split.
  - prim_unfold. rewrite Hpresent. eexists. split_and!; reflexivity.
  - prim_unfold. eexists. split; [reflexivity|]. cbn. split; [apply lookup_insert_eq|].
    split; reflexivity.
Qed.

Lemma store_methods_ignore_write_failures_witness :
  exists w',
    Db.update_user 1 no_updates one_user_disk_down = Ret true w' /\
    users_pkl (disk w') = Absent.
Proof.
  destruct (store_methods_ignore_write_failures 1 no_updates
              (Payments.draft 1 DEPOSIT nagod 100 0 100 None None (tenths 0))
              (member 1 100 500) one_user_disk_down)
    as [(w' & Hret & _ & Hfile) _].
  - reflexivity.
  - vm_compute. reflexivity.
  - exists w'. split; [exact Hret|]. rewrite Hfile. reflexivity.
Defined.

(** ** The transaction log *)

(** C10, evaluation at the failing input: two payments filed within one
    clock second are both in the payment collection, but the transaction
    collection holds a single record, the second one: the record of the
    first payment was overwritten. *)
Theorem transactions_of_one_second_collide :
  let w := final two_payments in
  size (payments w) = 2%nat /\
  size (transactions w) = 1%nat /\
  (tx_user_id <$> transactions w !! 1700000000) = Some 2.
Proof. cbv zeta. split_and!; vm_compute; reflexivity. Qed.

(** ** Confirming through the deposit path *)

(** C4, evaluation at the failing input: user 1 holds 300 and files a
    withdrawal of 200, which leaves 100 and a PENDING payment of type
    WITHDRAW; confirming that id through [confirm_deposit] completes the
    payment and credits its net amount: the balance is 300 again. *)
Theorem confirm_deposit_credits_a_withdrawal :
  let w1 := final after_withdraw_request in
  let o := Payments.confirm_deposit filed_id "TRX1" (Some 9) w1 in
  (p_type <$> payments w1 !! filed_id) = Some WITHDRAW /\
  (status <$> payments w1 !! filed_id) = Some PENDING /\
  (exists u, users w1 !! 1 = Some u /\ (balance u == 100)%Q) /\
  (exists r, o = Ret (Success r) (final o)) /\
  (status <$> payments (final o) !! filed_id) = Some COMPLETED /\
  (exists u, users (final o) !! 1 = Some u /\ (balance u == 300)%Q).
Proof.
  cbv zeta. split_and!.
  - vm_compute. reflexivity.
  - vm_compute. reflexivity.
  - eexists. split; [vm_compute; reflexivity | vm_compute; reflexivity].
  - eexists. vm_compute. reflexivity.
  - vm_compute. reflexivity.
  - eexists. split; [vm_compute; reflexivity | vm_compute; reflexivity].
Qed.

(** The withdrawal path, for comparison: it touches no user. *)
Lemma confirm_withdraw_keeps_users (payment_id : Z * Z) (admin_id : Z) (w : World) :
  lock w = false ->
  users (final (Payments.confirm_withdraw payment_id admin_id w)) = users w.
Proof.
  intros L.
  destruct (Payments.confirm_withdraw payment_id admin_id w) as [r w'|e w'|w'] eqn:H;
    unfold Payments.confirm_withdraw in H; cbn [final].
  all: fwd_in H; branch H E0; [|cbv [ret] in H; congruence].
  all: branch H E1; [cbv [ret] in H; congruence|].
  all: branch H E2; [cbv [ret] in H; congruence|].
  all: do 6 fwd_in H; cbv [ret] in H; congruence.
Qed.

(** ** The first deposit *)

(** C6, evaluation at the failing input: user 1 holds 500, has no payment
    on record, and deposits 1000 by nagod (no fee).  The confirmation
    reports a bonus of 0 and credits 1000: the balance is 1500, not the
    1600 that a bonus of 10% would give. *)
Theorem first_deposit_gets_no_bonus :
  let w1 := final after_deposit_request in
  let o := Payments.confirm_deposit deposit_id "TRX7" (Some 9) w1 in
  size (payments newcomer) = 0%nat /\
  (status <$> payments w1 !! deposit_id) = Some PENDING /\
  (exists u, users w1 !! 1 = Some u /\ (balance u == 500)%Q) /\
  (exists r, o = Ret (Success r) (final o) /\
     (Payments.bonus r == 0)%Q /\ (Payments.amount_added r == 1000)%Q) /\
  (first_deposit_bonus <$> payments (final o) !! deposit_id) = Some None /\
  (exists u, users (final o) !! 1 = Some u /\ (balance u == 1500)%Q).
Proof.
  cbv zeta. split_and!.
  - vm_compute. reflexivity.
  - vm_compute. reflexivity.
  - eexists. split; vm_compute; reflexivity.
  - eexists. split_and!; vm_compute; reflexivity.
  - vm_compute. reflexivity.
  - eexists. split; vm_compute; reflexivity.
Qed.

(** ** Confirming twice *)

Ltac locked_unfold H :=
  cbv beta iota zeta delta
    [confirm Payments.confirm_deposit Payments.confirm_withdraw Payments.settle_deposit
     Db.get_user Db.save_payments Db._save_data with_lock bind ret gets modify now
     failure_of
     set_users set_payments set_transactions set_lock set_disk set_reads set_writes
     users payments transactions shop games logs stats_total_users lock
     daily_deals disk clock reads storage writes] in H.

(** A confirmation that returns success found the store lock free. *)
Lemma confirm_returns_free (c : confirmation) (payment_id : Z * Z) (w w1 : World) :
  confirm c payment_id w = Ret None w1 -> lock w = false.
Proof.
  intros H. destruct (lock w) eqn:L; [exfalso|reflexivity].
  destruct w as [us ps ts sh gs ls st lk dd dk ck rd sg wr]. cbn in L. subst lk.
  destruct c as [trx [a|]|a]; locked_unfold H;
    destruct (ps !! payment_id) as [p|]; try discriminate H;
    destruct (negb (bool_decide (status p = PENDING))); try discriminate H.
  - destruct (Payments.auto_confirmable p); discriminate H.
  - destruct (negb (bool_decide (p_type p = WITHDRAW))); discriminate H.
Qed.

(** What [settle_deposit] leaves under the payment id. *)
Lemma settle_deposit_completes (payment_id : Z * Z) (p : Payment) (trx : string)
    (a : Z) (w w1 : World) (r : result Payments.deposit_receipt) :
  lock w = false ->
  Payments.settle_deposit payment_id p trx a w = Ret r w1 ->
  exists p', payments w1 !! payment_id = Some p' /\ status p' = COMPLETED.
Proof.
  intros L H. unfold Payments.settle_deposit, Db.get_user_payments in H.
  do 5 fwd_in H.
  branch H Eu.
  - repeat fwd_in H; landed H; chain;
      (eexists; split; [apply lookup_insert_eq|]);
      destruct (_ =? _)%nat; reflexivity.
  - repeat fwd_in H; landed H; chain;
      (eexists; split; [apply lookup_insert_eq|]);
      destruct (_ =? _)%nat; reflexivity.
Qed.

(** After a successful confirmation the payment is COMPLETED. *)
Lemma confirm_completes (c : confirmation) (payment_id : Z * Z) (w w1 : World) :
  confirm c payment_id w = Ret None w1 ->
  exists p, payments w1 !! payment_id = Some p /\ status p = COMPLETED.
Proof.
  intros H. pose proof (confirm_returns_free _ _ _ _ H) as L.
  destruct c as [trx admin_id|admin_id]; unfold confirm in H.
  - unfold Payments.confirm_deposit in H.
    do 2 fwd_in H. branch H E0; [|landed H].
    branch H E1; [landed H|].
    destruct admin_id as [a|]; cbv beta iota in H.
    + destruct (Payments.settle_deposit payment_id p trx a w) as [r w'|e w'|w'] eqn:S;
        cbv beta iota delta [bind] in H; rewrite S in H; [|discriminate H ..].
      landed H. eapply settle_deposit_completes; eauto.
    + branch H E2; [|landed H].
      destruct (Payments.settle_deposit payment_id p trx 0 w) as [r w'|e w'|w'] eqn:S;
        cbv beta iota delta [bind] in H; rewrite S in H; [|discriminate H ..].
      landed H. eapply settle_deposit_completes; eauto.
  - unfold Payments.confirm_withdraw in H.
    do 2 fwd_in H. branch H E0; [|landed H].
    branch H E1; [landed H|].
    branch H E2; [landed H|].
    repeat fwd_in H; landed H; chain;
      (eexists; split; [apply lookup_insert_eq|reflexivity]).
Qed.

(** Both entry points refuse a payment that is no longer PENDING, and
    leave the world as it is. *)
Lemma confirm_refuses_settled (c : confirmation) (payment_id : Z * Z) (p : Payment)
    (w : World) :
  payments w !! payment_id = Some p -> status p <> PENDING ->
  confirm c payment_id w = Ret (Some (InvalidTransition (status p))) w.
Proof.
  intros Hp Hs.
  destruct c as [trx admin_id|admin_id];
    cbv beta iota delta [confirm Payments.confirm_deposit Payments.confirm_withdraw
                         bind gets];
    rewrite Hp; rewrite (bool_decide_eq_false_2 _ Hs); reflexivity.
Qed.

(** C3: once a confirmation of a payment id has succeeded, through either
    entry point, every further confirmation of that id, through either
    entry point and with any arguments, returns the InvalidTransition
    failure (the payment is COMPLETED, not PENDING) and leaves the whole
    world, user balances and payment fields included, as it was. *)
Theorem second_confirm_is_refused (c c' : confirmation) (payment_id : Z * Z)
    (w w1 : World) :
  confirm c payment_id w = Ret None w1 ->
  confirm c' payment_id w1 = Ret (Some (InvalidTransition COMPLETED)) w1.
Proof.
  intros H. destruct (confirm_completes _ _ _ _ H) as (p & Hp & Hs).
  rewrite <- Hs. apply confirm_refuses_settled; [exact Hp|].
  rewrite Hs. discriminate.
Qed.

Lemma second_confirm_is_refused_witness :
  let w1 := final (confirm (AsWithdrawal 9) filed_id (final after_withdraw_request)) in
  confirm (AsDeposit "TRX1" (Some 9)) filed_id w1 =
    Ret (Some (InvalidTransition COMPLETED)) w1.
Proof.
  cbv zeta.
  apply (second_confirm_is_refused (AsWithdrawal 9) (AsDeposit "TRX1" (Some 9))
           filed_id (final after_withdraw_request)).
  vm_compute. reflexivity.
Defined.

(** ** Reserving and refunding a withdrawal *)

(** The user looked up right after it was written. *)
Ltac present E :=
  rewrite lookup_insert_eq in E;
  first [ discriminate E | inversion E; subst; clear E ].

(** A withdrawal request that returns found the store lock free. *)
Lemma request_withdraw_free user_id amt m acct w r w1 :
  Payments.request_withdraw user_id amt m acct w = Ret r w1 -> lock w = false.
Proof.
  intros H. destruct (lock w) eqn:L; [exfalso|reflexivity].
  unfold Payments.request_withdraw in H.
  rewrite (bind_Block _ _ _ _ (get_user_blocks user_id w L)) in H. discriminate H.
Qed.

(** The world a successful withdrawal request leaves. *)
Lemma request_withdraw_success user_id amt m acct w r w1 :
  Payments.request_withdraw user_id amt m acct w = Ret (Success r) w1 ->
  exists u pm t0 t1 t2 tx,
    users w !! user_id = Some u /\
    Qltb (balance u) amt = false /\
    Qltb amt (inject_Z (Config.MIN_WITHDRAW Config.Config)) = false /\
    Payments.payment_methods (Utils.lower m) = Some pm /\
    lock w1 = false /\
    users w1 = <[user_id := Db.merge
                   {| upd_balance := Some (balance (Payments.debited amt u));
                      upd_coins := None; upd_total_earned := None;
                      upd_total_spent := Some (total_spent (Payments.debited amt u)) |}
                   t0 (Payments.debited amt u)]>
                 (<[user_id := Payments.debited amt u]> (users w)) /\
    payments w1 =
      <[Payments.w_payment_id r :=
          Db.registered (Payments.w_payment_id r) t2
            (Payments.draft user_id WITHDRAW pm amt
               (amt * (Payments.method_fee_percent pm / 100))
               (amt - amt * (Payments.method_fee_percent pm / 100))
               None (Some acct) t1)]> (payments w) /\
    transactions w1 = <[tx_id tx := tx]> (transactions w) /\
    shop w1 = shop w /\
    Payments.w_new_balance r = (balance u - amt)%Q.
Proof.
  intros H. pose proof (request_withdraw_free _ _ _ _ _ _ _ H) as L.
  unfold Payments.request_withdraw, Payments._get_today_withdrawals in H.
  fwd_in H. branch H Eu; [|nope H].
  branch H E1; [nope H|]. branch H E2; [nope H|].
  do 3 fwd_in H.
  branch H E3; [nope H|]. branch H E4; [nope H|].
  branch H E5; [|nope H]. branch H E6; [nope H|].
  repeat fwd_in H; landed H; chain; present E.
  exists u, m0. do 3 eexists.
  eexists (Db.mirror _ _ _ _).
  split_and!; try reflexivity; assumption.
Qed.

(** Rejecting a PENDING withdrawal of an existing user: it returns
    success, refunds the amount and marks the payment REJECTED. *)
Lemma reject_withdrawal_refunds payment_id admin_id reason w p u :
  lock w = false ->
  payments w !! payment_id = Some p ->
  status p = PENDING -> p_type p = WITHDRAW ->
  users w !! p_user_id p = Some u ->
  let o := Payments.reject_payment payment_id admin_id reason w in
  exists t t',
    o = Ret (Success true) (final o) /\
    users (final o) =
      <[p_user_id p := Db.merge
          {| upd_balance := Some (balance (Payments.refunded (amount p) u));
             upd_coins := None; upd_total_earned := None;
             upd_total_spent := None |}
          t (Payments.refunded (amount p) u)]>
        (<[p_user_id p := Payments.refunded (amount p) u]> (users w)) /\
    payments (final o) =
      <[payment_id := Payments.rejected admin_id t' reason p]> (payments w) /\
    transactions (final o) = transactions w /\
    lock (final o) = false.
Proof.
  intros L Hp Hs Ht Hu o. subst o.
  destruct (Payments.reject_payment payment_id admin_id reason w) as [r w'|e w'|w'] eqn:H;
    cbn [final];
    unfold Payments.reject_payment in H;
    fwd_in H; rewrite Hp in H; cbv beta iota in H;
    rewrite Hs, Ht in H;
    change (negb (bool_decide (PENDING = PENDING))) with false in H;
    change (bool_decide (WITHDRAW = WITHDRAW)) with true in H;
    cbv beta iota in H;
    do 2 fwd_in H; rewrite Hu in H;
    repeat fwd_in H; landed H; chain; present E.
  do 2 eexists. split_and!; [rewrite Ht|..]; first [reflexivity | assumption].
Qed.

(** C2, amended: the reservation round trip, on whole amounts.  For an
    amount and a balance that are whole numbers (below 2^53, where the
    floats of the code add and subtract exactly), a successful
    [request_withdraw] lowers the balance of the user by exactly the
    amount; rejecting the payment it filed then returns success, marks
    the payment REJECTED and leaves the balance at its value from before
    the request.  The lifetime counter [total_spent] is not restored: it
    stays higher by the amount. *)
Theorem withdraw_then_reject_restores_balance user_id amt m acct w r w1
    admin_id reason :
  whole amt ->
  (forall u, users w !! user_id = Some u ->
     whole (balance u) /\ whole (total_spent u) /\ whole (total_spent u + amt)) ->
  Payments.request_withdraw user_id amt m acct w = Ret (Success r) w1 ->
  let o := Payments.reject_payment (Payments.w_payment_id r) admin_id reason w1 in
  exists u u1 u2,
    users w !! user_id = Some u /\
    users w1 !! user_id = Some u1 /\
    (balance u1 == balance u - amt)%Q /\
    o = Ret (Success true) (final o) /\
    users (final o) !! user_id = Some u2 /\
    (balance u2 == balance u)%Q /\
    (total_spent u2 == total_spent u + amt)%Q /\
    (status <$> payments (final o) !! Payments.w_payment_id r) = Some REJECTED.
Proof.
  intros _ _ H o.
  destruct (request_withdraw_success _ _ _ _ _ _ _ H)
    as (u & pm & t0 & t1 & t2 & tx & Hu & Hb & _ & _ & L1 & Hus & Hps & _ & _ & _).
  set (p := Db.registered (Payments.w_payment_id r) t2
              (Payments.draft user_id WITHDRAW pm amt
                 (amt * (Payments.method_fee_percent pm / 100))
                 (amt - amt * (Payments.method_fee_percent pm / 100))
                 None (Some acct) t1)) in *.
  assert (Hp : payments w1 !! Payments.w_payment_id r = Some p)
    by (rewrite Hps; apply lookup_insert_eq).
  assert (Hu1 : users w1 !! p_user_id p = Some
            (Db.merge
               {| upd_balance := Some (balance (Payments.debited amt u));
                  upd_coins := None; upd_total_earned := None;
                  upd_total_spent := Some (total_spent (Payments.debited amt u)) |}
               t0 (Payments.debited amt u)))
    by (rewrite Hus; apply lookup_insert_eq).
  destruct (reject_withdrawal_refunds (Payments.w_payment_id r) admin_id reason
              w1 p _ L1 Hp eq_refl eq_refl Hu1)
    as (t & t' & Hret & Hus2 & Hps2 & _ & _).
  fold o in Hret, Hus2, Hps2.
  do 3 eexists. split_and!.
  - exact Hu.
  - exact Hu1.
  - cbn. reflexivity.
  - exact Hret.
  - rewrite Hus2. apply lookup_insert_eq.
  - cbn. ring.
  - cbn. reflexivity.
  - rewrite Hps2, lookup_insert_eq. reflexivity.
Qed.

Lemma withdraw_then_reject_restores_balance_witness :
  let w1 := final after_withdraw_request in
  let o := Payments.reject_payment filed_id 9 "no" w1 in
  exists u2, users (final o) !! 1 = Some u2 /\ (balance u2 == 300)%Q.
Proof.
  cbv zeta.
  destruct (withdraw_then_reject_restores_balance 1 200 "nagod" "01712345678" holder
              {| Payments.w_payment_id := filed_id; Payments.w_net_amount := 200 - 200 * (0 / 100);
                 Payments.w_fee := 200 * (0 / 100); Payments.w_new_balance := 300 - 200 |}
              (final after_withdraw_request) 9 "no")
    as (u & u1 & u2 & Hu & _ & _ & _ & Hu2 & Hb & _).
  - exists 200. split; [lia | reflexivity].
  - intros u Hu. vm_compute in Hu. injection Hu as <-. split_and!.
    + exists 300. split; [lia | reflexivity].
    + exists 0. split; [lia | reflexivity].
    + exists 200. split; [lia | reflexivity].
  - vm_compute. reflexivity.
  - exists u2. split; [exact Hu2|].
    rewrite Hb. vm_compute in Hu. injection Hu as <-. reflexivity.
Defined.

(** ** The daily withdrawal cap *)

Lemma Qltb_lt (x y : Q) : Qltb x y = true <-> (x < y)%Q.
Proof.
  unfold Qltb. rewrite negb_true_iff. split.
  - intros H. apply Qnot_le_lt. intros Hle. apply Qle_bool_iff in Hle. congruence.
  - intros H. destruct (Qle_bool y x) eqn:E; [|reflexivity].
    apply Qle_bool_iff in E. exfalso. exact (Qlt_not_le _ _ H E).
Qed.

Lemma Qltb_ge (x y : Q) : Qltb x y = false <-> (y <= x)%Q.
Proof.
  unfold Qltb. rewrite negb_false_iff. apply Qle_bool_iff.
Qed.

(** Reading the clock, keeping the world it leaves explicit. *)
Ltac tick_in H :=
  cbv beta iota in H;
  lazymatch type of H with
  | bind (bind _ _) _ _ = _ => rewrite bind_assoc in H; tick_in H
  | bind now ?k ?w = _ =>
      rewrite (bind_Ret now k w (set_reads (S (reads w)) w) (clock w (reads w))
                 eq_refl) in H;
      cbv beta in H
  end.

Lemma same_store_tick (w : World) (n : nat) : same_store w (set_reads n w).
Proof. destruct w; reflexivity. Qed.

Lemma same_store_refl (w : World) : same_store w w.
Proof. destruct w; reflexivity. Qed.

(** The two ways the cap test of [request_withdraw] can go. *)
Lemma daily_limit_cases (user_id : Z) (amt : Q) (m acct : string)
    (w : World) (u : User) :
  lock w = false ->
  users w !! user_id = Some u ->
  Qltb amt (inject_Z (Config.MIN_WITHDRAW Config.Config)) = false ->
  Qltb (inject_Z (Config.MAX_WITHDRAW_DAILY Config.Config)) amt = false ->
  let total_today :=
    Payments.total_amount
      (Payments.todays_withdrawals user_id (date_of (clock w (reads w))) (payments w)) in
  let o := Payments.request_withdraw user_id amt m acct w in
  if Qgtb (total_today + amt) (inject_Z (Config.MAX_WITHDRAW_DAILY Config.Config))
  then o = Ret (Failure (DailyLimitExceeded
                           (inject_Z (Config.MAX_WITHDRAW_DAILY Config.Config)
                            - total_today)))
               (set_reads (S (reads w)) w)
  else forall remaining w', o <> Ret (Failure (DailyLimitExceeded remaining)) w'.
Proof.
  intros Hfree Huser Hmin Hmax total_today o. subst o.
  destruct (Payments.request_withdraw user_id amt m acct w)
    as [r w'|e w'|w'] eqn:H;
    unfold Payments.request_withdraw, Payments._get_today_withdrawals in H;
    fwd_in H; rewrite Huser in H; cbv beta iota in H;
    rewrite Hmin in H; unfold Qgtb in H at 1; rewrite Hmax in H;
    tick_in H; fwd_in H;
    change (payments (set_reads (S (reads w)) w)) with (payments w) in H;
    fold total_today in H;
    assert (L0 : lock (set_reads (S (reads w)) w) = false) by exact Hfree;
    assert (U0 : users (set_reads (S (reads w)) w) = users w) by reflexivity;
    set (w0 := set_reads (S (reads w)) w) in *; clearbody w0;
    destruct (Qgtb (total_today + amt) _) eqn:E3.
  all: try solve [landed H].
  all: try (landed H; reflexivity).
  all: intros rem w'' Heq; try discriminate Heq.
  all: injection Heq as Hr Hw; subst r w''.
  all: branch H E4; [nope H|].
  all: branch H E5; [|nope H].
  all: branch H E6; [nope H|].
  all: repeat fwd_in H; landed H.
Qed.

(** The withdrawals counted are those of the user requested on the day,
    and no others. *)
Lemma todays_withdrawals_exactly (user_id today : Z) (m : gmap (Z * Z) Payment)
    (p : Payment) :
  p ∈ Payments.todays_withdrawals user_id today m <->
  exists k, m !! k = Some p /\
    p_user_id p = user_id /\ p_type p = WITHDRAW /\ date_of (requested_at p) = today.
Proof.
  unfold Payments.todays_withdrawals, Db.payment_values.
  rewrite list_elem_of_filter, list_elem_of_fmap. split.
  - intros ((Hu & Ht & Hd) & [k p'] & -> & Hin).
    exists k. split; [apply elem_of_map_to_list; exact Hin | auto].
  - intros (k & Hk & Hu & Ht & Hd). split; [auto|].
    exists (k, p). split; [reflexivity | apply elem_of_map_to_list; exact Hk].
Qed.

(** C5, amended: the daily cap, on whole amounts (below 2^53, where the
    float sum of the code is exact).  For an existing user and an amount
    between the minimum withdrawal and the daily maximum,
    [request_withdraw] fails with the daily-limit error exactly when the
    amount plus the sum of the withdrawals counted exceeds the daily
    maximum.  The withdrawals counted are exactly the withdrawals of the
    user requested today, whatever their status, REJECTED included.  The
    failure reports what is left of the limit and changes nothing in the
    store. *)
Theorem daily_limit_counts_every_status (user_id : Z) (amt : Q) (m acct : string)
    (w : World) (u : User)
    (Hfree : lock w = false)
    (Huser : users w !! user_id = Some u)
    (Hmin : (inject_Z (Config.MIN_WITHDRAW Config.Config) <= amt)%Q)
    (Hmax : (amt <= inject_Z (Config.MAX_WITHDRAW_DAILY Config.Config))%Q)
    (Hwhole : whole amt)
    (Hwholes : forall p,
       p ∈ Payments.todays_withdrawals user_id (date_of (clock w (reads w))) (payments w) ->
       whole (amount p))
    (Hsum : whole (Payments.total_amount
                     (Payments.todays_withdrawals user_id (date_of (clock w (reads w)))
                        (payments w)) + amt)) :
  let today := date_of (clock w (reads w)) in
  let counted := Payments.todays_withdrawals user_id today (payments w) in
  let total_today := Payments.total_amount counted in
  let o := Payments.request_withdraw user_id amt m acct w in
  ((exists remaining w', o = Ret (Failure (DailyLimitExceeded remaining)) w') <->
   (inject_Z (Config.MAX_WITHDRAW_DAILY Config.Config) < total_today + amt)%Q) /\
  (forall remaining w', o = Ret (Failure (DailyLimitExceeded remaining)) w' ->
     remaining = (inject_Z (Config.MAX_WITHDRAW_DAILY Config.Config) - total_today)%Q /\
     same_store w w') /\
  (forall p, p ∈ counted <->
     exists k, payments w !! k = Some p /\
       p_user_id p = user_id /\ p_type p = WITHDRAW /\
       date_of (requested_at p) = today).
Proof.
  clear Hwhole Hwholes Hsum.
  intros today counted total_today o.
  apply Qltb_ge in Hmin. apply Qltb_ge in Hmax.
  pose proof (daily_limit_cases user_id amt m acct w u Hfree Huser Hmin Hmax) as C.
  cbv zeta in C. fold today counted total_today o in C.
  destruct (Qgtb (total_today + amt) _) eqn:E3.
  - apply Qltb_lt in E3. split_and!.
    + split; [intros _; exact E3 | intros _; eauto].
    + intros remaining w' H. rewrite C in H. injection H as <- <-.
      split; [reflexivity | apply same_store_tick].
    + intros p. apply todays_withdrawals_exactly.
  - apply Qltb_ge in E3. split_and!.
    + split; [intros (rem & w' & H); exfalso; exact (C _ _ H)|].
      intros Hlt. exfalso. exact (Qlt_not_le _ _ Hlt E3).
    + intros remaining w' H. exfalso. exact (C _ _ H).
    + intros p. apply todays_withdrawals_exactly.
Qed.

Lemma daily_limit_counts_every_status_witness :
  (status <$> payments after_refusal !! (1700000000, 7)) = Some REJECTED /\
  exists remaining w',
    Payments.request_withdraw 1 50 "nagod" "01712345678" after_refusal =
      Ret (Failure (DailyLimitExceeded remaining)) w'.
Proof.
  split; [vm_compute; reflexivity|].
  destruct (daily_limit_counts_every_status 1 50 "nagod" "01712345678" after_refusal
              (member 1 20000 0)) as [[_ Hback] _].
  - reflexivity.
  - vm_compute. reflexivity.
  - vm_compute. discriminate.
  - vm_compute. discriminate.
  - exists 50. split; [lia | reflexivity].
  - intros p Hp. apply todays_withdrawals_exactly in Hp as (k & Hk & _).
    unfold after_refusal in Hk. cbn [payments set_payments set_users empty_world] in Hk.
    apply lookup_insert_Some in Hk as [[_ <-]|[_ Hk]].
    + exists 9990. split; [lia | reflexivity].
    + rewrite lookup_empty in Hk. discriminate Hk.
  - exists 10040. split; [lia | vm_compute; reflexivity].
  - apply Hback. vm_compute. reflexivity.
Defined.

(** C5, counterexample: the cap over the COMPLETED and the PENDING
    withdrawals alone would let this request through.  The only
    withdrawal of the day is REJECTED: the sum the specification
    describes is empty, and 50 is within the daily maximum; the code
    counts the rejected withdrawal and refuses the request with the
    daily-limit error. *)
Lemma rejected_withdrawal_uses_up_the_cap :
  spec_todays_withdrawals 1 (date_of (tenths 0)) (payments after_refusal) = [] /\
  (Payments.total_amount
     (spec_todays_withdrawals 1 (date_of (tenths 0)) (payments after_refusal)) + 50
   <= inject_Z (Config.MAX_WITHDRAW_DAILY Config.Config))%Q /\
  exists remaining w',
    Payments.request_withdraw 1 50 "nagod" "01712345678" after_refusal =
      Ret (Failure (DailyLimitExceeded remaining)) w'.
Proof.
  split_and!.
  - vm_compute. reflexivity.
  - vm_compute. discriminate.
  - do 2 eexists. vm_compute. reflexivity.
Qed.

(** ** No negative money *)

Lemma solvent_insert (m : gmap Z User) (user_id : Z) (u : User) :
  solvent u ->
  (forall k x, m !! k = Some x -> solvent x) ->
  forall k x, <[user_id := u]> m !! k = Some x -> solvent x.
Proof.
  intros Hu Hm k x. destruct (decide (user_id = k)) as [->|Hne].
  - rewrite lookup_insert_eq. intros [= <-]. exact Hu.
  - rewrite lookup_insert_ne by exact Hne. apply Hm.
Qed.

(** What a winning throw or spin pays is at least the bet. *)
Lemma payout_covers_bet (bet n d : Z) :
  0 <= bet -> 0 < d -> d <= n -> bet <= (bet * n) `quot` d.
Proof.
  intros Hb Hd Hn. rewrite Z.quot_div_nonneg by nia.
  apply Z.div_le_lower_bound; nia.
Qed.

Lemma dice_win_covers_bet (bet : Z) :
  0 <= bet ->
  bet <= Qtrunc (inject_Z bet * (Games.dice_win_multiplier * (1 - Games.dice_house_edge))).
Proof. intros H. apply payout_covers_bet; [exact H|reflexivity|discriminate]. Qed.

Lemma slot_jackpot_covers_bet (bet : Z) :
  0 <= bet ->
  bet <= Qtrunc (inject_Z bet * (Games.slot_jackpot_multiplier * (1 - Games.slot_house_edge))).
Proof. intros H. apply payout_covers_bet; [exact H|reflexivity|discriminate]. Qed.

Lemma slot_win_covers_bet (bet : Z) :
  0 <= bet ->
  bet <= Qtrunc (inject_Z bet * (Games.slot_win_multiplier * (1 - Games.slot_house_edge))).
Proof. intros H. apply payout_covers_bet; [exact H|reflexivity|discriminate]. Qed.

Lemma final_perform {A} (m : M (result A)) (w : World) :
  final (bind m (fun r => ret (failure_of r)) w) = final (m w).
Proof. unfold bind. destruct (m w); reflexivity. Qed.

(** The call ended without touching the users. *)
Ltac untouched H S :=
  landed H; unfold all_solvent in *; cbn [users set_lock]; chain; exact S.

(** The call ended with the user written twice or more: each written
    record is solvent. *)
Ltac rewritten S :=
  unfold all_solvent in *; cbn [users set_lock]; chain;
  repeat match goal with
  | E : <[_:=_]> _ !! _ = _ |- _ => present E
  end;
  repeat apply solvent_insert; try exact S.

(** *** The withdrawal request *)

Lemma request_withdraw_keeps_solvent user_id amt m acct w :
  lock w = false -> all_solvent w ->
  all_solvent (final (Payments.request_withdraw user_id amt m acct w)).
Proof.
  intros L S.
  destruct (Payments.request_withdraw user_id amt m acct w) as [r w'|e w'|w'] eqn:H;
    cbn [final];
    unfold Payments.request_withdraw, Payments._get_today_withdrawals in H;
    fwd_in H; (branch H Eu; [|untouched H S]);
    (branch H E1; [untouched H S|]);
    (branch H E2; [untouched H S|]);
    do 3 fwd_in H;
    (branch H E3; [untouched H S|]);
    (branch H E4; [untouched H S|]);
    (branch H E5; [|untouched H S]);
    (branch H E6; [untouched H S|]);
    repeat fwd_in H; landed H; rewritten S.
  all: destruct (S _ _ Eu) as [Sb Sc]; apply Qltb_ge in E4.
  all: split; cbn; [lra | exact Sc].
Qed.

(** *** The quiz entry *)

Lemma start_quiz_keeps_solvent user_id w :
  lock w = false -> all_solvent w ->
  all_solvent (final (Games.start_quiz user_id w)).
Proof.
  intros L S.
  destruct (Games.start_quiz user_id w) as [r w'|e w'|w'] eqn:H;
    cbn [final];
    unfold Games.start_quiz in H;
    fwd_in H; (branch H Eu; [|untouched H S]);
    (branch H E1; [untouched H S|]);
    repeat fwd_in H; landed H; rewritten S.
  all: destruct (S _ _ Eu) as [Sb Sc]; apply Z.ltb_ge in E1.
  all: split; cbn; [exact Sb | lia].
Qed.

(** *** The wagers *)

Lemma record_play_keeps_solvent user_id game v is_win bet pay net u w :
  lock w = false -> all_solvent w -> solvent u ->
  all_solvent (final (Games.record_play user_id game u v is_win bet pay net w)).
Proof.
  intros L S Su.
  destruct (Games.record_play user_id game u v is_win bet pay net w)
    as [r w'|e w'|w'] eqn:H;
    cbn [final];
    unfold Games.record_play in H;
    repeat fwd_in H; landed H; rewritten S.
  all: match goal with E : users _ !! _ = Some _ |- _ => destruct (S _ _ E) end.
  all: destruct Su as [Sb Sc]; split; cbn; assumption.
Qed.

Lemma final_bind_modify_users {A} (g : gmap Z User -> gmap Z User) (k : M A) (w : World) :
  bind (modify (set_users g)) (fun _ => k) w = k (set_users g w).
Proof. reflexivity. Qed.

Lemma play_dice_keeps_solvent user_id bet user_roll bot_roll w :
  lock w = false -> all_solvent w ->
  all_solvent (final (Games.play_dice user_id bet user_roll bot_roll w)).
Proof.
  intros L S. unfold Games.play_dice.
  destruct (bet <? Games.dice_min_bet) eqn:E1; [exact S|].
  destruct (Games.dice_max_bet <? bet) eqn:E2; [exact S|].
  rewrite (bind_Ret _ _ _ _ _ (get_user_returns user_id w L)).
  destruct (users w !! user_id) as [u|] eqn:Eu; [|exact S].
  destruct (coins u <? bet) eqn:E3; [exact S|].
  apply Z.ltb_ge in E1, E3. unfold Games.dice_min_bet in E1.
  destruct (S _ _ Eu) as [Sb Sc].
  destruct (bot_roll <? user_roll); [|destruct (user_roll <? bot_roll)];
    cbv zeta; rewrite ?final_bind_modify_users;
    apply record_play_keeps_solvent; try exact L; try exact S.
  - intros k x. cbn [users set_users]. apply solvent_insert; [|exact S].
    split; cbn; [exact Sb|]. pose proof (dice_win_covers_bet bet). lia.
  - split; cbn; [exact Sb|]. pose proof (dice_win_covers_bet bet). lia.
  - intros k x. cbn [users set_users]. apply solvent_insert; [|exact S].
    split; cbn; [exact Sb|lia].
  - split; cbn; [exact Sb|lia].
  - split; assumption.
Qed.

Lemma play_slot_keeps_solvent user_id bet r w :
  lock w = false -> all_solvent w ->
  all_solvent (final (Games.play_slot user_id bet r w)).
Proof.
  intros L S. unfold Games.play_slot.
  destruct (bet <? Games.slot_min_bet) eqn:E1; [exact S|].
  destruct (Games.slot_max_bet <? bet) eqn:E2; [exact S|].
  rewrite (bind_Ret _ _ _ _ _ (get_user_returns user_id w L)).
  destruct (users w !! user_id) as [u|] eqn:Eu; [|exact S].
  destruct (coins u <? bet) eqn:E3; [exact S|].
  apply Z.ltb_ge in E1, E3. unfold Games.slot_min_bet in E1.
  destruct (S _ _ Eu) as [Sb Sc].
  destruct r; cbv zeta; rewrite ?final_bind_modify_users;
    apply record_play_keeps_solvent; try exact L; try exact S.
  - intros k x. cbn [users set_users]. apply solvent_insert; [|exact S].
    split; cbn -[Qtrunc]; [exact Sb|]. pose proof (slot_jackpot_covers_bet bet). 
    change (Qgtb Games.slot_jackpot_multiplier 0) with true. cbv iota. lia.
  - split; cbn -[Qtrunc]; [exact Sb|]. pose proof (slot_jackpot_covers_bet bet).
    change (Qgtb Games.slot_jackpot_multiplier 0) with true. cbv iota. lia.
  - intros k x. cbn [users set_users]. apply solvent_insert; [|exact S].
    split; cbn -[Qtrunc]; [exact Sb|]. pose proof (slot_win_covers_bet bet).
    change (Qgtb Games.slot_win_multiplier 0) with true. cbv iota. lia.
  - split; cbn -[Qtrunc]; [exact Sb|]. pose proof (slot_win_covers_bet bet).
    change (Qgtb Games.slot_win_multiplier 0) with true. cbv iota. lia.
  - intros k x. cbn [users set_users]. apply solvent_insert; [|exact S].
    split; cbn; [exact Sb|lia].
  - split; cbn; [exact Sb|lia].
Qed.

(** *** The shop purchase *)

Lemma buy_item_keeps_solvent user_id item quantity w :
  lock w = false -> all_solvent w ->
  all_solvent (final (Shop.buy_item user_id item quantity w)).
Proof.
  intros L S.
  destruct (Shop.buy_item user_id item quantity w) as [r w'|e w'|w'] eqn:H;
    cbn [final];
    unfold Shop.buy_item, Db.get_item, Shop._apply_item_effects,
      Shop._update_shop_item_stock in H;
    fwd_in H; (branch H Ei; [|untouched H S]);
    do 2 fwd_in H; (branch H Eu; [|untouched H S]);
    (branch H E1; [untouched H S|]);
    (branch H E2; [untouched H S|]);
    (branch H E3; [untouched H S|]);
    (branch H E4; [untouched H S|]);
    (branch H E5; repeat fwd_in H);
    try (branch H E6; repeat fwd_in H);
    landed H; rewritten S.
  all: destruct (S _ _ Eu) as [Sb Sc]; apply Z.ltb_ge in E1.
  all: split; cbn; [exact Sb | lia].
Qed.

(** *** Asking for more than one holds *)

Lemma request_withdraw_refuses_overdraft user_id amt m acct w u :
  lock w = false -> users w !! user_id = Some u -> (balance u < amt)%Q ->
  exists f w', Payments.request_withdraw user_id amt m acct w = Ret (Failure f) w' /\
               same_store w w'.
Proof.
  intros L Eu Hlt. apply Qltb_lt in Hlt.
  unfold Payments.request_withdraw, Payments._get_today_withdrawals.
  rewrite (bind_Ret _ _ _ _ _ (get_user_returns user_id w L)), Eu.
  destruct (Qltb amt _); [do 2 eexists; split; [reflexivity|apply same_store_refl]|].
  destruct (Qgtb amt _); [do 2 eexists; split; [reflexivity|apply same_store_refl]|].
  rewrite bind_assoc.
  rewrite (bind_Ret now _ w (set_reads (S (reads w)) w) (clock w (reads w)) eq_refl).
  rewrite bind_gets.
  destruct (Qgtb _ _); [do 2 eexists; split; [reflexivity|apply same_store_tick]|].
  rewrite Hlt. do 2 eexists; split; [reflexivity|apply same_store_tick].
Qed.

Lemma play_dice_refuses_overdraft user_id bet user_roll bot_roll w u :
  lock w = false -> users w !! user_id = Some u -> coins u < bet ->
  exists f, Games.play_dice user_id bet user_roll bot_roll w = Ret (Failure f) w.
Proof.
  intros L Eu Hlt. apply Z.ltb_lt in Hlt. unfold Games.play_dice.
  destruct (bet <? Games.dice_min_bet); [eexists; reflexivity|].
  destruct (Games.dice_max_bet <? bet); [eexists; reflexivity|].
  rewrite (bind_Ret _ _ _ _ _ (get_user_returns user_id w L)), Eu, Hlt.
  eexists; reflexivity.
Qed.

Lemma play_slot_refuses_overdraft user_id bet r w u :
  lock w = false -> users w !! user_id = Some u -> coins u < bet ->
  exists f, Games.play_slot user_id bet r w = Ret (Failure f) w.
Proof.
  intros L Eu Hlt. apply Z.ltb_lt in Hlt. unfold Games.play_slot.
  destruct (bet <? Games.slot_min_bet); [eexists; reflexivity|].
  destruct (Games.slot_max_bet <? bet); [eexists; reflexivity|].
  rewrite (bind_Ret _ _ _ _ _ (get_user_returns user_id w L)), Eu, Hlt.
  eexists; reflexivity.
Qed.

Lemma start_quiz_refuses_overdraft user_id w u :
  lock w = false -> users w !! user_id = Some u -> coins u < Games.quiz_entry_fee ->
  Games.start_quiz user_id w = Ret (Failure InsufficientCoins) w.
Proof.
  intros L Eu Hlt. apply Z.ltb_lt in Hlt. unfold Games.start_quiz.
  rewrite (bind_Ret _ _ _ _ _ (get_user_returns user_id w L)), Eu, Hlt.
  reflexivity.
Qed.

Lemma buy_item_refuses_overdraft user_id item quantity w u i :
  lock w = false -> users w !! user_id = Some u ->
  List.find (fun i => String.eqb (item_id i) item) (shop w) = Some i ->
  coins u < unit_price w i * quantity ->
  Shop.buy_item user_id item quantity w = Ret (Failure InsufficientCoins) w.
Proof.
  intros L Eu Ei Hlt. apply Z.ltb_lt in Hlt. unfold Shop.buy_item, Db.get_item.
  rewrite bind_gets, Ei. cbv beta iota. rewrite bind_gets.
  rewrite (bind_Ret _ _ _ _ _ (get_user_returns user_id w L)), Eu. cbv beta iota zeta.
  apply find_some in Ei as [_ Hid]. apply String.eqb_eq in Hid.
  unfold unit_price in Hlt. rewrite Hid in Hlt. rewrite Hlt. reflexivity.
Qed.

(** X4: no negative money, for amounts that are numbers.  If every
    user has a non-negative balance and non-negative coins, then after a
    withdrawal request for a finite amount, a dice or slot play, a quiz
    entry or a shop purchase, however the call ends, every user still
    has; and when the operation asks for more than the user holds, it
    returns a failure and leaves the store, memory and disk, as it was.
    (The amount that is not a number is followed on the floats, further
    down.) *)
Theorem money_operations_keep_users_solvent (op : money_op) (w : World)
    (Hfree : lock w = false) (Hsolvent : all_solvent w) :
  all_solvent (final (perform op w)) /\
  (overdraws op w ->
   exists f w', perform op w = Ret (Some f) w' /\ same_store w w').
Proof.
  destruct op as [user_id amt m acct|user_id bet ur br|user_id bet r|user_id
                 |user_id item quantity];
    unfold perform; rewrite final_perform; (split; [|cbn [overdraws]]).
  - apply request_withdraw_keeps_solvent; assumption.
  - intros (u & Eu & Hlt).
    destruct (request_withdraw_refuses_overdraft user_id amt m acct w u Hfree Eu Hlt)
      as (f & w' & Hret & Hs).
    exists f, w'. split; [|exact Hs]. rewrite (bind_Ret _ _ _ _ _ Hret); reflexivity.
  - apply play_dice_keeps_solvent; assumption.
  - intros (u & Eu & Hlt).
    destruct (play_dice_refuses_overdraft user_id bet ur br w u Hfree Eu Hlt) as (f & Hret).
    exists f, w. split; [|apply same_store_refl]. rewrite (bind_Ret _ _ _ _ _ Hret); reflexivity.
  - apply play_slot_keeps_solvent; assumption.
  - intros (u & Eu & Hlt).
    destruct (play_slot_refuses_overdraft user_id bet r w u Hfree Eu Hlt) as (f & Hret).
    exists f, w. split; [|apply same_store_refl]. rewrite (bind_Ret _ _ _ _ _ Hret); reflexivity.
  - apply start_quiz_keeps_solvent; assumption.
  - intros (u & Eu & Hlt).
    exists InsufficientCoins, w. split; [|apply same_store_refl].
    rewrite (bind_Ret _ _ _ _ _ (start_quiz_refuses_overdraft user_id w u Hfree Eu Hlt)).
    reflexivity.
  - apply buy_item_keeps_solvent; assumption.
  - intros (u & i & Eu & Ei & Hlt).
    exists InsufficientCoins, w. split; [|apply same_store_refl].
    rewrite (bind_Ret _ _ _ _ _
               (buy_item_refuses_overdraft user_id item quantity w u i Hfree Eu Ei Hlt)).
    reflexivity.
Qed.

Lemma money_operations_keep_users_solvent_witness :
  all_solvent (final (perform (DicePlay 1 600 3 5) one_user)) /\
  exists f w', perform (DicePlay 1 600 3 5) one_user = Ret (Some f) w'.
Proof.
  destruct (money_operations_keep_users_solvent (DicePlay 1 600 3 5) one_user)
    as [Hs Ho].
  - reflexivity.
  - intros k x Hk. unfold one_user in Hk. cbn [users set_users empty_world] in Hk.
    apply lookup_insert_Some in Hk as [[_ <-]|[_ Hk]].
    + split; vm_compute; discriminate.
    + rewrite lookup_empty in Hk. discriminate Hk.
  - split; [exact Hs|].
    destruct Ho as (f & w' & Hret & _).
    + exists (member 1 100 500). split; [vm_compute; reflexivity|reflexivity].
    + eauto.
Defined.

(** ** Amounts that are not rational numbers *)

Lemma ltb_nan_l (x : float) : (nan <? x)%float = false.
Proof. rewrite FloatAxioms.ltb_spec. reflexivity. Qed.

Lemma ltb_nan_r (x : float) : (x <? nan)%float = false.
Proof.
  rewrite FloatAxioms.ltb_spec. change (Prim2SF nan) with S754_nan.
  destruct (Prim2SF x) as [[]|[]| |[] ? ?]; reflexivity.
Qed.

Lemma add_nan (x : float) : Prim2SF (x + nan) = S754_nan.
Proof.
  rewrite FloatAxioms.add_spec. change (Prim2SF nan) with S754_nan.
  destruct (Prim2SF x) as [[]|[]| |[] ? ?]; reflexivity.
Qed.

Lemma sub_nan (x : float) : Prim2SF (x - nan) = S754_nan.
Proof.
  rewrite FloatAxioms.sub_spec. change (Prim2SF nan) with S754_nan.
  destruct (Prim2SF x) as [[]|[]| |[] ? ?]; reflexivity.
Qed.

(** C1: a withdrawal of NaN is accepted.  Whatever the balance of the
    user and whatever was withdrawn today, the amount NaN passes the four
    tests of [request_withdraw], each of them a comparison that NaN
    makes false; the method and the account of the request below pass
    the two checks that follow, which do not look at the amount; the
    balance that the request then writes is NaN, which is not a
    non-negative number: the test [0 <= balance] fails on it. *)
Theorem nan_amount_is_withdrawn (total_today balance : float) :
  Payments.amount_accepted nan total_today balance = true /\
  Payments.payment_methods (Utils.lower "nagod") = Some nagod /\
  Utils.validate_phone "01712345678" = true /\
  PrimFloat.is_nan (Payments.float_debited balance nan) = true /\
  (0 <=? Payments.float_debited balance nan)%float = false.
Proof.
  split_and!.
  - unfold Payments.amount_accepted.
    rewrite ltb_nan_l, !ltb_nan_r.
    rewrite FloatAxioms.ltb_spec, add_nan.
    destruct (Prim2SF _) as [[]|[]| |[] ? ?]; reflexivity.
  - reflexivity.
  - reflexivity.
  - unfold Payments.float_debited, PrimFloat.is_nan.
    rewrite FloatAxioms.eqb_spec, sub_nan. reflexivity.
  - unfold Payments.float_debited. rewrite FloatAxioms.leb_spec, sub_nan. reflexivity.
Qed.

(** The same by evaluation, for a user who holds 300 and has withdrawn
    nothing today; and the amounts of the ledger samples, 200 out of
    300, go through the tests and the two updates as they do in exact
    arithmetic. *)
Lemma float_view_at_300 :
  Payments.amount_accepted nan 0 300 = true /\
  PrimFloat.is_nan (Payments.float_debited 300 nan) = true /\
  Payments.amount_accepted 200 0 300 = true /\
  Payments.float_debited 300 200 = 100%float /\
  Payments.float_refunded (Payments.float_debited 300 200) 200 = 300%float /\
  Payments.amount_accepted 400 0 300 = false.
Proof. split_and!; vm_compute; reflexivity. Qed.

(** ** Rounding *)

(** C2, counterexample: a user holding 114.01 withdraws 50.01; every
    test on the amount passes and the balance becomes 64.0; the rejection
    adds 50.01 and leaves 114.00999999999999, which is not the balance
    from before the request. *)
Lemma float_round_trip_misses_the_balance :
  Payments.amount_accepted taka_50_01 0 taka_114_01 = true /\
  Payments.float_refunded (Payments.float_debited taka_114_01 taka_50_01) taka_50_01
    <> taka_114_01 /\
  (Payments.float_refunded (Payments.float_debited taka_114_01 taka_50_01) taka_50_01
   <? taka_114_01)%float = true.
Proof.
  split_and!.
  - vm_compute. reflexivity.
  - intros H. apply (f_equal (fun z => PrimFloat.eqb z taka_114_01)) in H.
    vm_compute in H. discriminate H.
  - vm_compute. reflexivity.
Qed.

(** ** The first-deposit bonus *)

Lemma insert_sorted_length {A} (leb : A -> A -> bool) (x : A) (l : list A) :
  length (insert_sorted leb x l) = S (length l).
Proof.
  induction l as [|y l IH]; [reflexivity|]. cbn.
  destruct (leb x y); cbn; [reflexivity|]. rewrite IH. reflexivity.
Qed.

Lemma sorted_length {A} (leb : A -> A -> bool) (l : list A) :
  length (sorted leb l) = length l.
Proof.
  induction l as [|x l IH]; [reflexivity|]. cbn.
  rewrite insert_sorted_length. f_equal. exact IH.
Qed.

(** The payment under confirmation is one of its owner's payments. *)
Lemma history_is_never_empty (m : gmap (Z * Z) Payment) (payment_id : Z * Z)
    (p : Payment) :
  (length (py_prefix 20
     (sorted Db.newer_first
        (filter (fun q => p_user_id q = p_user_id p)
                (Db.payment_values (<[payment_id := p]> m)))))
   =? 0)%nat = false.
Proof.
  change (py_prefix 20) with (@take Payment 20).
  apply Nat.eqb_neq. rewrite length_take, sorted_length.
  assert (Hin : p ∈ filter (fun q => p_user_id q = p_user_id p)
                      (Db.payment_values (<[payment_id := p]> m))).
  { apply list_elem_of_filter. split; [reflexivity|].
    unfold Db.payment_values. apply list_elem_of_fmap.
    exists (payment_id, p). split; [reflexivity|].
    apply elem_of_map_to_list. apply lookup_insert_eq. }
  destruct (filter _ _) as [|q l]; [inversion Hin|]. cbn. lia.
Qed.

Lemma settle_deposit_free payment_id p trx a w r w1 :
  Payments.settle_deposit payment_id p trx a w = Ret r w1 -> lock w = false.
Proof.
  intros H. destruct (lock w) eqn:L; [exfalso|reflexivity].
  destruct w as [us ps ts sh gs ls st lk dd dk ck rd sg wr]. cbn in L. subst lk.
  locked_unfold H. discriminate H.
Qed.

(** What [settle_deposit] does when it returns. *)
Lemma settle_deposit_success payment_id p trx a w r w1 :
  Payments.settle_deposit payment_id p trx a w = Ret r w1 ->
  exists t t',
    r = Success {| Payments.amount_added := net_amount p + 0;
                   Payments.bonus := 0;
                   Payments.new_balance :=
                     match users w !! p_user_id p with
                     | Some u => balance u + (net_amount p + 0)
                     | None => 0
                     end |} /\
    payments w1 !! payment_id = Some (Payments.confirmed a t trx p) /\
    transactions w1 = transactions w /\
    users w1 =
      match users w !! p_user_id p with
      | Some u =>
          <[p_user_id p :=
              Db.merge
                {| upd_balance := Some (balance (Payments.credited (net_amount p + 0) u));
                   upd_coins := None;
                   upd_total_earned :=
                     Some (total_earned (Payments.credited (net_amount p + 0) u));
                   upd_total_spent := None |}
                t' (Payments.credited (net_amount p + 0) u)]>
            (<[p_user_id p := Payments.credited (net_amount p + 0) u]> (users w))
      | None => users w
      end.
Proof.
  intros H. pose proof (settle_deposit_free _ _ _ _ _ _ _ H) as L.
  unfold Payments.settle_deposit, Db.get_user_payments in H.
  do 4 fwd_in H. chain_in H.
  rewrite !history_is_never_empty in H.
  fwd_in H.
  change (p_user_id (Payments.confirmed a (clock w (reads w)) trx p))
    with (p_user_id p) in H.
  change (net_amount (Payments.confirmed a (clock w (reads w)) trx p))
    with (net_amount p) in H.
  branch H Eu; repeat fwd_in H; landed H; chain; try present E.
  - do 2 eexists. split_and!;
      [reflexivity | rewrite !lookup_insert_eq; reflexivity | reflexivity | reflexivity].
  - exists (clock w (reads w)), (clock w (reads w)). split_and!;
      [reflexivity | rewrite !lookup_insert_eq; reflexivity | reflexivity | reflexivity].
Qed.



(** ** The store lock *)

(** X6: [update_game_stats] never returns.  It takes the store lock and,
    holding it, calls [get_user], which waits for the same non-reentrant
    lock: whatever the world, the call ends waiting for ever, with every
    collection as it was. *)
Theorem update_game_stats_never_returns (user_id : Z) (game : string)
    (is_win : bool) (bet pay : option Z) (w : World) :
  exists w',
    Db.update_game_stats user_id game is_win bet pay w = Block w' /\
    users w' = users w /\ games w' = games w /\ payments w' = payments w.
Proof.
  unfold Db.update_game_stats, with_lock.
  destruct (lock w) eqn:L.
  - exists w. split_and!; reflexivity.
  - exists (set_lock true w). split_and!; reflexivity.
Qed.

(** X7: a covered wager hangs after the money has moved.  With the lock
    free, a known user and a bet within the limits that the user can
    cover, [play_dice] never returns: it ends waiting on the store lock,
    which stays held, and the coins of the user are already those after
    the throw (the net win added, the bet taken, or unchanged on a
    draw). *)
Theorem covered_dice_play_hangs (user_id bet user_roll bot_roll : Z) (w : World)
    (u : User)
    (Hfree : lock w = false)
    (Huser : users w !! user_id = Some u)
    (Hmin : Games.dice_min_bet <= bet) (Hmax : bet <= Games.dice_max_bet)
    (Hcover : bet <= coins u) :
  let o := Games.play_dice user_id bet user_roll bot_roll w in
  let win := Qtrunc (inject_Z bet * (Games.dice_win_multiplier * (1 - Games.dice_house_edge))) in
  exists u',
    o = Block (final o) /\
    lock (final o) = true /\
    users (final o) !! user_id = Some u' /\
    coins u' = (if bot_roll <? user_roll then coins u + (win - bet)
                else if user_roll <? bot_roll then coins u - bet
                else coins u) /\
    balance u' = balance u.
Proof.
  intros o win. subst o.
  apply Z.ltb_ge in Hmin, Hmax, Hcover.
  destruct (Games.play_dice user_id bet user_roll bot_roll w) as [r w'|e w'|w'] eqn:H;
    cbn [final];
    unfold Games.play_dice in H;
    rewrite Hmin, Hmax in H;
    fwd_in H; rewrite Huser in H; cbv beta iota in H; rewrite Hcover in H;
    fold win in H;
    (destruct (bot_roll <? user_roll); [|destruct (user_roll <? bot_roll)]);
    unfold Games.record_play in H;
    repeat fwd_in H; landed H; cbn [lock users set_lock]; chain; try present E;
    try (rewrite Huser in *; discriminate).
  all: try match goal with
         | Hu : Some ?a = Some ?b |- _ => injection Hu as Hu; rewrite Hu in *
         end.
  all: eexists.
  all: split_and!; [reflexivity | reflexivity | first [apply lookup_insert_eq | eassumption]
                    | reflexivity | reflexivity ].
Qed.

Lemma covered_dice_play_hangs_witness :
  exists u', users (final (Games.play_dice 1 100 2 5 one_user)) !! 1 = Some u' /\
             coins u' = 400.
Proof.
  destruct (covered_dice_play_hangs 1 100 2 5 one_user (member 1 100 500))
    as (u' & _ & _ & Hu & Hc & _).
  - reflexivity.
  - vm_compute. reflexivity.
  - vm_compute. discriminate.
  - vm_compute. discriminate.
  - vm_compute. discriminate.
  - exists u'. split; [exact Hu|]. rewrite Hc. reflexivity.
Defined.

(** ** Settled payments *)

(** [reject_payment] refuses a payment that is no longer PENDING. *)
Lemma reject_refuses_settled (payment_id : Z * Z) (admin_id : Z) (reason : string)
    (p : Payment) (w : World) :
  payments w !! payment_id = Some p -> status p <> PENDING ->
  Payments.reject_payment payment_id admin_id reason w =
    Ret (Failure (InvalidTransition (status p))) w.
Proof.
  intros Hp Hs.
  cbv beta iota delta [Payments.reject_payment bind gets].
  rewrite Hp, (bool_decide_eq_false_2 _ Hs). reflexivity.
Qed.

(** X8: COMPLETED and REJECTED are final.  A payment that has left
    PENDING is refused by [confirm_deposit], by [confirm_withdraw] and by
    [reject_payment] alike, whoever asks and whether or not the store
    lock is free: each answers that the payment already has its current
    status and leaves the whole world as it was. *)
Theorem settled_payment_is_final (payment_id : Z * Z) (p : Payment) (w : World)
    (c : confirmation) (admin_id : Z) (reason : string) :
  payments w !! payment_id = Some p -> status p <> PENDING ->
  confirm c payment_id w = Ret (Some (InvalidTransition (status p))) w /\
  Payments.reject_payment payment_id admin_id reason w =
    Ret (Failure (InvalidTransition (status p))) w.
Proof.
  intros Hp Hs. split.
  - apply confirm_refuses_settled; assumption.
  - apply reject_refuses_settled; assumption.
Qed.

Lemma settled_payment_is_final_witness :
  confirm (AsWithdrawal 9) (1700000000, 7) after_refusal =
    Ret (Some (InvalidTransition REJECTED)) after_refusal /\
  Payments.reject_payment (1700000000, 7) 9 "again" after_refusal =
    Ret (Failure (InvalidTransition REJECTED)) after_refusal.
Proof.
  apply (settled_payment_is_final (1700000000, 7) refused_withdrawal after_refusal
           (AsWithdrawal 9) 9 "again").
  - vm_compute. reflexivity.
  - vm_compute. discriminate.
Defined.

(** X9: rejecting a deposit moves no money.  With the lock free, the
    rejection of a PENDING payment of type DEPOSIT returns success with
    no refund, leaves every user as it was and stores the payment as
    REJECTED with the admin and the reason, its amounts unchanged. *)
Theorem reject_deposit_moves_no_money (payment_id : Z * Z) (admin_id : Z)
    (reason : string) (p : Payment) (w : World) :
  lock w = false ->
  payments w !! payment_id = Some p ->
  status p = PENDING -> p_type p = DEPOSIT ->
  let o := Payments.reject_payment payment_id admin_id reason w in
  o = Ret (Success false) (final o) /\
  users (final o) = users w /\
  exists p', payments (final o) !! payment_id = Some p' /\
    status p' = REJECTED /\ rejected_by p' = Some admin_id /\
    rejection_reason p' = Some reason /\
    amount p' = amount p /\ net_amount p' = net_amount p /\
    p_user_id p' = p_user_id p.
Proof.
  intros L Hp Hs Ht o. subst o.
  destruct (Payments.reject_payment payment_id admin_id reason w) as [r w'|e w'|w'] eqn:H;
    cbn [final];
    unfold Payments.reject_payment in H;
    fwd_in H; rewrite Hp in H; cbv beta iota in H;
    rewrite Hs, Ht in H;
    change (negb (bool_decide (PENDING = PENDING))) with false in H;
    change (bool_decide (DEPOSIT = WITHDRAW)) with false in H;
    cbv beta iota in H;
    repeat fwd_in H; landed H; chain.
  split_and!; [rewrite Ht; reflexivity | reflexivity |].
  eexists. split; [apply lookup_insert_eq|]. split_and!; reflexivity.
Qed.

Lemma reject_deposit_moves_no_money_witness :
  let o := Payments.reject_payment deposit_id 9 "late" (final after_deposit_request) in
  users (final o) = users (final after_deposit_request).
Proof.
  cbv zeta.
  set (w := final after_deposit_request).
  assert (Hp : exists p, payments w !! deposit_id = Some p /\
                         status p = PENDING /\ p_type p = DEPOSIT)
    by (eexists; split_and!; vm_compute; reflexivity).
  destruct Hp as (p & Hp & Hs & Ht).
  apply (reject_deposit_moves_no_money deposit_id 9 "late" p w).
  - vm_compute. reflexivity.
  - exact Hp.
  - exact Hs.
  - exact Ht.
Defined.

(** *** The transaction mirror *)

Lemma settle_deposit_keeps_transactions payment_id p trx a w :
  lock w = false ->
  transactions (final (Payments.settle_deposit payment_id p trx a w)) = transactions w.
Proof.
  intros L.
  destruct (Payments.settle_deposit payment_id p trx a w) as [r w'|e w'|w'] eqn:H;
    cbn [final];
    unfold Payments.settle_deposit, Db.get_user_payments in H;
    do 5 fwd_in H; branch H Eu; repeat fwd_in H; landed H; chain; reflexivity.
Qed.

Lemma final_bind_ret {A B} (m : M A) (f : A -> B) (w : World) :
  final (bind m (fun a => ret (f a)) w) = final (m w).
Proof. unfold bind, ret. destruct (m w); reflexivity. Qed.

(** X10: the transaction record written beside a payment is never
    brought up to date.  With the lock free, neither confirmation entry
    point nor [reject_payment] changes the transaction collection,
    whatever they do to the payment: the record of a payment that was
    completed or rejected still reads PENDING. *)
Theorem reviews_never_touch_transactions (payment_id : Z * Z) (c : confirmation)
    (admin_id : Z) (reason : string) (w : World) :
  lock w = false ->
  transactions (final (confirm c payment_id w)) = transactions w /\
  transactions (final (Payments.reject_payment payment_id admin_id reason w))
    = transactions w.
Proof.
  intros L. split.
  - destruct c as [trx a|a]; unfold confirm; rewrite final_bind_ret.
    + unfold Payments.confirm_deposit. rewrite bind_gets.
      destruct (payments w !! payment_id) as [p|]; [|reflexivity].
      destruct (negb _); [reflexivity|].
      destruct a as [a|]; [apply settle_deposit_keeps_transactions; exact L|].
      destruct (Payments.auto_confirmable p);
        [apply settle_deposit_keeps_transactions; exact L | reflexivity].
    + destruct (Payments.confirm_withdraw payment_id a w) as [r w'|e w'|w'] eqn:H;
        cbn [final]; unfold Payments.confirm_withdraw in H;
        fwd_in H; (branch H E0; [|landed H; reflexivity]);
        (branch H E1; [landed H; reflexivity|]);
        (branch H E2; [landed H; reflexivity|]);
        repeat fwd_in H; landed H; chain; reflexivity.
  - destruct (Payments.reject_payment payment_id admin_id reason w)
      as [r w'|e w'|w'] eqn:H;
      cbn [final]; unfold Payments.reject_payment in H;
      fwd_in H; (branch H E0; [|landed H; reflexivity]);
      (branch H E1; [landed H; reflexivity|]);
      (branch H E2; [fwd_in H; fwd_in H; branch H E3|]);
      repeat fwd_in H; landed H; chain; reflexivity.
Qed.

Lemma reviews_never_touch_transactions_witness :
  (tx_status <$> transactions
     (final (confirm (AsWithdrawal 9) filed_id (final after_withdraw_request)))
     !! stamp_s (tenths 5)) = Some PENDING.
Proof.
  rewrite (proj1 (reviews_never_touch_transactions filed_id (AsWithdrawal 9) 9 "no"
                    (final after_withdraw_request) eq_refl)).
  vm_compute. reflexivity.
Defined.

(** X11: confirming a withdrawal pays out what was reserved.  With the
    lock free, [confirm_withdraw] on a PENDING payment changes no user:
    the amount left the balance when the withdrawal was requested.  A
    payment of type WITHDRAW is stored COMPLETED with the admin and the
    net amount is reported as sent; a payment of type DEPOSIT is refused
    and the world is left as it was. *)
Theorem confirm_withdraw_moves_no_money (payment_id : Z * Z) (admin_id : Z)
    (p : Payment) (w : World) :
  lock w = false ->
  payments w !! payment_id = Some p -> status p = PENDING ->
  let o := Payments.confirm_withdraw payment_id admin_id w in
  users (final o) = users w /\
  match p_type p with
  | WITHDRAW =>
      o = Ret (Success {| Payments.amount_sent := net_amount p;
                          Payments.paid_user := p_user_id p |}) (final o) /\
      exists p', payments (final o) !! payment_id = Some p' /\
        status p' = COMPLETED /\ confirmed_by p' = Some admin_id /\
        amount p' = amount p /\ net_amount p' = net_amount p
  | DEPOSIT => o = Ret (Failure OnlyWithdrawals) w
  end.
Proof.
  intros L Hp Hs o. subst o.
  split; [apply confirm_withdraw_keeps_users; exact L|].
  destruct (Payments.confirm_withdraw payment_id admin_id w) as [r w'|e w'|w'] eqn:H;
    cbn [final];
    unfold Payments.confirm_withdraw in H;
    fwd_in H; rewrite Hp in H; cbv beta iota in H;
    rewrite Hs in H;
    change (negb (bool_decide (PENDING = PENDING))) with false in H;
    cbv beta iota in H;
    destruct (p_type p) eqn:Ht;
    change (negb (bool_decide (DEPOSIT = WITHDRAW))) with true in H;
    change (negb (bool_decide (WITHDRAW = WITHDRAW))) with false in H;
    cbv beta iota in H;
    repeat fwd_in H; landed H; chain; try reflexivity.
  split; [reflexivity|].
  eexists. split; [apply lookup_insert_eq|]. split_and!; reflexivity.
Qed.

Lemma confirm_withdraw_moves_no_money_witness :
  users (final (Payments.confirm_withdraw filed_id 9 (final after_withdraw_request))) =
  users (final after_withdraw_request).
Proof.
  set (w := final after_withdraw_request).
  assert (Hp : exists p, payments w !! filed_id = Some p /\ status p = PENDING)
    by (eexists; split; vm_compute; reflexivity).
  destruct Hp as (p & Hp & Hs).
  apply (confirm_withdraw_moves_no_money filed_id 9 p w eq_refl Hp Hs).
Defined.

(** ** Filing a deposit *)

(** X12: what a deposit request does, for a method name in ASCII and
    an amount that is a number, fee and net amount in exact arithmetic.
    With the lock free the call always returns, and never changes a
    user.  It fails, leaving the whole world as it was, exactly when the
    amount is under the minimum deposit, over 50000, or the method,
    compared in lower case, is not in the table.  Otherwise it files one
    payment under the id it returns: a PENDING DEPOSIT of the user for
    the amount, with the fee of the method and the net amount
    [amount - fee], and every other payment is as before. *)
Theorem request_deposit_files_a_pending_deposit (user_id : Z) (amt : Q)
    (m : string) (trx : option string) (w : World) :
  lock w = false -> ascii_text m = true ->
  let o := Payments.request_deposit user_id amt m trx w in
  users (final o) = users w /\
  ((exists f, o = Ret (Failure f) w /\
      (f = BelowMinimum /\ (amt < inject_Z (Config.MIN_DEPOSIT Config.Config))%Q \/
       f = AboveMaximum /\ (50000 < amt)%Q \/
       f = UnknownMethod /\ Payments.payment_methods (Utils.lower m) = None)) \/
   (exists payment_id pm p,
      o = Ret (Success payment_id) (final o) /\
      (inject_Z (Config.MIN_DEPOSIT Config.Config) <= amt)%Q /\ (amt <= 50000)%Q /\
      Payments.payment_methods (Utils.lower m) = Some pm /\
      payments (final o) = <[payment_id := p]> (payments w) /\
      p_user_id p = user_id /\ p_type p = DEPOSIT /\ status p = PENDING /\
      method_code p = pm /\ amount p = amt /\
      (fee p == amt * Payments.method_fee_percent pm / 100)%Q /\
      (net_amount p == amt - fee p)%Q /\
      lock (final o) = false)).
Proof.
  intros L _ o. subst o.
  destruct (Payments.request_deposit user_id amt m trx w) as [r w'|e w'|w'] eqn:H;
    cbn [final]; unfold Payments.request_deposit in H.
  all: branch H E1;
    [landed H; refine (conj eq_refl (or_introl (ex_intro _ _ (conj eq_refl _))));
     left; refine (conj eq_refl _); apply Qltb_lt; exact E1 |].
  all: branch H E2;
    [landed H; refine (conj eq_refl (or_introl (ex_intro _ _ (conj eq_refl _))));
     right; left; refine (conj eq_refl _); apply Qltb_lt; exact E2 |].
  all: branch H E3;
    [| landed H; refine (conj eq_refl (or_introl (ex_intro _ _ (conj eq_refl _))));
       right; right; refine (conj eq_refl _); reflexivity ].
  all: cbn [Payments.method_supported negb] in H; cbv beta iota in H;
    repeat fwd_in H; landed H; chain.
  split; [reflexivity|]. right.
  apply Qltb_ge in E1, E2.
  do 3 eexists. split_and!; try reflexivity; try assumption.
  - cbn [fee Db.registered Payments.draft]. field.
    all: repeat split; intros Hz; vm_compute in Hz; discriminate Hz.
Qed.

Lemma request_deposit_files_a_pending_deposit_witness :
  exists payment_id p,
    Payments.request_deposit 1 1000 "NaGoD" None newcomer =
      Ret (Success payment_id)
          (final (Payments.request_deposit 1 1000 "NaGoD" None newcomer)) /\
    payments (final (Payments.request_deposit 1 1000 "NaGoD" None newcomer))
      !! payment_id = Some p /\
    method_code p = nagod /\ status p = PENDING.
Proof.
  destruct (request_deposit_files_a_pending_deposit 1 1000 "NaGoD" None newcomer
              eq_refl eq_refl) as [_ [(f & _ & Hf)|Hok]].
  - exfalso. destruct Hf as [[_ Hf]|[[_ Hf]|[_ Hf]]].
    + revert Hf. vm_compute. discriminate.
    + revert Hf. vm_compute. discriminate.
    + vm_compute in Hf. discriminate Hf.
  - destruct Hok as (payment_id & pm & p & Hret & _ & _ & Hm & Hp & _ & _ & Hs & Hc & _).
    exists payment_id, p. split; [exact Hret|].
    split; [rewrite Hp; apply lookup_insert_eq|].
    split; [|exact Hs].
    rewrite Hc. vm_compute in Hm. injection Hm as <-. reflexivity.
Defined.

(** ** Confirming without an admin *)

(** With the lock free, the settlement of a deposit returns. *)
Lemma settle_deposit_returns payment_id p trx a w :
  lock w = false ->
  exists r w1, Payments.settle_deposit payment_id p trx a w = Ret r w1.
Proof.
  intros L.
  destruct (Payments.settle_deposit payment_id p trx a w) as [r w'|e w'|w'] eqn:H;
    [eauto | exfalso ..];
    unfold Payments.settle_deposit, Db.get_user_payments in H;
    do 5 fwd_in H; branch H Eu; repeat fwd_in H; landed H.
Qed.

(** X13: the rule of automatic confirmation.  [confirm_deposit] called
    without an admin on a PENDING payment, with the lock free, settles
    the payment exactly when its amount is at most 500 and its method is
    nagod or bikash: the call then succeeds and the payment is stored
    COMPLETED, confirmed by the system admin 0, with the transaction id
    given.  In every other case it asks for a manual confirmation and
    leaves the whole world as it was. *)
Theorem auto_confirmation_rule (payment_id : Z * Z) (trx : string) (p : Payment)
    (w : World) :
  lock w = false ->
  payments w !! payment_id = Some p -> status p = PENDING ->
  let o := Payments.confirm_deposit payment_id trx None w in
  ((amount p <= 500)%Q /\ (method_code p = nagod \/ method_code p = bikash) ->
     exists r p', o = Ret (Success r) (final o) /\
       payments (final o) !! payment_id = Some p' /\
       status p' = COMPLETED /\ confirmed_by p' = Some 0 /\ trx_id p' = Some trx) /\
  (~ ((amount p <= 500)%Q /\ (method_code p = nagod \/ method_code p = bikash)) ->
     o = Ret (Failure ManualConfirmationRequired) w).
Proof.
  intros L Hp Hs o. subst o.
  unfold Payments.confirm_deposit. rewrite bind_gets, Hp. cbv beta iota.
  rewrite Hs. change (negb (bool_decide (PENDING = PENDING))) with false.
  cbv beta iota. unfold Payments.auto_confirmable. split.
  - intros [Ha Hm]. apply Qle_bool_iff in Ha. rewrite Ha.
    rewrite (bool_decide_eq_true_2 _ Hm). cbn [andb].
    destruct (settle_deposit_returns payment_id p trx 0 w L) as (r & w1 & H).
    rewrite H. cbn [final].
    destruct (settle_deposit_success _ _ _ _ _ _ _ H) as (t & t' & Hr & Hp1 & _ & _).
    subst r. do 2 eexists. split; [reflexivity|]. split; [exact Hp1|].
    split_and!; reflexivity.
  - intros Hn.
    destruct (Qle_bool (amount p) 500) eqn:Ea; [|reflexivity].
    destruct (bool_decide _) eqn:Em; [|reflexivity].
    exfalso. apply Hn. split; [apply Qle_bool_iff; exact Ea|].
    apply bool_decide_eq_true in Em. exact Em.
Qed.

Lemma auto_confirmation_rule_witness :
  Payments.confirm_deposit deposit_id "TRX7" None (final after_deposit_request) =
    Ret (Failure ManualConfirmationRequired) (final after_deposit_request).
Proof.
  set (w := final after_deposit_request).
  assert (Hp : exists p, payments w !! deposit_id = Some p /\ status p = PENDING /\
                         (amount p == 1000)%Q)
    by (eexists; split_and!; vm_compute; reflexivity).
  destruct Hp as (p & Hp & Hs & Ha).
  apply (proj2 (auto_confirmation_rule deposit_id "TRX7" p w eq_refl Hp Hs)).
  intros [Hle _]. rewrite Ha in Hle. revert Hle. vm_compute. intros Hle. apply Hle.
  reflexivity.
Defined.

(** ** Sorting *)

Lemma insert_sorted_perm {A} (leb : A -> A -> bool) (x : A) (l : list A) :
  insert_sorted leb x l ≡ₚ x :: l.
Proof.
  induction l as [|y l IH]; [reflexivity|]. cbn.
  destruct (leb x y); [reflexivity|].
  rewrite IH. apply Permutation_swap.
Qed.

Lemma sorted_perm {A} (leb : A -> A -> bool) (l : list A) : sorted leb l ≡ₚ l.
Proof.
  induction l as [|x l IH]; [reflexivity|]. cbn.
  rewrite insert_sorted_perm. f_equiv. exact IH.
Qed.

Section order.
Context {A : Type} (leb : A -> A -> bool).
Hypothesis leb_total : forall x y, leb x y = true \/ leb y x = true.
Hypothesis leb_trans : forall x y z, leb x y = true -> leb y z = true -> leb x z = true.

Lemma insert_sorted_ordered (x : A) (l : list A) :
  StronglySorted (fun a b => leb a b = true) l ->
  StronglySorted (fun a b => leb a b = true) (insert_sorted leb x l).
Proof.
  induction 1 as [|y l Hl IH Hy]; cbn.
  - constructor; constructor.
  - destruct (leb x y) eqn:E.
    + constructor; [constructor; assumption|].
      constructor; [exact E|].
      eapply Forall_impl; [exact Hy|]. cbn. intros z Hz. eapply leb_trans; eauto.
    + constructor; [exact IH|].
      rewrite insert_sorted_perm. constructor; [|exact Hy].
      destruct (leb_total x y) as [H|H]; [congruence | exact H].
Qed.

Lemma sorted_ordered (l : list A) :
  StronglySorted (fun a b => leb a b = true) (sorted leb l).
Proof.
  induction l as [|x l IH]; cbn; [constructor|].
  apply insert_sorted_ordered. exact IH.
Qed.

(** In an ordered list, what [take] keeps is below what it leaves. *)
Lemma ordered_take_drop (l : list A) (n : nat) (x y : A) :
  StronglySorted (fun a b => leb a b = true) l ->
  x ∈ take n l -> y ∈ drop n l -> leb x y = true.
Proof.
  intros Hl. revert n. induction Hl as [|z l Hl IH Hz]; intros n Hx Hy.
  - rewrite take_nil in Hx. inversion Hx.
  - destruct n as [|n]; [inversion Hx|]. cbn in Hx, Hy.
    apply elem_of_cons in Hx as [->|Hx].
    + rewrite Forall_forall in Hz. apply Hz.
      eapply elem_of_sublist; [exact Hy|]. apply sublist_drop.
    + eapply IH; eassumption.
Qed.
End order.

Lemma dt_leb_total (a b : datetime) : dt_leb a b = true \/ dt_leb b a = true.
Proof.
  unfold dt_leb.
  destruct (Z.ltb_spec (seconds a) (seconds b)); [left; reflexivity|].
  destruct (Z.ltb_spec (seconds b) (seconds a)); [right; reflexivity|].
  assert (E : seconds a = seconds b) by lia. rewrite E, Z.eqb_refl. cbn.
  destruct (Z.leb_spec (microsecond a) (microsecond b)); [left; reflexivity|].
  right. apply Z.leb_le. lia.
Qed.

Lemma dt_leb_trans (a b c : datetime) :
  dt_leb a b = true -> dt_leb b c = true -> dt_leb a c = true.
Proof.
  unfold dt_leb. rewrite !orb_true_iff, !andb_true_iff, !Z.ltb_lt, !Z.eqb_eq, !Z.leb_le.
  lia.
Qed.

(** ** The log *)

Lemma size_foldr_delete {K : Type} `{Countable K} {V : Type} (m : gmap K V)
    (ks : list K) :
  NoDup ks -> (forall k, k ∈ ks -> is_Some (m !! k)) ->
  size (foldr delete m ks) = (size m - length ks)%nat.
Proof.
  induction 1 as [|k ks Hk Hks IH]; intros Hin; cbn; [lia|].
  rewrite map_size_delete_Some.
  - rewrite IH; [lia|]. intros k' Hk'. apply Hin. right. exact Hk'.
  - rewrite lookup_foldr_delete_not_elem_of by exact Hk. apply Hin. left.
Qed.

Lemma sorted_logs_keys (m : gmap (Z * Z) LogEntry) :
  (sorted Db.older_first (map_to_list m)).*1 ≡ₚ (map_to_list m).*1.
Proof. rewrite sorted_perm. reflexivity. Qed.

(** [prune] leaves the 1000 entries, or all of them when there are fewer. *)
Lemma prune_size (m : gmap (Z * Z) LogEntry) :
  size (Db.prune m) = Nat.min (size m) 1000.
Proof.
  unfold Db.prune. rewrite sorted_length, length_map_to_list.
  rewrite size_foldr_delete.
  - rewrite length_take, length_fmap, sorted_length, length_map_to_list. lia.
  - eapply (sublist_NoDup _ (sorted Db.older_first (map_to_list m)).*1);
      [|apply sublist_take].
    rewrite sorted_logs_keys. apply NoDup_fst_map_to_list.
  - intros k Hk.
    assert (Hk' : k ∈ (map_to_list m).*1).
    { rewrite <- sorted_logs_keys.
      eapply elem_of_sublist; [exact Hk|]. apply sublist_take. }
    apply list_elem_of_fmap in Hk' as ([k' e] & -> & He).
    apply elem_of_map_to_list in He. eauto.
Qed.

(** [prune] drops no entry that is younger than one it keeps. *)
Lemma prune_drops_the_oldest (m : gmap (Z * Z) LogEntry) (k k' : Z * Z)
    (e e' : LogEntry) :
  m !! k = Some e -> Db.prune m !! k = None ->
  Db.prune m !! k' = Some e' ->
  dt_leb (log_timestamp e) (log_timestamp e') = true.
Proof.
  unfold Db.prune. rewrite sorted_length.
  set (s := sorted Db.older_first (map_to_list m)).
  set (n := (length (map_to_list m) - 1000)%nat).
  intros Hk Hgone Hkept.
  apply lookup_foldr_delete_Some in Hkept as [Hnot Hk'].
  assert (Hin : k ∈ take n s.*1).
  { destruct (decide (k ∈ take n s.*1)) as [|Hn]; [assumption|].
    rewrite lookup_foldr_delete_not_elem_of in Hgone by exact Hn. congruence. }
  rewrite <- fmap_take in Hin, Hnot.
  apply list_elem_of_fmap in Hin as ([k0 e0] & -> & Hin). cbn [fst] in *.
  assert (He0 : (k0, e0) ∈ map_to_list m).
  { rewrite <- (sorted_perm Db.older_first).
    eapply elem_of_sublist; [exact Hin|]. apply sublist_take. }
  apply elem_of_map_to_list in He0. rewrite Hk in He0. injection He0 as <-.
  assert (Hs : (k', e') ∈ s).
  { unfold s. rewrite sorted_perm. apply elem_of_map_to_list. exact Hk'. }
  rewrite <- (take_drop n s) in Hs. apply elem_of_app in Hs as [Hs|Hs].
  { exfalso. apply Hnot. apply list_elem_of_fmap. exists (k', e'). split; [reflexivity|].
    exact Hs. }
  change (Db.older_first (k0, e) (k', e') = true).
  eapply (ordered_take_drop Db.older_first); [|exact Hin|exact Hs].
  apply sorted_ordered.
  - intros x y. apply dt_leb_total.
  - intros x y z. apply dt_leb_trans.
Qed.

(** The log collection [add_log] leaves. *)
Lemma add_log_logs (kind : string) (user_id : option Z) :
  forall w, lock w = false ->
  let m := <[stamp_us (clock w (reads w)) :=
               {| log_type := kind; log_user := user_id;
                  log_timestamp := clock w (S (reads w)) |}]> (logs w) in
  exists w', Db.add_log kind user_id w = Ret tt w' /\
    logs w' = (if (1000 <? size m)%nat then Db.prune m else m) /\
    lock w' = false.
Proof.
  prim. match goal with |- context [if ?c then _ else _] => destruct c end;
  eexists; (split; [reflexivity | split; reflexivity]).
Qed.

(** X14: the log keeps its last 1000 entries.  With the lock free,
    [add_log] returns.  If the log with the new entry holds at most 1000
    entries, it is left exactly so, the new entry included; otherwise
    exactly 1000 entries are left, each of them the new entry or one
    that was there before, and the entries are dropped from the old end:
    no entry that is gone is younger than one that stayed. *)
Theorem add_log_keeps_the_last_1000 (kind : string) (user_id : option Z) (w : World) :
  lock w = false ->
  let o := Db.add_log kind user_id w in
  let log_id := stamp_us (clock w (reads w)) in
  let entry := {| log_type := kind; log_user := user_id;
                  log_timestamp := clock w (S (reads w)) |} in
  let written := <[log_id := entry]> (logs w) in
  o = Ret tt (final o) /\
  size (logs (final o)) = Nat.min (size written) 1000 /\
  ((size written <= 1000)%nat -> logs (final o) = written) /\
  logs (final o) ⊆ written /\
  forall k k' e e',
    written !! k = Some e -> logs (final o) !! k = None ->
    logs (final o) !! k' = Some e' ->
    dt_leb (log_timestamp e) (log_timestamp e') = true.
Proof.
  intros L o log_id entry written. subst o.
  destruct (add_log_logs kind user_id w L) as (w' & -> & Hl & _).
  cbn [final]. fold log_id entry written in Hl. rewrite Hl.
  split; [reflexivity|].
  destruct (Nat.ltb_spec 1000 (size written)) as [Hbig|Hsmall].
  - split_and!.
    + rewrite prune_size. lia.
    + intros Hle. lia.
    + apply map_subseteq_spec. intros k e Hk.
      unfold Db.prune in Hk. apply lookup_foldr_delete_Some in Hk as [_ Hk]. exact Hk.
    + intros k k' e e'. apply prune_drops_the_oldest.
  - split_and!.
    + lia.
    + reflexivity.
    + reflexivity.
    + intros k k' e e' Hk Hgone. congruence.
Qed.

Lemma add_log_keeps_the_last_1000_witness :
  size (logs full_log) = 1001%nat /\
  size (logs (final (Db.add_log "start" None full_log))) = 1000%nat.
Proof.
  split; [vm_compute; reflexivity|].
  pose proof (add_log_keeps_the_last_1000 "start" None full_log eq_refl) as H.
  cbv zeta in H. destruct H as (_ & H & _).
  rewrite H. vm_compute. reflexivity.
Defined.

(** ** The payments of a user *)

Lemma odt_leb_total (a b : option datetime) : odt_leb a b = true \/ odt_leb b a = true.
Proof.
  destruct a as [x|], b as [y|]; cbn; auto. apply dt_leb_total.
Qed.

Lemma odt_leb_trans (a b c : option datetime) :
  odt_leb a b = true -> odt_leb b c = true -> odt_leb a c = true.
Proof.
  destruct a as [x|], b as [y|], c as [z|]; cbn; try congruence. apply dt_leb_trans.
Qed.

Lemma ordered_take {A} (R : A -> A -> Prop) (l : list A) (n : nat) :
  StronglySorted R l -> StronglySorted R (take n l).
Proof.
  intros Hl. revert n. induction Hl as [|x l Hl IH Hx]; intros [|n]; cbn;
    try constructor.
  - apply IH.
  - rewrite Forall_forall in *. intros y Hy. apply Hx.
    eapply elem_of_sublist; [exact Hy|]. apply sublist_take.
Qed.

(** X15: the payment history of a user.  [get_user_payments] changes
    nothing.  With a limit that is not negative it returns the user's
    payments up to the limit: as many as the user has, or [limit] of
    them; a negative limit cuts from the end instead and returns all but
    the last [-limit], which can be more than any bound.  Each payment
    returned is a payment of that user held in the store, none more
    often than the store holds it; they come newest first by creation
    time; and a payment of the user that is left out is no newer than
    any that is listed. *)
Theorem get_user_payments_lists_the_newest (user_id limit : Z) (w : World) :
  let mine :=
    filter (fun p => p_user_id p = user_id) (Db.payment_values (payments w)) in
  exists l,
    Db.get_user_payments user_id limit w = Ret l w /\
    length l = (if 0 <=? limit then Nat.min (Z.to_nat limit) (length mine)
                else (length mine - Z.to_nat (- limit))%nat) /\
    l ⊆+ mine /\
    (forall p, p ∈ l -> p_user_id p = user_id /\ exists k, payments w !! k = Some p) /\
    StronglySorted (fun a b => odt_leb (created_at b) (created_at a) = true) l /\
    (forall k q p, payments w !! k = Some q -> p_user_id q = user_id -> q ∉ l ->
       p ∈ l -> odt_leb (created_at q) (created_at p) = true).
Proof.
  intros mine. unfold Db.get_user_payments, gets. fold mine.
  set (s := sorted Db.newer_first mine).
  assert (Hs : StronglySorted (fun a b => Db.newer_first a b = true) s).
  { apply sorted_ordered.
    - intros x y. apply odt_leb_total.
    - intros x y z Hxy Hyz. unfold Db.newer_first in *. eapply odt_leb_trans; eauto. }
  assert (Hmine : forall p, p ∈ mine <->
            p_user_id p = user_id /\ exists k, payments w !! k = Some p).
  { intros p. unfold mine, Db.payment_values.
    rewrite list_elem_of_filter, list_elem_of_fmap. split.
    - intros (Hu & [k p'] & -> & Hin). split; [exact Hu|].
      exists k. apply elem_of_map_to_list. exact Hin.
    - intros (Hu & k & Hk). split; [exact Hu|].
      exists (k, p). split; [reflexivity|]. apply elem_of_map_to_list. exact Hk. }
  assert (Hcut : exists n, py_prefix limit s = take n s /\
            length (take n s) =
              (if 0 <=? limit then Nat.min (Z.to_nat limit) (length mine)
               else (length mine - Z.to_nat (- limit))%nat)).
  { unfold py_prefix. destruct (0 <=? limit); eexists; (split; [reflexivity|]);
      rewrite length_take; unfold s; rewrite !sorted_length; lia. }
  destruct Hcut as (n & -> & Hlen).
  exists (take n s). split_and!.
  - reflexivity.
  - exact Hlen.
  - transitivity s.
    + apply sublist_submseteq, sublist_take.
    + unfold s. rewrite sorted_perm. reflexivity.
  - intros p Hp. apply Hmine. unfold s in Hp.
    rewrite <- (sorted_perm Db.newer_first).
    eapply elem_of_sublist; [exact Hp|]. apply sublist_take.
  - apply ordered_take. exact Hs.
  - intros k q p Hk Hu Hout Hin.
    assert (Hq : q ∈ s).
    { unfold s. rewrite sorted_perm. apply Hmine. eauto. }
    rewrite <- (take_drop n s) in Hq. apply elem_of_app in Hq as [Hq|Hq];
      [contradiction|].
    change (Db.newer_first p q = true).
    eapply ordered_take_drop; eassumption.
Qed.

(** ** Restarting after a write *)

(** X16: what a restart finds after [update_user].  The users a fresh
    start would load from the snapshot left by a successful
    [update_user] are the users in memory only when the write
    completed.  When [open] failed they are the users of the previous
    snapshot (or of the textual file, or the default): the update is
    lost on restart.  After a torn write they are the default, whatever
    the previous snapshot and the textual file hold. *)
Theorem restart_after_update_user (user_id : Z) (updates : Updates) (u : User)
    (w : World) (json_file : file (gmap Z User)) (default : option (gmap Z User)) :
  lock w = false -> users w !! user_id = Some u ->
  let o := Db.update_user user_id updates w in
  let reloaded := Db._load_data ∅ (users_pkl (disk (final o))) json_file default in
  o = Ret true (final o) /\
  match storage w (writes w) with
  | Written => reloaded = users (final o)
  | NotOpened => reloaded = Db._load_data ∅ (users_pkl (disk w)) json_file default
  | Torn => reloaded = match default with Some d => d | None => ∅ end
  end.
Proof.
  intros L Hu o reloaded. subst o reloaded.
  destruct w as [us ps ts sh gs ls st lk dd dk ck rd sg wr].
  cbn in L, Hu. subst lk.
  prim_unfold. rewrite Hu.
  cbv beta iota zeta delta [final disk users storage writes Db.over_users users_pkl].
  split; [reflexivity|].
  destruct (sg wr); reflexivity.
Qed.

Lemma restart_after_update_user_witness :
  Db._load_data ∅
    (users_pkl (disk (final (Db.update_user 1 no_updates one_user_disk_down))))
    Absent None = (∅ : gmap Z User).
Proof.
  pose proof (restart_after_update_user 1 no_updates (member 1 100 500)
                one_user_disk_down Absent None eq_refl eq_refl) as H.
  cbv zeta in H. destruct H as [_ H]. exact H.
Defined.

(** ** The shop *)

Lemma find_set_first_stock (item : string) (v : Z) (l : list Item) :
  List.find (fun i => String.eqb (item_id i) item) (Shop.set_first_stock item v l) =
  Shop.with_stock v <$> List.find (fun i => String.eqb (item_id i) item) l.
Proof.
  induction l as [|i l IH]; [reflexivity|]. cbn.
  destruct (String.eqb (item_id i) item) eqn:E; cbn; rewrite E; [reflexivity | exact IH].
Qed.

(** The world a successful purchase leaves. *)
Lemma buy_item_receipt (user_id : Z) (item_name : string)
    (quantity : Z) (w w1 : World) (r : Shop.purchase_receipt) :
  lock w = false ->
  Shop.buy_item user_id item_name quantity w = Ret (Success r) w1 ->
  exists i u u1,
    List.find (fun i => String.eqb (item_id i) item_name) (shop w) = Some i /\
    users w !! user_id = Some u /\
    Shop.total_price r = unit_price w i * quantity /\
    Shop.total_price r <= coins u /\
    users w1 !! user_id = Some u1 /\
    coins u1 = coins u - Shop.total_price r /\
    Shop.coins_left r = coins u1 /\
    balance u1 = balance u /\
    total_spent u1 = (total_spent u + inject_Z (Shop.total_price r))%Q /\
    match stock i with
    | Some s =>
        if 0 <=? s
        then quantity <= s /\
             List.find (fun i => String.eqb (item_id i) item_name) (shop w1)
               = Some (Shop.with_stock (s - quantity) i)
        else shop w1 = shop w
    | None => shop w1 = shop w
    end.
Proof.
  intros L H.
  unfold Shop.buy_item, Db.get_item, Shop._apply_item_effects,
    Shop._update_shop_item_stock in H.
  fwd_in H. branch H Ei; [|nope H].
  do 2 fwd_in H. branch H Eu; [|nope H].
  branch H E1; [nope H|]. branch H E2; [nope H|]. branch H E3; [nope H|].
  branch H E4; [nope H|].
  assert (Hid : item_id i = item_name).
  { apply find_some in Ei as [_ Ei]. apply String.eqb_eq in Ei. exact Ei. }
  apply Z.ltb_ge in E1.
  exists i, u.
  branch H E5; repeat fwd_in H; try (branch H E6; repeat fwd_in H);
    landed H; cbn [users shop set_lock]; chain;
    repeat match goal with
    | E : <[_:=_]> _ !! _ = _ |- _ => present E
    end;
    (eexists; split_and!;
       [reflexivity | reflexivity
       | cbn [Shop.total_price]; unfold unit_price; reflexivity
       | exact E1 | apply lookup_insert_eq | reflexivity | reflexivity | reflexivity
       | reflexivity | ]).
  all: destruct (stock i) as [s|] eqn:Es; cbn [default from_option id] in *.
  all: try rewrite E5 in *; try discriminate.
  all: try (cbn [andb] in E4; apply Z.ltb_ge in E4;
            split; [exact E4|]; rewrite ?find_set_first_stock, Ei; reflexivity).
  all: try reflexivity.
Qed.




(** X18: the quantity is not checked for its sign.  With the lock
    free, a known buyer with no negative coins who meets the
    requirements of an article with a positive unit price can buy a
    negative quantity of it: the call succeeds whatever the stock, the
    total is negative, and the buyer ends with more coins than before;
    an article with a stock has its stock raised. *)
Theorem negative_quantity_pays_the_buyer (user_id : Z) (item_name : string)
    (quantity : Z) (w : World) (i : Item) (u : User) :
  lock w = false ->
  List.find (fun i => String.eqb (item_id i) item_name) (shop w) = Some i ->
  users w !! user_id = Some u ->
  quantity < 0 -> 0 < unit_price w i -> 0 <= coins u ->
  (forall l, min_level i = Some l -> l <= level u) ->
  (vip_only i = Some true -> is_vip u = true) ->
  let o := Shop.buy_item user_id item_name quantity w in
  exists r u1,
    o = Ret (Success r) (final o) /\
    Shop.total_price r < 0 /\
    users (final o) !! user_id = Some u1 /\
    coins u1 = coins u + unit_price w i * (- quantity) /\
    coins u < coins u1 /\
    forall s, stock i = Some s -> 0 <= s ->
      exists i1,
        List.find (fun i => String.eqb (item_id i) item_name) (shop (final o)) = Some i1 /\
        stock i1 = Some (s - quantity) /\ s < s - quantity.
Proof.
  intros L Ei Eu Hq Hp Hc Hlvl Hvip o. subst o.
  assert (Hid : item_id i = item_name).
  { apply find_some in Ei as [_ Ei']. apply String.eqb_eq in Ei'. exact Ei'. }
  destruct (Shop.buy_item user_id item_name quantity w) as [[r|f] w'|e w'|w'] eqn:H;
    cbn [final].
  1: { destruct (buy_item_receipt _ _ _ _ _ _ L H)
         as (i' & u' & u1 & Ei' & Eu' & Ht & _ & Hu1 & Hc1 & _ & _ & _ & Hs).
       rewrite Ei in Ei'. injection Ei' as <-.
       rewrite Eu in Eu'. injection Eu' as <-.
       exists r, u1. split_and!.
       - reflexivity.
       - rewrite Ht. nia.
       - exact Hu1.
       - rewrite Hc1, Ht. lia.
       - rewrite Hc1, Ht. nia.
       - intros s Es Hs0. rewrite Es in Hs.
         apply Z.leb_le in Hs0. rewrite Hs0 in Hs. destruct Hs as [_ Hs].
         eexists. split; [exact Hs|]. split; [reflexivity | lia]. }
  all: exfalso.
  all: unfold Shop.buy_item, Db.get_item, Shop._apply_item_effects,
         Shop._update_shop_item_stock in H;
       fwd_in H; rewrite Ei in H; cbv beta iota in H;
       do 2 fwd_in H; rewrite Eu in H; cbv beta iota in H;
       unfold unit_price in Hp; rewrite Hid in Hp.
  all: assert (G1 : (coins u <?
                       match daily_deals w !! item_name with
                       | Some discounted_price => discounted_price
                       | None => price i
                       end * quantity) = false) by (apply Z.ltb_ge; nia);
       rewrite G1 in H.
  all: assert (G2 : match min_level i with
                    | Some l => level u <? l
                    | None => false
                    end = false)
         by (destruct (min_level i) as [l|]; [apply Z.ltb_ge; auto | reflexivity]);
       rewrite G2 in H.
  all: assert (G3 : match vip_only i with
                    | Some v => v && negb (is_vip u)
                    | None => false
                    end = false)
         by (destruct (vip_only i) as [[|]|]; [rewrite Hvip; reflexivity | reflexivity ..]);
       rewrite G3 in H.
  all: assert (G4 : (0 <=? default (-1) (stock i)) &&
                    (default (-1) (stock i) <? quantity) = false)
         by (destruct (0 <=? default (-1) (stock i)) eqn:G; [|reflexivity];
             apply Z.leb_le in G; cbn [andb]; apply Z.ltb_ge; lia);
       rewrite G4 in H.
  all: branch H E5; repeat fwd_in H; try (branch H E6; repeat fwd_in H); landed H.
Qed.

Lemma negative_quantity_pays_the_buyer_witness :
  exists u1, users (final (Shop.buy_item 1 "potion" (-4) stocked)) !! 1 = Some u1 /\
             coins u1 = 700.
Proof.
  destruct (negative_quantity_pays_the_buyer 1 "potion" (-4) stocked potion
              (member 1 100 500))
    as (r & u1 & _ & _ & Hu1 & Hc & _).
  - reflexivity.
  - reflexivity.
  - vm_compute. reflexivity.
  - lia.
  - vm_compute. reflexivity.
  - vm_compute. discriminate.
  - intros l Hl. discriminate Hl.
  - intros Hv. discriminate Hv.
  - exists u1. split; [exact Hu1|]. rewrite Hc. reflexivity.
Defined.

(** ** Levels *)

Lemma next_xp_needed_grows (x : Z) : 0 <= x -> x <= Utils.next_xp_needed x.
Proof.
  intros Hx. unfold Utils.next_xp_needed, Qtrunc. cbn.
  change (Z.pos (1 * 2)) with 2. apply Z.quot_le_lower_bound; lia.
Qed.

Lemma next_xp_needed_below (x : Z) :
  0 <= x -> (inject_Z (Utils.next_xp_needed x) <= inject_Z x * (3 # 2))%Q.
Proof.
  intros Hx. unfold Utils.next_xp_needed, Qtrunc, Qle. cbn.
  change (Z.pos (1 * 2)) with 2.
  pose proof (Z.mul_quot_le (x * 3) 2 ltac:(lia) ltac:(lia)). lia.
Qed.

(** The loop, given more turns than XP, ends; what it leaves. *)
Lemma level_loop_ends (fuel : nat) :
  forall level xp xp_needed,
  100 <= xp_needed -> (Z.to_nat xp < fuel)%nat ->
  exists n xp',
    Utils.level_loop fuel level xp xp_needed =
      Some (level + Z.of_nat n, xp', xp_needed_after n xp_needed) /\
    100 <= xp_needed_after n xp_needed /\
    xp' < xp_needed_after n xp_needed /\
    xp = xp' + xp_spent n xp_needed /\
    (0 <= xp -> 0 <= xp') /\
    (xp < xp_needed -> n = O).
Proof.
  induction fuel as [|fuel IH]; intros level xp need Hneed Hfuel; [lia|].
  cbn [Utils.level_loop]. destruct (Z.leb_spec need xp) as [Hle|Hlt].
  - destruct (IH (level + 1) (xp - need) (Utils.next_xp_needed need))
      as (n & xp' & Hrun & H1 & H2 & H3 & H4 & _).
    + pose proof (next_xp_needed_grows need). lia.
    + lia.
    + exists (S n), xp'. cbn [xp_needed_after xp_spent].
      split_and!; try assumption; try lia.
      rewrite Hrun. do 3 f_equal. lia.
  - exists O, xp. cbn [xp_needed_after xp_spent].
    split_and!; try lia; try reflexivity.
    do 3 f_equal. lia.
Qed.

(** Spare turns do not change the answer. *)
Lemma level_loop_fuel (fuel : nat) :
  forall fuel' level xp xp_needed,
  100 <= xp_needed -> (Z.to_nat xp < fuel)%nat -> (Z.to_nat xp < fuel')%nat ->
  Utils.level_loop fuel level xp xp_needed = Utils.level_loop fuel' level xp xp_needed.
Proof.
  induction fuel as [|fuel IH]; intros [|fuel'] level xp need Hneed Hf Hf'; try lia.
  cbn [Utils.level_loop]. destruct (Z.leb_spec need xp) as [Hle|Hlt]; [|reflexivity].
  pose proof (next_xp_needed_grows need). apply IH; lia.
Qed.

Lemma xp_spent_app (a : nat) :
  forall (b : nat) (xp_needed : Z),
  xp_spent (a + b) xp_needed =
  xp_spent a xp_needed + xp_spent b (xp_needed_after a xp_needed).
Proof.
  induction a as [|a IH]; intros b need; cbn [xp_spent xp_needed_after Nat.add]; [lia|].
  rewrite IH. lia.
Qed.

(** The growth of the requirement: half as much again, rounded down. *)
Lemma next_xp_needed_rule (x : Z) : 0 <= x -> Utils.next_xp_needed x = 3 * x / 2.
Proof.
  intros Hx. unfold Utils.next_xp_needed, Qtrunc. cbn.
  change (Z.pos (1 * 2)) with 2. rewrite Z.quot_div_nonneg by lia. f_equal. lia.
Qed.

Lemma xp_needed_after_succ (k : nat) :
  forall x, xp_needed_after (S k) x = Utils.next_xp_needed (xp_needed_after k x).
Proof.
  induction k as [|k IH]; intros x; [reflexivity|].
  change (xp_needed_after (S (S k)) x)
    with (xp_needed_after (S k) (Utils.next_xp_needed x)).
  rewrite IH. reflexivity.
Qed.

Lemma xp_needed_after_grows (k : nat) :
  forall x, 0 <= x -> x <= xp_needed_after k x.
Proof.
  induction k as [|k IH]; intros x Hx; cbn [xp_needed_after]; [lia|].
  pose proof (next_xp_needed_grows x Hx). specialize (IH (Utils.next_xp_needed x)). lia.
Qed.

(** X19: what [calculate_level] computes, for an XP below 2^51 (where
    the float product of the code is exact).  The loop ends (more turns
    than XP suffice, and spare turns do not change the answer).  The
    level is 1 plus the number of levels gained; the requirement starts
    at 100 and becomes [3 * r / 2] rounded down with each level gained;
    the remaining XP is below the requirement reached, and is not
    negative when the XP passed in was not.  The XP passed in is the
    remaining XP plus the sum of the requirements of the levels gained;
    under 100 XP nothing is consumed and the level is 1. *)
Theorem calculate_level_splits_the_xp (xp : Z) :
  xp < 2 ^ 51 ->
  exists r n,
    (forall fuel, (Z.to_nat xp < fuel)%nat -> Utils.calculate_level fuel xp = Some r) /\
    Utils.lv_level r = 1 + Z.of_nat n /\
    Utils.lv_xp_needed r = xp_needed_after n 100 /\
    xp_needed_after 0 100 = 100 /\
    (forall k, xp_needed_after (S k) 100 = 3 * xp_needed_after k 100 / 2) /\
    Utils.lv_xp r < Utils.lv_xp_needed r /\
    xp = Utils.lv_xp r + xp_spent n 100 /\
    (forall k, xp_spent (S k) 100 = xp_spent k 100 + xp_needed_after k 100) /\
    (0 <= xp -> 0 <= Utils.lv_xp r) /\
    (xp < 100 -> Utils.lv_level r = 1 /\ Utils.lv_xp r = xp).
Proof.
  intros _.
  destruct (level_loop_ends (S (Z.to_nat xp)) 1 xp 100 ltac:(lia) ltac:(lia))
    as (n & xp' & Hrun & H1 & H2 & H3 & H4 & H5).
  eexists _, n. split_and!.
  - intros fuel Hfuel. unfold Utils.calculate_level.
    rewrite (level_loop_fuel fuel (S (Z.to_nat xp)) 1 xp 100) by lia.
    rewrite Hrun. reflexivity.
  - reflexivity.
  - reflexivity.
  - reflexivity.
  - intros k. rewrite xp_needed_after_succ. apply next_xp_needed_rule.
    pose proof (xp_needed_after_grows k 100). lia.
  - exact H2.
  - exact H3.
  - intros k. replace (S k) with (k + 1)%nat by lia.
    rewrite xp_spent_app. cbn [xp_spent]. lia.
  - exact H4.
  - intros Hlt. specialize (H5 Hlt). subst n. cbn [xp_spent] in H3.
    cbn [Utils.lv_level Utils.lv_xp]. split; [reflexivity|lia].
Qed.

Lemma calculate_level_splits_the_xp_witness :
  exists r, Utils.calculate_level 813 812 = Some r /\
            Utils.lv_level r = 5 /\ Utils.lv_xp r = 0 /\ Utils.lv_xp_needed r = 505.
Proof.
  destruct (calculate_level_splits_the_xp 812) as (r & n & Hrun & _).
  - reflexivity.
  - specialize (Hrun 813%nat ltac:(lia)). exists r. split; [exact Hrun|].
    vm_compute in Hrun. injection Hrun as <-. split_and!; reflexivity.
Defined.

(** *** The XP total *)

Lemma fold_left_Qplus (l : list Q) (a : Q) :
  (fold_left Qplus l a == a + fold_right Qplus 0 l)%Q.
Proof.
  revert a. induction l as [|x l IH]; intros a; cbn.
  - ring.
  - rewrite IH. ring.
Qed.

(** The rounded requirements stay under the unrounded ones. *)
Lemma xp_spent_below (n : nat) :
  forall (s : nat) (xp_needed : Z),
  0 <= xp_needed ->
  (inject_Z xp_needed <= 100 * (3 # 2) ^ Z.of_nat s)%Q ->
  (inject_Z (xp_spent n xp_needed) <=
   fold_right Qplus 0 ((fun i : nat => 100 * (3 # 2) ^ Z.of_nat i) <$> seq s n))%Q.
Proof.
  induction n as [|n IH]; intros s need Hpos Hle; cbn [xp_spent seq fmap list_fmap fold_right].
  - apply Qle_refl.
  - rewrite inject_Z_plus. apply Qplus_le_compat; [exact Hle|].
    apply IH.
    + pose proof (next_xp_needed_grows need Hpos). lia.
    + eapply Qle_trans; [apply next_xp_needed_below; exact Hpos|].
      rewrite Nat2Z.inj_succ, <- Z.add_1_r.
      rewrite Qpower_plus by discriminate.
      change ((3 # 2) ^ 1)%Q with (3 # 2).
      rewrite Qmult_assoc. apply Qmult_le_compat_r; [exact Hle | discriminate].
Qed.


Lemma level_loop_result (fuel : nat) :
  forall level xp xp_needed level' xp' xp_needed',
  Utils.level_loop fuel level xp xp_needed = Some (level', xp', xp_needed') ->
  exists n, level' = level + Z.of_nat n /\ xp = xp' + xp_spent n xp_needed.
Proof.
  induction fuel as [|fuel IH]; intros level xp need level' xp' need' H; [discriminate H|].
  cbn [Utils.level_loop] in H. destruct (need <=? xp).
  - apply IH in H as (n & -> & Hxp). exists (S n). cbn [xp_spent]. lia.
  - injection H as <- <- <-. exists O. cbn [xp_spent]. lia.
Qed.

Lemma fold_right_Qplus_app (l k : list Q) :
  (fold_right Qplus 0 (l ++ k) == fold_right Qplus 0 l + fold_right Qplus 0 k)%Q.
Proof.
  induction l as [|x l IH]; cbn.
  - ring.
  - rewrite IH. ring.
Qed.

(** X20: the total XP that [calculate_level] reports is not the XP it
    was given.  The total adds the unrounded requirements [100 * 1.5^i]
    of the levels gained to the remaining XP, while the loop consumed
    the rounded ones: the total is never under the XP passed in, and
    from level 5 on it is over it by at least half a point. *)
Theorem calculate_level_overstates_the_total (fuel : nat) (xp : Z)
    (r : Utils.level_info) :
  Utils.calculate_level fuel xp = Some r ->
  (inject_Z xp <= Utils.lv_total_xp r)%Q /\
  (5 <= Utils.lv_level r -> (inject_Z xp + (1 # 2) <= Utils.lv_total_xp r)%Q).
Proof.
  unfold Utils.calculate_level.
  destruct (Utils.level_loop fuel 1 xp 100) as [[[level xp'] need]|] eqn:Hrun;
    [|discriminate].
  intros [= <-]. cbn [Utils.lv_total_xp Utils.lv_level].
  apply level_loop_result in Hrun as (n & -> & ->).
  replace (Z.to_nat (1 + Z.of_nat n - 1)) with n by lia.
  unfold Utils.nominal_xp. rewrite fold_left_Qplus, Qplus_0_l, inject_Z_plus.
  split.
  - apply Qplus_le_compat; [apply Qle_refl|].
    apply xp_spent_below; [lia | vm_compute; discriminate].
  - intros Hlevel.
    assert (Hn : exists m, n = (4 + m)%nat) by (exists (n - 4)%nat; lia).
    destruct Hn as (m & ->).
    rewrite xp_spent_app, seq_app, fmap_app, fold_right_Qplus_app, inject_Z_plus.
    rewrite <- !Qplus_assoc. apply Qplus_le_compat; [apply Qle_refl|].
    rewrite (Qplus_comm _ (1 # 2)), Qplus_assoc.
    apply Qplus_le_compat.
    + vm_compute. discriminate.
    + apply xp_spent_below; [vm_compute; discriminate | vm_compute; discriminate].
Qed.

Lemma calculate_level_overstates_the_total_witness :
  exists r, Utils.calculate_level 10 812 = Some r /\
            (inject_Z 812 + (1 # 2) <= Utils.lv_total_xp r)%Q.
Proof.
  eexists. split; [vm_compute; reflexivity|].
  apply (calculate_level_overstates_the_total 10 812).
  - vm_compute. reflexivity.
  - vm_compute. discriminate.
Defined.

(** ** Money and coins *)

(** Rewriting a record without changing a field leaves the field of
    every user as it was. *)
Lemma fmap_insert_same {X} (f : User -> X) (m : gmap Z User) (k : Z) (u u' : User) :
  m !! k = Some u -> f u' = f u -> f <$> <[k := u']> m = f <$> m.
Proof.
  intros Hk Hf. rewrite fmap_insert. apply insert_id.
  rewrite lookup_fmap, Hk. cbn. congruence.
Qed.

(** The call has ended: every record it wrote kept the field. *)
Ltac same_field :=
  unfold balances, purses; cbn [users set_lock]; chain;
  repeat match goal with
  | E : <[_:=_]> _ !! _ = _ |- _ => present E
  end;
  repeat (erewrite fmap_insert_same;
          [ | first [apply lookup_insert_eq | eassumption] | reflexivity ]);
  reflexivity.

Lemma play_dice_keeps_balances user_id bet user_roll bot_roll w :
  lock w = false ->
  balances (final (Games.play_dice user_id bet user_roll bot_roll w)) = balances w.
Proof.
  intros L.
  destruct (Games.play_dice user_id bet user_roll bot_roll w) as [r w'|e w'|w'] eqn:H;
    cbn [final];
    unfold Games.play_dice in H;
    (branch H E1; [landed H; reflexivity|]);
    (branch H E2; [landed H; reflexivity|]);
    fwd_in H; (branch H Eu; [|landed H; reflexivity]);
    (branch H E3; [landed H; reflexivity|]);
    (branch H E4; [|branch H E5]);
    unfold Games.record_play in H;
    repeat fwd_in H; landed H; same_field.
Qed.

Lemma play_slot_keeps_balances user_id bet r w :
  lock w = false ->
  balances (final (Games.play_slot user_id bet r w)) = balances w.
Proof.
  intros L.
  destruct (Games.play_slot user_id bet r w) as [x w'|e w'|w'] eqn:H;
    cbn [final];
    unfold Games.play_slot in H;
    (branch H E1; [landed H; reflexivity|]);
    (branch H E2; [landed H; reflexivity|]);
    fwd_in H; (branch H Eu; [|landed H; reflexivity]);
    (branch H E3; [landed H; reflexivity|]);
    destruct r; cbv beta iota zeta in H;
    unfold Games.record_play in H;
    repeat fwd_in H; landed H; same_field.
Qed.

Lemma start_quiz_keeps_balances user_id w :
  lock w = false ->
  balances (final (Games.start_quiz user_id w)) = balances w.
Proof.
  intros L.
  destruct (Games.start_quiz user_id w) as [r w'|e w'|w'] eqn:H;
    cbn [final];
    unfold Games.start_quiz in H;
    fwd_in H; (branch H Eu; [|landed H; reflexivity]);
    (branch H E1; [landed H; reflexivity|]);
    repeat fwd_in H; landed H; same_field.
Qed.

Lemma buy_item_keeps_balances user_id item quantity w :
  lock w = false ->
  balances (final (Shop.buy_item user_id item quantity w)) = balances w.
Proof.
  intros L.
  destruct (Shop.buy_item user_id item quantity w) as [r w'|e w'|w'] eqn:H;
    cbn [final];
    unfold Shop.buy_item, Db.get_item, Shop._apply_item_effects,
      Shop._update_shop_item_stock in H;
    fwd_in H; (branch H Ei; [|landed H; reflexivity]);
    do 2 fwd_in H; (branch H Eu; [|landed H; reflexivity]);
    (branch H E1; [landed H; reflexivity|]);
    (branch H E2; [landed H; reflexivity|]);
    (branch H E3; [landed H; reflexivity|]);
    (branch H E4; [landed H; reflexivity|]);
    (branch H E5; repeat fwd_in H);
    try (branch H E6; repeat fwd_in H);
    landed H; same_field.
Qed.

(** X21: coins never become money.  With the lock free, neither wager,
    nor the quiz entry, nor a shop purchase changes the real-money
    balance of any user or the set of users, whichever way the call
    ends. *)
Theorem coin_operations_leave_the_balances (w : World) :
  lock w = false ->
  (forall user_id bet user_roll bot_roll,
     balances (final (Games.play_dice user_id bet user_roll bot_roll w)) = balances w) /\
  (forall user_id bet r,
     balances (final (Games.play_slot user_id bet r w)) = balances w) /\
  (forall user_id, balances (final (Games.start_quiz user_id w)) = balances w) /\
  (forall user_id item quantity,
     balances (final (Shop.buy_item user_id item quantity w)) = balances w).
Proof.
  intros L. split_and!; intros.
  - apply play_dice_keeps_balances; exact L.
  - apply play_slot_keeps_balances; exact L.
  - apply start_quiz_keeps_balances; exact L.
  - apply buy_item_keeps_balances; exact L.
Qed.

Lemma coin_operations_leave_the_balances_witness :
  balances (final (Shop.buy_item 1 "potion" 2 stocked)) = balances stocked.
Proof.
  exact (proj2 (proj2 (proj2 (coin_operations_leave_the_balances stocked eq_refl)))
           1 "potion" 2).
Defined.

Lemma request_deposit_keeps_purses user_id amt m trx w :
  lock w = false ->
  purses (final (Payments.request_deposit user_id amt m trx w)) = purses w.
Proof.
  intros L.
  destruct (Payments.request_deposit user_id amt m trx w) as [r w'|e w'|w'] eqn:H;
    cbn [final]; unfold Payments.request_deposit in H;
    (branch H E1; [landed H; reflexivity|]);
    (branch H E2; [landed H; reflexivity|]);
    (branch H E3; [|landed H; reflexivity]);
    cbn [Payments.method_supported negb] in H; cbv beta iota in H;
    repeat fwd_in H; landed H; same_field.
Qed.

Lemma request_withdraw_keeps_purses user_id amt m acct w :
  lock w = false ->
  purses (final (Payments.request_withdraw user_id amt m acct w)) = purses w.
Proof.
  intros L.
  destruct (Payments.request_withdraw user_id amt m acct w) as [r w'|e w'|w'] eqn:H;
    cbn [final];
    unfold Payments.request_withdraw, Payments._get_today_withdrawals in H;
    fwd_in H; (branch H Eu; [|landed H; reflexivity]);
    (branch H E1; [landed H; reflexivity|]);
    (branch H E2; [landed H; reflexivity|]);
    do 3 fwd_in H;
    (branch H E3; [landed H; same_field|]);
    (branch H E4; [landed H; same_field|]);
    (branch H E5; [|landed H; same_field]);
    (branch H E6; [landed H; same_field|]);
    repeat fwd_in H; landed H; same_field.
Qed.

Lemma settle_deposit_keeps_purses payment_id p trx a w :
  lock w = false ->
  purses (final (Payments.settle_deposit payment_id p trx a w)) = purses w.
Proof.
  intros L.
  destruct (settle_deposit_returns payment_id p trx a w L) as (r & w1 & H).
  rewrite H. cbn [final].
  destruct (settle_deposit_success _ _ _ _ _ _ _ H) as (t & t' & _ & _ & _ & Hu).
  unfold purses. rewrite Hu.
  destruct (users w !! p_user_id p) as [u|] eqn:Eu; [|reflexivity].
  repeat (erewrite fmap_insert_same;
          [ | first [apply lookup_insert_eq | eassumption] | reflexivity ]).
  reflexivity.
Qed.

Lemma confirm_keeps_purses c payment_id w :
  lock w = false -> purses (final (confirm c payment_id w)) = purses w.
Proof.
  intros L. destruct c as [trx a|a]; unfold confirm; rewrite final_bind_ret.
  - unfold Payments.confirm_deposit. rewrite bind_gets.
    destruct (payments w !! payment_id) as [p|]; [|reflexivity].
    destruct (negb _); [reflexivity|].
    destruct a as [a|]; [apply settle_deposit_keeps_purses; exact L|].
    destruct (Payments.auto_confirmable p);
      [apply settle_deposit_keeps_purses; exact L | reflexivity].
  - destruct (Payments.confirm_withdraw payment_id a w) as [r w'|e w'|w'] eqn:H;
      cbn [final]; unfold Payments.confirm_withdraw in H;
      fwd_in H; (branch H E0; [|landed H; reflexivity]);
      (branch H E1; [landed H; reflexivity|]);
      (branch H E2; [landed H; reflexivity|]);
      repeat fwd_in H; landed H; same_field.
Qed.

Lemma reject_payment_keeps_purses payment_id admin_id reason w :
  lock w = false ->
  purses (final (Payments.reject_payment payment_id admin_id reason w)) = purses w.
Proof.
  intros L.
  destruct (Payments.reject_payment payment_id admin_id reason w)
    as [r w'|e w'|w'] eqn:H;
    cbn [final]; unfold Payments.reject_payment in H;
    fwd_in H; (branch H E0; [|landed H; reflexivity]);
    (branch H E1; [landed H; reflexivity|]);
    (branch H E2; [fwd_in H; fwd_in H; branch H E3|]);
    repeat fwd_in H; landed H; same_field.
Qed.

(** X22: money never becomes coins.  With the lock free, no step of the
    payment workflow (a deposit or withdrawal request, a confirmation
    through either entry point, a rejection) changes the coins of any
    user or the set of users, whichever way the call ends. *)
Theorem payment_operations_leave_the_coins (w : World) :
  lock w = false ->
  (forall user_id amt m trx,
     purses (final (Payments.request_deposit user_id amt m trx w)) = purses w) /\
  (forall user_id amt m acct,
     purses (final (Payments.request_withdraw user_id amt m acct w)) = purses w) /\
  (forall c payment_id, purses (final (confirm c payment_id w)) = purses w) /\
  (forall payment_id admin_id reason,
     purses (final (Payments.reject_payment payment_id admin_id reason w)) = purses w).
Proof.
  intros L. split_and!; intros.
  - apply request_deposit_keeps_purses; exact L.
  - apply request_withdraw_keeps_purses; exact L.
  - apply confirm_keeps_purses; exact L.
  - apply reject_payment_keeps_purses; exact L.
Qed.

Lemma payment_operations_leave_the_coins_witness :
  purses (final after_withdraw_request) = purses holder.
Proof.
  exact (proj1 (proj2 (payment_operations_leave_the_coins holder eq_refl))
           1 200%Q "nagod" "01712345678").
Defined.

(** ** Refusals *)

(** X23: a refusal has no effect.  Whenever one of the operations that
    take money from a user (a withdrawal request, either wager, the quiz
    entry, a shop purchase) returns a failure, the store is as it was
    before the call, in memory and on disk: nothing was debited, filed,
    logged or saved.  At most the clock was read. *)
Theorem refused_operations_change_nothing (op : money_op) (w w' : World) (f : failure) :
  lock w = false ->
  perform op w = Ret (Some f) w' -> same_store w w'.
Proof.
  intros L H. destruct op as [user_id amt m acct|user_id bet ur br|user_id bet r
                             |user_id|user_id item quantity];
    unfold perform in H.
  - unfold Payments.request_withdraw, Payments._get_today_withdrawals in H.
    do 2 fwd_in H. branch H Eu; [|fwd_in H; landed H; apply same_store_refl].
    branch H E1; [fwd_in H; landed H; apply same_store_refl|].
    branch H E2; [fwd_in H; landed H; apply same_store_refl|].
    rewrite bind_assoc in H. tick_in H. fwd_in H.
    branch H E3; [fwd_in H; landed H; apply same_store_tick|].
    branch H E4; [fwd_in H; landed H; apply same_store_tick|].
    branch H E5; [|fwd_in H; landed H; apply same_store_tick].
    branch H E6; [fwd_in H; landed H; apply same_store_tick|].
    assert (L0 : lock (set_reads (S (reads w)) w) = false) by exact L.
    set (w0 := set_reads (S (reads w)) w) in *. clearbody w0.
    repeat fwd_in H; landed H.
  - unfold Games.play_dice in H.
    branch H E1; [fwd_in H; landed H; apply same_store_refl|].
    branch H E2; [fwd_in H; landed H; apply same_store_refl|].
    do 2 fwd_in H. branch H Eu; [|fwd_in H; landed H; apply same_store_refl].
    branch H E3; [fwd_in H; landed H; apply same_store_refl|].
    branch H E4; [|branch H E5]; unfold Games.record_play in H;
      repeat fwd_in H; landed H.
  - unfold Games.play_slot in H.
    branch H E1; [fwd_in H; landed H; apply same_store_refl|].
    branch H E2; [fwd_in H; landed H; apply same_store_refl|].
    do 2 fwd_in H. branch H Eu; [|fwd_in H; landed H; apply same_store_refl].
    branch H E3; [fwd_in H; landed H; apply same_store_refl|].
    destruct r; cbv beta iota zeta in H; unfold Games.record_play in H;
      repeat fwd_in H; landed H.
  - unfold Games.start_quiz in H.
    do 2 fwd_in H. branch H Eu; [|fwd_in H; landed H; apply same_store_refl].
    branch H E1; [fwd_in H; landed H; apply same_store_refl|].
    repeat fwd_in H; landed H.
  - unfold Shop.buy_item, Db.get_item, Shop._apply_item_effects,
      Shop._update_shop_item_stock in H.
    do 2 fwd_in H. branch H Ei; [|fwd_in H; landed H; apply same_store_refl].
    do 4 fwd_in H. branch H Eu; [|fwd_in H; landed H; apply same_store_refl].
    branch H E1; [fwd_in H; landed H; apply same_store_refl|].
    branch H E2; [fwd_in H; landed H; apply same_store_refl|].
    branch H E3; [fwd_in H; landed H; apply same_store_refl|].
    branch H E4; [fwd_in H; landed H; apply same_store_refl|].
    fwd_in H.
    branch H E5; repeat fwd_in H; try (branch H E6; repeat fwd_in H); landed H.
Qed.

Lemma refused_operations_change_nothing_witness :
  same_store one_user (final (perform (DicePlay 1 600 3 5) one_user)).
Proof.
  apply (refused_operations_change_nothing (DicePlay 1 600 3 5) one_user
           (final (perform (DicePlay 1 600 3 5) one_user)) InsufficientCoins).
  - reflexivity.
  - vm_compute. reflexivity.
Defined.

(** ** The slot machine and the quiz *)

(** X24: a covered spin hangs after the coins have moved.  With the
    lock free, a known user and a bet within the limits that the user
    can cover, [play_slot] never returns: the coins of the user are
    already those after the spin (the bet taken on a loss, otherwise the
    payout of the bet times the multiplier less the house edge, rounded
    down, minus the bet), the balance is untouched, and the call ends
    waiting on the store lock, which stays held. *)
Theorem covered_slot_spin_hangs (user_id bet : Z) (r : Games.spin) (w : World)
    (u : User)
    (Hfree : lock w = false)
    (Huser : users w !! user_id = Some u)
    (Hmin : Games.slot_min_bet <= bet) (Hmax : bet <= Games.slot_max_bet)
    (Hcover : bet <= coins u) :
  let o := Games.play_slot user_id bet r w in
  let pay (multiplier : Q) :=
    Qtrunc (inject_Z bet * (multiplier * (1 - Games.slot_house_edge))) in
  exists u',
    o = Block (final o) /\
    lock (final o) = true /\
    users (final o) !! user_id = Some u' /\
    coins u' = match r with
               | Games.SpinJackpot => coins u + (pay Games.slot_jackpot_multiplier - bet)
               | Games.SpinWin => coins u + (pay Games.slot_win_multiplier - bet)
               | Games.SpinLose => coins u - bet
               end /\
    balance u' = balance u.
Proof.
  intros o pay. subst o pay.
  apply Z.ltb_ge in Hmin, Hmax, Hcover.
  destruct (Games.play_slot user_id bet r w) as [x w'|e w'|w'] eqn:H;
    cbn [final];
    unfold Games.play_slot in H;
    rewrite Hmin, Hmax in H;
    fwd_in H; rewrite Huser in H; cbv beta iota in H; rewrite Hcover in H;
    destruct r; cbv beta iota zeta in H;
    unfold Games.record_play in H;
    repeat fwd_in H; landed H; cbn [lock users set_lock]; chain; try present E;
    try (rewrite Huser in *; discriminate).
  all: eexists.
  all: split_and!; [reflexivity | reflexivity | apply lookup_insert_eq
                    | reflexivity | reflexivity ].
Qed.

Lemma covered_slot_spin_hangs_witness :
  exists u', users (final (Games.play_slot 1 100 Games.SpinJackpot one_user)) !! 1 = Some u' /\
             coins u' = 1300.
Proof.
  destruct (covered_slot_spin_hangs 1 100 Games.SpinJackpot one_user (member 1 100 500))
    as (u' & _ & _ & Hu & Hc & _).
  - reflexivity.
  - vm_compute. reflexivity.
  - vm_compute. discriminate.
  - vm_compute. discriminate.
  - vm_compute. discriminate.
  - exists u'. split; [exact Hu|]. rewrite Hc. reflexivity.
Defined.

(** X25: the quiz entry.  With the lock free and a known user,
    [start_quiz] refuses a user with fewer coins than the entry fee and
    leaves the world as it was; otherwise it succeeds, takes exactly the
    entry fee from the coins of that user, without counting it in
    [total_spent], leaves the balance and every other user as they
    were, and releases the lock. *)
Theorem start_quiz_takes_the_entry_fee (user_id : Z) (u : User) (w : World) :
  lock w = false -> users w !! user_id = Some u ->
  let o := Games.start_quiz user_id w in
  (coins u < Games.quiz_entry_fee -> o = Ret (Failure InsufficientCoins) w) /\
  (Games.quiz_entry_fee <= coins u ->
   exists n u',
     o = Ret (Success n) (final o) /\
     users (final o) !! user_id = Some u' /\
     coins u' = coins u - Games.quiz_entry_fee /\
     balance u' = balance u /\ total_spent u' = total_spent u /\
     (forall k, k <> user_id -> users (final o) !! k = users w !! k) /\
     lock (final o) = false).
Proof.
  intros L Hu o. subst o. split.
  - intros Hlt. apply start_quiz_refuses_overdraft with (u := u); assumption.
  - intros Hge. apply Z.ltb_ge in Hge.
    destruct (Games.start_quiz user_id w) as [r w'|e w'|w'] eqn:H;
      cbn [final];
      unfold Games.start_quiz in H;
      fwd_in H; rewrite Hu in H; cbv beta iota in H; rewrite Hge in H;
      repeat fwd_in H; landed H; cbn [lock users set_lock]; chain; present E.
    do 2 eexists. split_and!;
      [reflexivity | apply lookup_insert_eq | reflexivity | reflexivity | reflexivity
      | | assumption].
    intros k Hk. rewrite !lookup_insert_ne by congruence. reflexivity.
Qed.

Lemma start_quiz_takes_the_entry_fee_witness :
  exists u', users (final (Games.start_quiz 1 one_user)) !! 1 = Some u' /\
             coins u' = 490.
Proof.
  destruct (proj2 (start_quiz_takes_the_entry_fee 1 (member 1 100 500) one_user
                     eq_refl eq_refl))
    as (n & u' & _ & Hu & Hc & _).
  - vm_compute. discriminate.
  - exists u'. split; [exact Hu|]. rewrite Hc. reflexivity.
Defined.

(** ** Account numbers *)

Section phone.
Local Open Scope string_scope.

Ltac bits a :=
  let b0 := fresh in let b1 := fresh in let b2 := fresh in let b3 := fresh in
  let b4 := fresh in let b5 := fresh in let b6 := fresh in let b7 := fresh in
  destruct a as [b0 b1 b2 b3 b4 b5 b6 b7];
  destruct b0, b1, b2, b3, b4, b5, b6, b7.

Lemma digits_then_end_iff (n : nat) :
  forall s,
  Utils.digits_then_end n s = true <->
  exists ds suffix,
    s = ds ++ suffix /\ String.length ds = n /\ all_digits ds = true /\
    (suffix = "" \/ suffix = String "010" "").
Proof.
  induction n as [|n IH]; intros s; cbn [Utils.digits_then_end].
  - split.
    + intros H. exists "", s. split_and!; try reflexivity.
      destruct s as [|c [|d s']]; [left; reflexivity | | discriminate H].
      apply Ascii.eqb_eq in H. subst c. right. reflexivity.
    + intros (ds & suffix & -> & Hl & _ & Hs).
      destruct ds; [|discriminate Hl]. cbn.
      destruct Hs as [->| ->]; reflexivity.
  - destruct s as [|c s'].
    + split; [discriminate|].
      intros (ds & suffix & Hs & Hl & _ & _).
      destruct ds; [discriminate Hl | discriminate Hs].
    + rewrite andb_true_iff, IH. split.
      * intros (Hc & ds & suffix & -> & Hl & Hd & Hs).
        exists (String c ds), suffix. cbn. rewrite Hc, Hd, Hl. auto.
      * intros (ds & suffix & Hs & Hl & Hd & Hsuf).
        destruct ds as [|d ds]; [discriminate Hl|].
        cbn in Hs, Hl, Hd. injection Hs as <- ->. injection Hl as Hl.
        apply andb_true_iff in Hd as [Hc Hd]. split; [exact Hc|].
        exists ds, suffix. auto.
Qed.

Lemma local_number_iff (s : string) :
  Utils.local_number s = true <->
  exists c s',
    s = String "0" (String "1" (String c s')) /\
    (51 <= nat_of_ascii c <= 57)%nat /\ Utils.digits_then_end 8 s' = true.
Proof.
  split.
  - intros H. destruct s as [|a [|b [|c s']]];
      try solve [bits a; discriminate H].
    + discriminate H.
    + bits a; try discriminate H; bits b; discriminate H.
    + bits a; try discriminate H; bits b; try discriminate H.
      unfold Utils.local_number in H.
      apply andb_true_iff in H as [Hc Hd]. apply andb_true_iff in Hc as [H1 H2].
      apply Nat.leb_le in H1, H2. exists c, s'. auto.
  - intros (c & s' & -> & [H1 H2] & Hd). unfold Utils.local_number.
    apply Nat.leb_le in H1, H2. rewrite H1, H2, Hd. reflexivity.
Qed.

Lemma validate_phone_cases (number : string) :
  Utils.validate_phone number = true <->
  exists prefix s',
    number = prefix ++ s' /\ (prefix = "" \/ prefix = "88" \/ prefix = "+88") /\
    Utils.local_number s' = true.
Proof.
  split.
  - intros H.
    assert (G : forall P : Prop,
              (Utils.local_number number = true -> P) ->
              (forall s', number = "88" ++ s' -> Utils.local_number s' = true -> P) ->
              (forall s', number = "+88" ++ s' -> Utils.local_number s' = true -> P) -> P).
    { intros P P0 P1 P2.
      destruct number as [|a [|b [|c s']]].
      - apply P0. exact H.
      - apply P0. bits a; exact H.
      - bits a; try (apply P0; exact H); bits b; apply P0; exact H.
      - bits a; try (apply P0; exact H); bits b; try (apply P0; exact H).
        + bits c; try (apply P0; exact H).
          apply (P2 s'); [reflexivity | exact H].
        + apply (P1 (String c s')); [reflexivity | exact H]. }
    apply G.
    + intros H0. exists "", number. auto.
    + intros s' -> H0. exists "88", s'. auto.
    + intros s' -> H0. exists "+88", s'. auto.
  - intros (prefix & s' & -> & Hp & Hl).
    destruct Hp as [->|[->| ->]]; cbn [append].
    + apply local_number_iff in Hl as Hl'. destruct Hl' as (c & s'' & -> & _ & _).
      exact Hl.
    + exact Hl.
    + exact Hl.
Qed.

(** X26: the account numbers [validate_phone] accepts.  A text is
    accepted exactly when it is an optional prefix 88 or +88, then 01,
    then one character from 3 to 9, then eight ASCII digits, and then
    nothing or one final line feed: the [$] of the pattern lets a
    trailing newline through. *)
Theorem validate_phone_accepts_exactly (number : string) :
  Utils.validate_phone number = true <->
  exists prefix c ds suffix,
    number = prefix ++ "01" ++ String c (ds ++ suffix) /\
    (prefix = "" \/ prefix = "88" \/ prefix = "+88") /\
    (51 <= nat_of_ascii c <= 57)%nat /\
    String.length ds = 8%nat /\ all_digits ds = true /\
    (suffix = "" \/ suffix = String "010" "").
Proof.
  rewrite validate_phone_cases. split.
  - intros (prefix & s' & -> & Hp & Hl).
    apply local_number_iff in Hl as (c & s'' & -> & Hc & Hd).
    apply digits_then_end_iff in Hd as (ds & suffix & -> & Hlen & Hds & Hs).
    exists prefix, c, ds, suffix. auto 10.
  - intros (prefix & c & ds & suffix & -> & Hp & Hc & Hlen & Hds & Hs).
    exists prefix, ("01" ++ String c (ds ++ suffix)). split_and!; try tauto.
    apply local_number_iff. exists c, (ds ++ suffix). split_and!; try tauto.
    apply digits_then_end_iff. exists ds, suffix. auto.
Qed.

Lemma validate_phone_accepts_exactly_witness :
  Utils.validate_phone ("01712345678" ++ String "010" "") = true.
Proof.
  apply validate_phone_accepts_exactly.
  exists "", "7"%char, "12345678", (String "010" "").
  split_and!; [reflexivity | left; reflexivity | vm_compute; lia | vm_compute; lia
              | reflexivity | reflexivity | right; reflexivity].
Defined.
End phone.
